(** * Insider-threat detection core: ingest, detector, ITS engine, agent queue

    A shallow embedding of the Team_71 backend and agent:

    - [ml_anomaly_detector.py]: per-user baselines, the 13 features, the
      pattern boost and the decision rule of [detect_anomaly];
    - [main.py]: [ThreatDetectionEngine.calculate_its_score], the daily
      snapshot, [ingest_activity] with its two escalation helpers;
    - [realtime_monitor.py]: [_send_activities_batch] and the offline queue.

    Conventions of the embedding.

    - Python floats are exact rationals ([Q]); numeric statements use [==].
    - A naive [datetime] is a number of microseconds ([Z]); every
      [datetime.now()] is one read of an explicit clock, the [n]-th read
      returning [clock n].
    - Exceptions are values of [Exn]; a handler runs in a state-and-exception
      monad over [World].
    - The fitted scikit-learn / XGBoost models, SHA-256 over the JSON dump
      and the rendering of floats inside f-strings are external: they are
      fields of [Env]. *)

From Stdlib Require Import ZArith QArith Qround String Ascii List Sorted Bool Lia
  DecimalString Lqa.
From stdpp Require Import gmap strings list.
Import ListNotations.
Local Open Scope Z_scope.

(* ================================================================= *)
(** * Python values *)

(** [min(a, b)] and [max(a, b)] on floats: the first argument wins ties. *)
Definition Qlt_bool (a b : Q) : bool := negb (Qle_bool b a).
Definition py_min (a b : Q) : Q := if Qlt_bool b a then b else a.
Definition py_max (a b : Q) : Q := if Qlt_bool a b then b else a.
Definition Qabs_py (a : Q) : Q := if Qlt_bool a 0 then (- a)%Q else a.

(** Truthiness and [x or y]. *)
Definition truthy_num (x : Q) : bool := negb (Qeq_bool x 0).
Definition or_num (x y : Q) : Q := if truthy_num x then x else y.
Definition truthy_hour (x : option Z) : bool :=
  match x with Some h => negb (h =? 0) | None => false end.
Definition or_hour (x y : option Z) : option Z := if truthy_hour x then x else y.
Definition truthy_flag (x : option bool) : bool := default false x.
Definition truthy_str (s : string) : bool :=
  match s with EmptyString => false | _ => true end.

(** [round(x, 2)]: nearest multiple of 1/100, ties to even. *)
Definition round_half_even (x : Q) : Z :=
  let f := Qfloor x in
  let r := (x - inject_Z f)%Q in
  if Qlt_bool r (1 # 2) then f
  else if Qlt_bool (1 # 2) r then f + 1
  else if Z.even f then f else f + 1.
Definition round2 (x : Q) : Q := (inject_Z (round_half_even (x * 100)) / 100)%Q.

(** [str.lower()] on ASCII and [needle in hay]. *)
Definition lower_ascii (c : ascii) : ascii :=
  let n := nat_of_ascii c in
  if (Nat.leb 65 n && Nat.leb n 90)%bool then ascii_of_nat (n + 32) else c.
Fixpoint lower (s : string) : string :=
  match s with
  | EmptyString => EmptyString
  | String c s' => String (lower_ascii c) (lower s')
  end.
Fixpoint contains (needle hay : string) : bool :=
  match hay with
  | EmptyString => String.prefix needle hay
  | String _ hay' => String.prefix needle hay || contains needle hay'
  end.

(** [f"{n:05d}"] for a non-negative id. *)
Definition str_of_int (n : Z) : string := NilZero.string_of_int (Z.to_int n).
Fixpoint zeros (n : nat) : string :=
  match n with O => EmptyString | S k => String "0" (zeros k) end.
Definition fmt_05d (n : Z) : string :=
  let s := str_of_int n in zeros (5 - String.length s) +:+ s.

(* ================================================================= *)
(** * Time *)

Definition usec_per_second : Z := 1000000.
Definition usec_per_minute : Z := 60 * usec_per_second.
Definition usec_per_hour : Z := 60 * usec_per_minute.
Definition usec_per_day : Z := 24 * usec_per_hour.

(** [dt.hour] and [timedelta.days] (floor division, as Python normalises). *)
Definition hour_of (t : Z) : Z := (t / usec_per_hour) mod 24.
Definition timedelta_days (d : Z) : Z := d / usec_per_day.
Definition midnight_of (t : Z) : Z := (t / usec_per_day) * usec_per_day.

(* ================================================================= *)
(** * Activities *)

(** The free-form [details] bag, typed by the keys the backend reads.
    [None] is an absent key. *)
Record Details := {
  size_mb : option Q;
  file_size_mb : option Q;
  sensitive : option bool;
  action : option string;
  data_sent_mb : option Q;
  attachment_size_mb : option Q;
  external_connections : option Q;
  external : option bool;
  activity_hour : option Z;
  logon_hour : option Z;
  off_hours : option bool;
  suspicious : option bool;
  process_name : option string;
  suspicious_keywords : option Q;
  geo_anomaly : option Q;
  file_path : option string;
  ip_address : option string;
  device_id : option string;
  location : option string
}.

Definition no_details : Details :=
  {| size_mb := None; file_size_mb := None; sensitive := None; action := None;
     data_sent_mb := None; attachment_size_mb := None;
     external_connections := None; external := None; activity_hour := None;
     logon_hour := None; off_hours := None; suspicious := None;
     process_name := None; suspicious_keywords := None; geo_anomaly := None;
     file_path := None; ip_address := None; device_id := None;
     location := None |}.

(** [UserActivity] (the pydantic body of the ingest endpoint). *)
Record UserActivity := {
  user_id : string;
  timestamp : Z;
  activity_type : string;
  details : Details
}.

(* ================================================================= *)
(** * Detector state *)

(** A Python [dict] whose iteration order matters ([sorted] is stable):
    an association list in insertion order. *)
Fixpoint dict_get {V} (k : Z) (d : list (Z * V)) : option V :=
  match d with
  | [] => None
  | (k', v) :: d' => if k' =? k then Some v else dict_get k d'
  end.
Fixpoint dict_set {V} (k : Z) (v : V) (d : list (Z * V)) : list (Z * V) :=
  match d with
  | [] => [(k, v)]
  | (k', v') :: d' => if k' =? k then (k, v) :: d' else (k', v') :: dict_set k v d'
  end.

(** One entry of [MLAnomalyDetector.user_baselines]. *)
Record Baseline := {
  typical_hours : gset Z;
  hour_frequency : list (Z * Z);
  avg_activity_rate : gmap string Q;
  activity_distribution : gmap string Z;
  typical_sequences : list (list string)
}.

Definition new_baseline : Baseline :=
  {| typical_hours := ∅; hour_frequency := []; avg_activity_rate := ∅;
     activity_distribution := ∅; typical_sequences := [] |}.

(** [sorted(items, key=lambda x: x[1], reverse=True)]: stable, descending. *)
Fixpoint insert_desc (x : Z * Z) (s : list (Z * Z)) : list (Z * Z) :=
  match s with
  | [] => [x]
  | y :: s' => if snd x <? snd y then y :: insert_desc x s' else x :: y :: s'
  end.
Definition sorted_desc (l : list (Z * Z)) : list (Z * Z) :=
  fold_right insert_desc [] l.

(** [max(d.values())] of a non-empty dict. *)
Definition max_value (d : list (Z * Z)) : Z :=
  match d with
  | [] => 0
  | (_, v) :: d' => fold_left (fun m kv => Z.max m (snd kv)) d' v
  end.

(** [_update_user_baseline], at server time [now]. *)
Definition _update_user_baseline (now : Z) (uid : string) (a : UserActivity)
    (ub : gmap string Baseline) : gmap string Baseline :=
  let baseline := default new_baseline (ub !! uid) in
  let current_hour := hour_of now in
  let hf := dict_set current_hour
              (default 0 (dict_get current_hour (hour_frequency baseline)) + 1)
              (hour_frequency baseline) in
  let ad := <[activity_type a :=
                default 0 (activity_distribution baseline !! activity_type a) + 1]>
              (activity_distribution baseline) in
  let th := if (100 <? Z.of_nat (length hf))
            then list_to_set (map fst (take 12 (sorted_desc hf)))
            else typical_hours baseline in
  <[uid := {| typical_hours := th; hour_frequency := hf;
              avg_activity_rate := avg_activity_rate baseline;
              activity_distribution := ad;
              typical_sequences := typical_sequences baseline |}]> ub.

(** [_calculate_off_hours_score]. *)
Definition is_off_hours (h : Z) : bool := (h <? 7) || (19 <=? h).

Definition _calculate_off_hours_score (ub : gmap string Baseline) (uid : string)
    (current_hour : Z) : Q :=
  if negb (is_off_hours current_hour) then 0%Q
  else match ub !! uid with
  | None => (8 # 10)%Q
  | Some baseline =>
    if bool_decide (current_hour ∈ typical_hours baseline) then (3 # 10)%Q
    else match hour_frequency baseline with
    | [] => (8 # 10)%Q
    | hf =>
      let max_freq := max_value hf in
      let current_freq := default 0 (dict_get current_hour hf) in
      let deviation :=
        if 0 <? max_freq
        then (1 - inject_Z current_freq / inject_Z max_freq)%Q else 1%Q in
      py_min deviation 1
    end
  end.

(** [_calculate_pattern_deviation]. *)
Definition count_type (ty : string) (recent : list UserActivity) : Z :=
  Z.of_nat (length (filter (fun a => String.eqb (activity_type a) ty) recent)).

Definition _calculate_pattern_deviation (ub : gmap string Baseline) (uid : string)
    (a : UserActivity) (recent : list UserActivity) : Q :=
  match ub !! uid with
  | None => 0%Q
  | Some baseline =>
    let typical_freq :=
      match activity_distribution baseline !! activity_type a with
      | Some n => inject_Z n | None => (1 # 10)%Q end in
    let total_recent := Z.of_nat (length recent) in
    let current_freq :=
      (inject_Z (count_type (activity_type a) recent)
       / inject_Z (Z.max total_recent 1))%Q in
    let deviation :=
      (Qabs_py (current_freq - typical_freq) / py_max typical_freq (1 # 10))%Q in
    py_min deviation 1
  end.

(** [_calculate_temporal_anomaly]. [recent[-10:]] are the last ten entries,
    [s[-len(seq):]] the last [len(seq)] of those (all of them when [seq] is
    empty, since [s[-0:]] is [s]). *)
Definition last_n {A} (n : nat) (l : list A) : list A := drop (length l - n) l.
Definition py_neg_slice {A} (n : nat) (l : list A) : list A :=
  match n with O => l | _ => last_n n l end.

Definition _calculate_temporal_anomaly (ub : gmap string Baseline) (uid : string)
    (a : UserActivity) (recent : list UserActivity) : Q :=
  match ub !! uid with
  | None => 0%Q
  | Some baseline =>
    let activity_sequence := map activity_type (last_n 10 recent) in
    match typical_sequences baseline with
    | [] => 0%Q
    | seqs =>
      if existsb (fun seq =>
                    bool_decide (py_neg_slice (length seq) activity_sequence = seq))
                 seqs
      then 0%Q else (6 # 10)%Q
    end
  end.

(* ================================================================= *)
(** * Persistence: the tables of [database.py]

    Columns filled by server-side defaults only ([created_at]) and the
    tables the ingest path never touches are left out. *)

Module User.
Record t := {
  user_id : string;
  role : string;
  its_score : Q;
  risk_level : string;
  last_updated : option Z
}.
Definition set_score (s : Q) (r : string) (now : Z) (u : t) : t :=
  {| user_id := user_id u; role := role u; its_score := s; risk_level := r;
     last_updated := Some now |}.
End User.

Module ActivityLog.
Record t := {
  activity_id : Z;
  user_id : string;
  timestamp : Z;
  activity_type : string;
  details : Details;
  ip_address : option string;
  device_id : option string;
  location : option string
}.
End ActivityLog.

Module AnomalyFingerprint.
Record t := {
  fingerprint_id : Z;
  fingerprint_hash : string;
  user_id : string;
  anomaly_type : string;
  first_seen : Z;
  last_seen : Z;
  count : Z;
  suppressed_until : option Z;
  escalated : bool
}.
Definition touch (now : Z) (f : t) : t :=
  {| fingerprint_id := fingerprint_id f; fingerprint_hash := fingerprint_hash f;
     user_id := user_id f; anomaly_type := anomaly_type f;
     first_seen := first_seen f; last_seen := now; count := count f + 1;
     suppressed_until := suppressed_until f; escalated := escalated f |}.
Definition set_suppressed_until (d : option Z) (f : t) : t :=
  {| fingerprint_id := fingerprint_id f; fingerprint_hash := fingerprint_hash f;
     user_id := user_id f; anomaly_type := anomaly_type f;
     first_seen := first_seen f; last_seen := last_seen f; count := count f;
     suppressed_until := d; escalated := escalated f |}.
Definition set_escalated (f : t) : t :=
  {| fingerprint_id := fingerprint_id f; fingerprint_hash := fingerprint_hash f;
     user_id := user_id f; anomaly_type := anomaly_type f;
     first_seen := first_seen f; last_seen := last_seen f; count := count f;
     suppressed_until := suppressed_until f; escalated := true |}.
End AnomalyFingerprint.

Module AnomalyAlert.
Record t := {
  alert_id : Z;
  user_id : string;
  timestamp : Z;
  anomaly_type : string;
  anomaly_fingerprint : string;
  ml_anomaly_score : Q;
  confidence : Q;
  activity_details : Details;
  status : string;
  escalated_to_threat_id : option Z;
  suppressed_until : option Z
}.
Definition refresh (now : Z) (ml : Q) (a : t) : t :=
  {| alert_id := alert_id a; user_id := user_id a; timestamp := now;
     anomaly_type := anomaly_type a; anomaly_fingerprint := anomaly_fingerprint a;
     ml_anomaly_score := ml; confidence := py_min (ml + (1 # 10)) 1;
     activity_details := activity_details a; status := status a;
     escalated_to_threat_id := escalated_to_threat_id a;
     suppressed_until := suppressed_until a |}.
Definition link_threat (tid : Z) (a : t) : t :=
  {| alert_id := alert_id a; user_id := user_id a; timestamp := timestamp a;
     anomaly_type := anomaly_type a; anomaly_fingerprint := anomaly_fingerprint a;
     ml_anomaly_score := ml_anomaly_score a; confidence := confidence a;
     activity_details := activity_details a; status := "escalated";
     escalated_to_threat_id := Some tid;
     suppressed_until := suppressed_until a |}.
End AnomalyAlert.

(** [ThreatAlert] of [database.py], imported in [main.py] as [ThreatAlertDB]. *)
Module ThreatAlertDB.
Record t := {
  alert_id : Z;
  user_id : string;
  timestamp : Z;
  its_score : Q;
  risk_level : string;
  anomalies : list string;
  explanation : string;
  status : string;
  is_viewed : bool
}.
Definition refresh (now : Z) (its : Q) (r : string) (an : list string)
    (ex : string) (a : t) : t :=
  {| alert_id := alert_id a; user_id := user_id a; timestamp := now;
     its_score := its; risk_level := r; anomalies := an; explanation := ex;
     status := status a; is_viewed := is_viewed a |}.
Definition set_status (s : string) (a : t) : t :=
  {| alert_id := alert_id a; user_id := user_id a; timestamp := timestamp a;
     its_score := its_score a; risk_level := risk_level a;
     anomalies := anomalies a; explanation := explanation a;
     status := s; is_viewed := is_viewed a |}.
End ThreatAlertDB.

Module Threat.
Record t := {
  threat_id : Z;
  user_id : string;
  timestamp : Z;
  threat_type : string;
  threat_fingerprint : string;
  ml_threat_score : Q;
  its_score : Q;
  risk_level : string;
  anomalies : list string;
  explanation : string;
  ml_explanation : string;
  status : string
}.
End Threat.

Module Incident.
Record t := {
  incident_id : Z;
  user_id : string;
  threat_id : option Z;
  timestamp : Z;
  incident_type : string;
  severity : string;
  ml_incident_score : Q;
  its_score : Q;
  description : string;
  evidence_alert_id : Z;
  status : string;
  assigned_to : string;
  last_updated : option Z
}.
Definition set_scores (its : Q) (i : t) : t :=
  {| incident_id := incident_id i; user_id := user_id i;
     threat_id := threat_id i; timestamp := timestamp i;
     incident_type := incident_type i; severity := severity i;
     ml_incident_score := (its / 100)%Q; its_score := its;
     description := description i; evidence_alert_id := evidence_alert_id i;
     status := status i; assigned_to := assigned_to i;
     last_updated := last_updated i |}.
Definition set_severity (sev : string) (i : t) : t :=
  {| incident_id := incident_id i; user_id := user_id i;
     threat_id := threat_id i; timestamp := timestamp i;
     incident_type := incident_type i; severity := sev;
     ml_incident_score := ml_incident_score i; its_score := its_score i;
     description := description i; evidence_alert_id := evidence_alert_id i;
     status := status i; assigned_to := assigned_to i;
     last_updated := last_updated i |}.
Definition set_last_updated (now : Z) (i : t) : t :=
  {| incident_id := incident_id i; user_id := user_id i;
     threat_id := threat_id i; timestamp := timestamp i;
     incident_type := incident_type i; severity := severity i;
     ml_incident_score := ml_incident_score i; its_score := its_score i;
     description := description i; evidence_alert_id := evidence_alert_id i;
     status := status i; assigned_to := assigned_to i;
     last_updated := Some now |}.
End Incident.

Module HistoricalITSScore.
Record t := {
  user_id : string;
  date : Z;
  its_score : Q;
  risk_level : string;
  alert_count : Z;
  activity_count : Z
}.
End HistoricalITSScore.

Record DB := {
  users : list User.t;
  activity_logs : list ActivityLog.t;
  anomaly_fingerprints : list AnomalyFingerprint.t;
  anomaly_alerts : list AnomalyAlert.t;
  threat_alerts : list ThreatAlertDB.t;
  threats : list Threat.t;
  incidents : list Incident.t;
  historical_its_scores : list HistoricalITSScore.t
}.

Definition with_users (x : list User.t) (d : DB) : DB :=
  {| users := x; activity_logs := activity_logs d;
     anomaly_fingerprints := anomaly_fingerprints d;
     anomaly_alerts := anomaly_alerts d; threat_alerts := threat_alerts d;
     threats := threats d; incidents := incidents d;
     historical_its_scores := historical_its_scores d |}.
Definition with_activity_logs (x : list ActivityLog.t) (d : DB) : DB :=
  {| users := users d; activity_logs := x;
     anomaly_fingerprints := anomaly_fingerprints d;
     anomaly_alerts := anomaly_alerts d; threat_alerts := threat_alerts d;
     threats := threats d; incidents := incidents d;
     historical_its_scores := historical_its_scores d |}.
Definition with_anomaly_fingerprints (x : list AnomalyFingerprint.t) (d : DB) : DB :=
  {| users := users d; activity_logs := activity_logs d;
     anomaly_fingerprints := x;
     anomaly_alerts := anomaly_alerts d; threat_alerts := threat_alerts d;
     threats := threats d; incidents := incidents d;
     historical_its_scores := historical_its_scores d |}.
Definition with_anomaly_alerts (x : list AnomalyAlert.t) (d : DB) : DB :=
  {| users := users d; activity_logs := activity_logs d;
     anomaly_fingerprints := anomaly_fingerprints d;
     anomaly_alerts := x; threat_alerts := threat_alerts d;
     threats := threats d; incidents := incidents d;
     historical_its_scores := historical_its_scores d |}.
Definition with_threat_alerts (x : list ThreatAlertDB.t) (d : DB) : DB :=
  {| users := users d; activity_logs := activity_logs d;
     anomaly_fingerprints := anomaly_fingerprints d;
     anomaly_alerts := anomaly_alerts d; threat_alerts := x;
     threats := threats d; incidents := incidents d;
     historical_its_scores := historical_its_scores d |}.
Definition with_threats (x : list Threat.t) (d : DB) : DB :=
  {| users := users d; activity_logs := activity_logs d;
     anomaly_fingerprints := anomaly_fingerprints d;
     anomaly_alerts := anomaly_alerts d; threat_alerts := threat_alerts d;
     threats := x; incidents := incidents d;
     historical_its_scores := historical_its_scores d |}.
Definition with_incidents (x : list Incident.t) (d : DB) : DB :=
  {| users := users d; activity_logs := activity_logs d;
     anomaly_fingerprints := anomaly_fingerprints d;
     anomaly_alerts := anomaly_alerts d; threat_alerts := threat_alerts d;
     threats := threats d; incidents := x;
     historical_its_scores := historical_its_scores d |}.
Definition with_historical (x : list HistoricalITSScore.t) (d : DB) : DB :=
  {| users := users d; activity_logs := activity_logs d;
     anomaly_fingerprints := anomaly_fingerprints d;
     anomaly_alerts := anomaly_alerts d; threat_alerts := threat_alerts d;
     threats := threats d; incidents := incidents d;
     historical_its_scores := x |}.

(** Query helpers: [.first()], in-place change of the first matching row,
    autoincrement keys (one more than the largest key in the table),
    [order_by(desc(...))]. *)
Definition first_where {A} (p : A -> bool) (l : list A) : option A := find p l.
Fixpoint update_first {A} (p : A -> bool) (f : A -> A) (l : list A) : list A :=
  match l with
  | [] => []
  | x :: l' => if p x then f x :: l' else x :: update_first p f l'
  end.
Definition next_id {A} (key : A -> Z) (l : list A) : Z :=
  fold_right (fun x m => Z.max (key x) m) 0 l + 1.

Fixpoint insert_by_desc {A} (key : A -> Z) (x : A) (s : list A) : list A :=
  match s with
  | [] => [x]
  | y :: s' => if key x <? key y then y :: insert_by_desc key x s' else x :: y :: s'
  end.
Definition order_by_desc {A} (key : A -> Z) (l : list A) : list A :=
  fold_right (insert_by_desc key) [] l.

(* ================================================================= *)
(** * The world, the environment, the monad *)

(** Exceptions that can cross the [try] of a handler. *)
Inductive Exn :=
| HTTPException (status_code : Z) (detail : string)
| UnboundLocalError (name : string)
| AttributeError (msg : string).

(** [str(e)]: Starlette renders an [HTTPException] as "code: detail";
    CPython words the unbound-local message as below. *)
Definition exn_str (e : Exn) : string :=
  match e with
  | HTTPException c d => str_of_int c +:+ ": " +:+ d
  | UnboundLocalError n =>
      "cannot access local variable '" +:+ n
      +:+ "' where it is not associated with a value"
  | AttributeError m => m
  end.

(** The server process: the committed database, the session's working
    copy, the detector's in-memory baselines, and how many times the
    clock has been read. *)
Record World := {
  committed : DB;
  session : DB;
  user_baselines : gmap string Baseline;
  clock_reads : nat
}.

(** [MLAnomalyDetector]'s fitted estimators. [anomaly_scorer_predict]
    answers [None] where [predict] raises (the regressor is never fitted
    by the detector itself). *)
Record DetectorModels := {
  scaler_transform : list Q -> list Q;
  isolation_forest_predict : list Q -> Z;
  isolation_forest_score_samples : list Q -> Q;
  anomaly_scorer_predict : list Q -> option Q;
  pow_half : Q -> Q
}.

(** [ModelRegistry]: every estimator is [None] until [load_models]. *)
Record ModelRegistry := {
  xgb_model : option (list Q -> Q);
  rf_model : option (list Q -> Q);
  iso_forest : option (list Q -> Q);
  scaler : option (list Q -> list Q)
}.

(** What [generate_fingerprint] serialises and hashes. *)
Record FingerprintData := {
  fp_user_id : string;
  fp_activity_type : string;
  fp_file_path : string;
  fp_process_name : string;
  fp_ip_address : string;
  fp_device_id : string;
  fp_large_file : bool;
  fp_sensitive : bool;
  fp_external : bool;
  fp_off_hours : bool
}.

Record Env := {
  clock : nat -> Z;
  detector_models : DetectorModels;
  models : ModelRegistry;
  sha256_json : FingerprintData -> string;
  (** [_generate_explanation] and the ITS explanation: text with rendered
      floats. *)
  generate_explanation : UserActivity -> list Q -> Q -> Q -> string;
  its_explanation : Q -> Q -> Q -> list string -> string;
  (** [f"{x:<spec>}"]. *)
  fmt : string -> Q -> string
}.

Definition M (A : Type) : Type := World -> (Exn + A) * World.

Definition ret {A} (a : A) : M A := fun w => (inr a, w).
Definition bind {A B} (c : M A) (k : A -> M B) : M B :=
  fun w => match c w with
           | (inr a, w') => k a w'
           | (inl e, w') => (inl e, w')
           end.
Definition raise {A} (e : Exn) : M A := fun w => (inl e, w).
(** [try: c  except Exception as e: h e]. *)
Definition try_except {A} (c : M A) (h : Exn -> M A) : M A :=
  fun w => match c w with
           | (inr a, w') => (inr a, w')
           | (inl e, w') => h e w'
           end.

Notation "'let!' x ':=' c 'in' k" := (bind c (fun x => k))
  (at level 10, x pattern, c at level 100, k at level 200).
Notation "'do!' c 'then' k" := (bind c (fun _ => k))
  (at level 10, c at level 100, k at level 200).

(** [datetime.now()]. *)
Definition datetime_now (env : Env) : M Z :=
  fun w => (inr (clock env (clock_reads w)),
            {| committed := committed w; session := session w;
               user_baselines := user_baselines w;
               clock_reads := S (clock_reads w) |}).

Definition get_db : M DB := fun w => (inr (session w), w).
Definition modify_db (f : DB -> DB) : M unit :=
  fun w => (inr tt, {| committed := committed w; session := f (session w);
                       user_baselines := user_baselines w;
                       clock_reads := clock_reads w |}).
(** [db.commit()] and [db.rollback()]. *)
Definition commit : M unit :=
  fun w => (inr tt, {| committed := session w; session := session w;
                       user_baselines := user_baselines w;
                       clock_reads := clock_reads w |}).
Definition rollback : M unit :=
  fun w => (inr tt, {| committed := committed w; session := committed w;
                       user_baselines := user_baselines w;
                       clock_reads := clock_reads w |}).
Definition get_baselines : M (gmap string Baseline) :=
  fun w => (inr (user_baselines w), w).
Definition modify_baselines (f : gmap string Baseline -> gmap string Baseline)
    : M unit :=
  fun w => (inr tt, {| committed := committed w; session := session w;
                       user_baselines := f (user_baselines w);
                       clock_reads := clock_reads w |}).

(* ================================================================= *)
(** * The detector: features, score, decision *)

Definition num (x : option Q) : Q := default 0%Q x.
Definition text (x : option string) : string := default EmptyString x.

Definition is_file_access (a : UserActivity) : bool :=
  String.eqb (activity_type a) "file_access".

(** [details.get('activity_hour') or details.get('logon_hour')], then the
    hour parsed from the ISO timestamp when that is [None]. *)
Definition event_hour (a : UserActivity) : Z :=
  match or_hour (activity_hour (details a)) (logon_hour (details a)) with
  | Some h => h
  | None => hour_of (timestamp a)
  end.

Definition any_keyword (kws : list string) (s : string) : bool :=
  existsb (fun kw => contains kw s) kws.

(** [_calculate_rapid_activity_score]: the clock is read only once a
    baseline exists. *)
Definition _calculate_rapid_activity_score (env : Env) (uid : string)
    (recent : list UserActivity) (ty : string) : M Q :=
  let! ub := get_baselines in
  match ub !! uid with
  | None => ret 0%Q
  | Some baseline =>
    let avg := default 1%Q (avg_activity_rate baseline !! ty) in
    let! now := datetime_now env in
    let cutoff := now - 5 * usec_per_minute in
    let recent_count :=
      Z.of_nat (length (filter (fun a => String.eqb (activity_type a) ty
                                         && (cutoff <? timestamp a)) recent)) in
    if Qlt_bool 0 avg then
      let z_score := ((inject_Z recent_count - avg)
                      / (pow_half (detector_models env) avg + 1))%Q in
      ret (py_min (py_max (z_score / 3) 0) 1)
    else ret 0%Q
  end.

(** [_extract_ml_features]: the 13 features, in the order of
    [feature_names]. *)
Definition _extract_ml_features (env : Env) (a : UserActivity) (uid : string)
    (recent : list UserActivity) : M (list Q) :=
  let d := details a in
  let file_size := or_num (num (size_mb d)) (num (file_size_mb d)) in
  let file_count := inject_Z (Z.of_nat (length (filter is_file_access recent))) in
  let sensitive_count :=
    inject_Z (Z.of_nat (length (filter (fun r =>
      is_file_access r && truthy_flag (sensitive (details r))) recent))) in
  let delete_count :=
    inject_Z (Z.of_nat (length (filter (fun r =>
      is_file_access r
      && bool_decide (action (details r) = Some "delete"%string)) recent))) in
  let data_transfer := or_num (num (data_sent_mb d)) (num (attachment_size_mb d)) in
  let external_conns := num (external_connections d) in
  let email_attachment := num (attachment_size_mb d) in
  let external_emails :=
    inject_Z (Z.of_nat (length (filter (fun r =>
      String.eqb (activity_type r) "email"
      && truthy_flag (external (details r))) recent))) in
  let! ub := get_baselines in
  let off_hours_score := _calculate_off_hours_score ub uid (event_hour a) in
  let process_suspicious_score :=
    if truthy_flag (suspicious d)
       || any_keyword ["tor"; "vpn"; "remote"; "ssh"; "ftp"; "wireshark"; "nmap"]%string
                      (lower (text (process_name d)))
    then 1%Q else 0%Q in
  let! rapid_activity_score :=
    _calculate_rapid_activity_score env uid recent (activity_type a) in
  let pattern_deviation_score := _calculate_pattern_deviation ub uid a recent in
  let temporal_anomaly_score := _calculate_temporal_anomaly ub uid a recent in
  ret [file_size; file_count; sensitive_count; delete_count; data_transfer;
       external_conns; email_attachment; external_emails; off_hours_score;
       process_suspicious_score; rapid_activity_score;
       pattern_deviation_score; temporal_anomaly_score].

(** The pattern boost of [detect_anomaly]. *)
Definition pattern_boost (a : UserActivity) (recent : list UserActivity) : Q :=
  let d := details a in
  let b1 := if Qlt_bool 50 (num (size_mb d)) || Qlt_bool 50 (num (file_size_mb d))
            then (15 # 100)%Q else 0%Q in
  let b2 := if truthy_flag (sensitive d) then (20 # 100)%Q else 0%Q in
  let b3 := if truthy_flag (external d) && Qlt_bool 10 (num (attachment_size_mb d))
            then (25 # 100)%Q else 0%Q in
  let is_actually_off_hours :=
    if truthy_flag (off_hours d) then true else is_off_hours (event_hour a) in
  let b4 := if is_actually_off_hours then (15 # 100)%Q else 0%Q in
  let b5 := if truthy_flag (suspicious d)
               || any_keyword ["tor"; "vpn"; "ssh"; "nmap"; "wireshark"]%string
                              (lower (text (process_name d)))
            then (20 # 100)%Q else 0%Q in
  let b6 := if 10 <=? count_type (activity_type a) recent
            then (15 # 100)%Q else 0%Q in
  (0 + b1 + b2 + b3 + b4 + b5 + b6)%Q.

(** [detect_anomaly], lines 295-300: the baseline is updated, then the
    features are extracted against the updated baseline. *)
Definition observe (env : Env) (a : UserActivity) (uid : string)
    (recent : list UserActivity) : M (list Q) :=
  let! now := datetime_now env in
  do! modify_baselines (_update_user_baseline now uid a) then
  _extract_ml_features env a uid recent.

(** [detect_anomaly], lines 302-377: ensemble, boost, the 0.30 rule.
    The result is [(is_anomaly, ml_score, explanation)]. *)
Definition verdict (env : Env) (a : UserActivity) (recent : list UserActivity)
    (features : list Q) : bool * Q * string :=
  let dm := detector_models env in
  let features_scaled := scaler_transform dm features in
  let iso_pred := isolation_forest_predict dm features_scaled in
  let iso_score := (- isolation_forest_score_samples dm features_scaled)%Q in
  let iso_score_norm := py_min (py_max ((iso_score + (1 # 2)) / 1) 0) 1 in
  let anomaly_score :=
    match anomaly_scorer_predict dm features_scaled with
    | Some s => py_min (py_max s 0) 1
    | None => iso_score_norm
    end in
  let ml_score := (iso_score_norm * (6 # 10) + anomaly_score * (4 # 10))%Q in
  let ml_score := py_min (ml_score + pattern_boost a recent) (95 # 100) in
  let is_anomaly := Qle_bool (3 # 10) ml_score || (iso_pred =? -1) in
  let explanation := generate_explanation env a features ml_score iso_score_norm in
  (is_anomaly, ml_score, explanation).

Definition detect_anomaly (env : Env) (a : UserActivity) (uid : string)
    (recent : list UserActivity) : M (bool * Q * string) :=
  let! features := observe env a uid recent in
  ret (verdict env a recent features).

(** [generate_fingerprint]. *)
Definition generate_fingerprint (env : Env) (a : UserActivity) (uid : string)
    : string :=
  let d := details a in
  sha256_json env
    {| fp_user_id := uid;
       fp_activity_type := activity_type a;
       fp_file_path := substring 0 100 (text (file_path d));
       fp_process_name := text (process_name d);
       fp_ip_address := text (ip_address d);
       fp_device_id := text (device_id d);
       fp_large_file := Qlt_bool 50 (num (size_mb d));
       fp_sensitive := truthy_flag (sensitive d);
       fp_external := truthy_flag (external d);
       fp_off_hours := truthy_flag (off_hours d) |}.

(* ================================================================= *)
(** * The ITS engine *)

Module ScoreData.
Record t := {
  its_score : Q;
  risk_level : string;
  anomalies : list string;
  explanation : string
}.
End ScoreData.

(** The one-row frame built by [extract_features], in the order of
    [ModelRegistry.feature_cols]. *)
Record Features := {
  role_encoded : Q;
  f_logon_hour : Q;
  logon_count : Q;
  f_geo_anomaly : Q;
  file_accesses : Q;
  sensitive_file_access : Q;
  file_download_size_mb : Q;
  emails_sent : Q;
  external_emails : Q;
  large_attachments : Q;
  f_suspicious_keywords : Q;
  f_off_hours : Q;
  file_to_email_ratio : Q;
  external_email_ratio : Q;
  sensitive_access_rate : Q;
  logon_count_ma7 : Q;
  file_accesses_ma7 : Q;
  emails_ma7 : Q
}.

Definition feature_cols (f : Features) : list Q :=
  [role_encoded f; f_logon_hour f; logon_count f; f_geo_anomaly f;
   file_accesses f; sensitive_file_access f; file_download_size_mb f;
   emails_sent f; external_emails f; large_attachments f;
   f_suspicious_keywords f; f_off_hours f; file_to_email_ratio f;
   external_email_ratio f; sensitive_access_rate f; logon_count_ma7 f;
   file_accesses_ma7 f; emails_ma7 f].

Definition role_mapping (r : string) : Q :=
  if String.eqb r "Developer" then 0
  else if String.eqb r "HR" then 1
  else if String.eqb r "Finance" then 2
  else if String.eqb r "Manager" then 3
  else if String.eqb r "Sales" then 4
  else 0.

Definition Qsum (l : list Q) : Q := fold_right Qplus 0%Q l.
Definition Qlen {A} (l : list A) : Q := inject_Z (Z.of_nat (length l)).
Definition of_type (ty : string) (acts : list ActivityLog.t) : list ActivityLog.t :=
  filter (fun a => String.eqb (ActivityLog.activity_type a) ty) acts.

Definition details_sum (f : Details -> Q) (l : list ActivityLog.t) : Q :=
  Qsum (map (fun a => f (ActivityLog.details a)) l).
Definition flagQ (b : bool) : Q := if b then 1%Q else 0%Q.

Definition extract_features (acts : list ActivityLog.t) (user_role : string)
    : option Features :=
  match acts with
  | [] => None
  | _ =>
    let logons := of_type "logon" acts in
    let files := of_type "file_access" acts in
    let emails := of_type "email" acts in
    let hour :=
      match logons with
      | [] => 9%Q
      | _ => (Qsum (map (fun a => inject_Z (hour_of (ActivityLog.timestamp a))) logons)
              / Qlen logons)%Q
      end in
    let n_logon := Qlen logons in
    let n_file := Qlen files in
    let n_email := Qlen emails in
    let n_sensitive := details_sum (fun d => flagQ (truthy_flag (sensitive d))) files in
    let n_external := details_sum (fun d => flagQ (truthy_flag (external d))) emails in
    Some {| role_encoded := role_mapping user_role;
            f_logon_hour := hour;
            logon_count := n_logon;
            f_geo_anomaly := details_sum (fun d => num (geo_anomaly d)) logons;
            file_accesses := n_file;
            sensitive_file_access := n_sensitive;
            file_download_size_mb := details_sum (fun d => num (size_mb d)) files;
            emails_sent := n_email;
            external_emails := n_external;
            large_attachments :=
              details_sum (fun d => flagQ (Qlt_bool 10 (num (attachment_size_mb d)))) emails;
            f_suspicious_keywords :=
              details_sum (fun d => inject_Z (Qfloor (num (suspicious_keywords d)))) emails;
            f_off_hours := flagQ (Qlt_bool hour 7 || Qle_bool 19 hour);
            file_to_email_ratio := (n_file / (n_email + 1))%Q;
            external_email_ratio := (n_external / (n_email + 1))%Q;
            sensitive_access_rate := (n_sensitive / (n_file + 1))%Q;
            logon_count_ma7 := n_logon;
            file_accesses_ma7 := n_file;
            emails_ma7 := n_email |}
  end.

(** The risk bands of the ITS engine. *)
Definition its_risk_level (its_score : Q) : string :=
  if Qle_bool 75 its_score then "critical"
  else if Qle_bool 50 its_score then "high"
  else if Qle_bool 25 its_score then "medium"
  else "low".

(** The baseline floor of [calculate_its_score]: [rows] is the list the
    score was computed from, in the order the query returned it, and
    [now] the clock read inside the branch. *)
Definition recency_factor (days_old : Z) : Q :=
  py_max (1 # 2) (1 - inject_Z days_old / 7)%Q.
Definition baseline_floor (activity_count : Z) (days_old : Z) : Q :=
  py_min (8 + inject_Z activity_count * (2 # 10) * recency_factor days_old)%Q 20.
Definition days_old_of (now : Z) (rows : list ActivityLog.t) : Z :=
  match last rows with
  | Some r => timedelta_days (now - ActivityLog.timestamp r)
  | None => 7
  end.

Definition its_anomalies (env : Env) (f : Features) : list string :=
  (if Qeq_bool (f_off_hours f) 1 then ["Off-hours activity detected"] else [])
  ++ (if Qlt_bool 0 (f_geo_anomaly f) then ["Geographically impossible login"] else [])
  ++ (if Qle_bool 5 (sensitive_file_access f)
      then ["High sensitive file access ("
            +:+ str_of_int (Qfloor (sensitive_file_access f)) +:+ " files)"] else [])
  ++ (if Qlt_bool (1 # 2) (external_email_ratio f)
      then ["High external email ratio ("
            +:+ fmt env ".0%" (external_email_ratio f) +:+ ")"] else [])
  ++ (if Qlt_bool 2 (large_attachments f)
      then ["Multiple large attachments ("
            +:+ str_of_int (Qfloor (large_attachments f)) +:+ ")"] else [])
  ++ (if Qlt_bool 0 (f_suspicious_keywords f) then ["Suspicious keywords in emails"] else [])
  ++ (if Qlt_bool 500 (file_download_size_mb f)
      then ["Large data download ("
            +:+ fmt env ".0f" (file_download_size_mb f) +:+ " MB)"] else []).

Definition user_rows (uid : string) (db : DB) : list ActivityLog.t :=
  filter (fun a => String.eqb (ActivityLog.user_id a) uid) (activity_logs db).

Definition model_call {A B} (m : option (A -> B)) (attr : string) (x : A) : M B :=
  match m with
  | Some f => ret (f x)
  | None => raise (AttributeError
                     ("'NoneType' object has no attribute '" +:+ attr +:+ "'"))
  end.

(** The scoring of a non-empty row list: ensemble, then the floor. *)
Definition score_rows (env : Env) (user : User.t) (rows : list ActivityLog.t)
    : M ScoreData.t :=
  match extract_features rows (User.role user) with
  | None =>
    let activity_count := Z.of_nat (length rows) in
    let baseline_score := py_min (5 + inject_Z activity_count * (3 # 10))%Q 12 in
    ret {| ScoreData.its_score := round2 baseline_score;
           ScoreData.risk_level := "low"; ScoreData.anomalies := [];
           ScoreData.explanation :=
             "Baseline score based on " +:+ str_of_int activity_count
             +:+ " activities" |}
  | Some f =>
    let! features_scaled := model_call (scaler (models env)) "transform" (feature_cols f) in
    let! xgb_proba := model_call (xgb_model (models env)) "predict_proba" features_scaled in
    let! rf_proba := model_call (rf_model (models env)) "predict_proba" features_scaled in
    let! samples := model_call (iso_forest (models env)) "score_samples" features_scaled in
    let iso_score := (- samples)%Q in
    let iso_score_norm := py_min (py_max ((iso_score + (1 # 2)) / 1) 0) 1 in
    let its_score :=
      ((xgb_proba * (5 # 10) + rf_proba * (3 # 10) + iso_score_norm * (2 # 10)) * 100)%Q in
    let activity_count := Z.of_nat (length rows) in
    let! its_score :=
      if Qlt_bool its_score 8 && (0 <? activity_count) then
        let! now := datetime_now env in
        ret (py_max its_score (baseline_floor activity_count (days_old_of now rows)))
      else ret its_score in
    let anomalies := its_anomalies env f in
    ret {| ScoreData.its_score := round2 its_score;
           ScoreData.risk_level := its_risk_level its_score;
           ScoreData.anomalies := anomalies;
           ScoreData.explanation :=
             its_explanation env its_score xgb_proba iso_score_norm anomalies |}
  end.

(** [ThreatDetectionEngine.calculate_its_score]. *)
Definition calculate_its_score (env : Env) (uid : string) : M ScoreData.t :=
  let! db := get_db in
  match first_where (fun u => String.eqb (User.user_id u) uid) (users db) with
  | None =>
    ret {| ScoreData.its_score := 0; ScoreData.risk_level := "low";
           ScoreData.anomalies := []; ScoreData.explanation := "User not found" |}
  | Some user =>
    let! now := datetime_now env in
    let cutoff := now - 7 * usec_per_day in
    let recent_activities_db :=
      order_by_desc ActivityLog.timestamp
        (filter (fun a => cutoff <=? ActivityLog.timestamp a) (user_rows uid db)) in
    match recent_activities_db with
    | [] =>
      let all_activities_db :=
        take 50 (order_by_desc ActivityLog.timestamp (user_rows uid db)) in
      match all_activities_db with
      | [] =>
        ret {| ScoreData.its_score := 5; ScoreData.risk_level := "low";
               ScoreData.anomalies := [];
               ScoreData.explanation :=
                 "No activity data available - baseline score" |}
      | _ => score_rows env user (take 20 all_activities_db)
      end
    | _ => score_rows env user recent_activities_db
    end
  end.

(** [_save_daily_its_snapshot]: upsert of the row for (user, today). *)
Definition _save_daily_its_snapshot (env : Env) (uid : string)
    (score_data : ScoreData.t) : M unit :=
  let! now := datetime_now env in
  let today := midnight_of now in
  let today_end := today + usec_per_day in
  let same (h : HistoricalITSScore.t) :=
    String.eqb (HistoricalITSScore.user_id h) uid
    && (HistoricalITSScore.date h =? today) in
  let! db := get_db in
  let alert_count :=
    Z.of_nat (length (filter (fun a =>
      String.eqb (ThreatAlertDB.user_id a) uid
      && (today <=? ThreatAlertDB.timestamp a)
      && (ThreatAlertDB.timestamp a <? today_end)) (threat_alerts db))) in
  let activity_count :=
    Z.of_nat (length (filter (fun a =>
      (today <=? ActivityLog.timestamp a)
      && (ActivityLog.timestamp a <? today_end)) (user_rows uid db))) in
  let row :=
    {| HistoricalITSScore.user_id := uid; HistoricalITSScore.date := today;
       HistoricalITSScore.its_score := ScoreData.its_score score_data;
       HistoricalITSScore.risk_level := ScoreData.risk_level score_data;
       HistoricalITSScore.alert_count := alert_count;
       HistoricalITSScore.activity_count := activity_count |} in
  match first_where same (historical_its_scores db) with
  | Some _ =>
    modify_db (fun db => with_historical
                 (update_first same (fun _ => row) (historical_its_scores db)) db)
  | None =>
    modify_db (fun db => with_historical (historical_its_scores db ++ [row]) db)
  end.

(* ================================================================= *)
(** * The ingest endpoint *)

Definition ALERT_SUPPRESSION_HOURS : Z := 24.
Definition THREAT_ESCALATION_THRESHOLD : Q := 75 # 100.

(** JSON bodies. [JTime t] stands for the ISO-8601 text of [t]. *)
#[local] Set Warnings "-register-all".
Inductive Json :=
| JBool (b : bool)
| JNum (q : Q)
| JStr (s : string)
| JTime (t : Z)
| JStrs (l : list string)
| JObj (fields : list (string * Json)).
#[local] Set Warnings "register-all".

Inductive HttpResponse :=
| Ok200 (body : list (string * Json))
| HttpError (status_code : Z) (detail : string).

Fixpoint field (k : string) (body : list (string * Json)) : option Json :=
  match body with
  | [] => None
  | (k', v) :: body' => if String.eqb k' k then Some v else field k body'
  end.

Fixpoint join (sep : string) (l : list string) : string :=
  match l with
  | [] => EmptyString
  | [x] => x
  | x :: l' => x +:+ sep +:+ join sep l'
  end.

(** The risk band of a new or refreshed alert. *)
Definition risk_band (ml_score its_score : Q) : string :=
  if Qle_bool (8 # 10) ml_score || Qle_bool 70 its_score then "critical"
  else if Qle_bool (6 # 10) ml_score || Qle_bool 50 its_score then "high"
  else if Qle_bool (4 # 10) ml_score || Qle_bool 30 its_score then "medium"
  else "low".

(** [should_escalate] of the new-alert branch. *)
Definition should_escalate (risk_level : string) (ml_score its_score : Q) : bool :=
  String.eqb risk_level "critical"
  || (String.eqb risk_level "high" && Qle_bool 50 its_score)
  || (String.eqb risk_level "high" && Qle_bool (7 # 10) ml_score)
  || Qle_bool 65 its_score.

Definition anomalies_of (explanation : string) (a : UserActivity) : list string :=
  let ex := lower explanation in
  let l :=
    (if contains "large file" ex || contains "file" (activity_type a)
     then ["Large file access"] else [])
    ++ (if contains "sensitive" ex then ["Sensitive file access"] else [])
    ++ (if contains "off-hours" ex || contains "off hours" ex
        then ["Off-hours activity"] else [])
    ++ (if contains "external" ex then ["External communication"] else [])
    ++ (if contains "suspicious" ex then ["Suspicious activity"] else [])in
  match l with
  | [] => ["Anomaly detected: " +:+ activity_type a]
  | _ => l
  end.

Definition _determine_threat_type (a : UserActivity) (explanation : string) : string :=
  let ex := lower explanation in
  if contains "data transfer" ex || contains "large" ex then "data_exfiltration"
  else if contains "sensitive" ex then "unauthorized_access"
  else if contains "sabotage" ex || contains "delete" ex then "sabotage"
  else if contains "off-hours" ex then "policy_violation"
  else "suspicious_activity".

Definition _determine_incident_type (a : UserActivity) (explanation : string) : string :=
  let ex := lower explanation in
  if contains "data" ex && (contains "exfiltrat" ex || contains "transfer" ex)
  then "data_breach"
  else if contains "sabotage" ex || contains "delete" ex then "insider_attack"
  else if contains "unauthorized" ex || contains "access" ex then "unauthorized_access"
  else if contains "policy" ex || contains "violation" ex then "policy_violation"
  else if String.eqb (activity_type a) "email" && truthy_flag (external (details a))
  then "data_breach"
  else if String.eqb (activity_type a) "file_access"
          && truthy_flag (sensitive (details a))
  then "unauthorized_access"
  else "suspicious_activity".

Definition has_hash (h : string) (f : AnomalyFingerprint.t) : bool :=
  String.eqb (AnomalyFingerprint.fingerprint_hash f) h.

(** [_escalate_to_threat]: any exception inside is swallowed into [None]. *)
Definition _escalate_to_threat (env : Env) (anomaly_alert : AnomalyAlert.t)
    (a : UserActivity) (ml_score : Q) (explanation : string)
    : M (option Threat.t) :=
  let fp := AnomalyAlert.anomaly_fingerprint anomaly_alert in
  try_except
    (let! db := get_db in
     match first_where (fun t => String.eqb (Threat.threat_fingerprint t) fp)
                       (threats db) with
     | Some existing_threat => ret (Some existing_threat)
     | None =>
       let! score_data := calculate_its_score env (user_id a) in
       let threat_type := _determine_threat_type a explanation in
       let! now := datetime_now env in
       let! db := get_db in
       let threat :=
         {| Threat.threat_id := next_id Threat.threat_id (threats db);
            Threat.user_id := user_id a;
            Threat.timestamp := now;
            Threat.threat_type := threat_type;
            Threat.threat_fingerprint := fp;
            Threat.ml_threat_score := ml_score;
            Threat.its_score := ScoreData.its_score score_data;
            Threat.risk_level := ScoreData.risk_level score_data;
            Threat.anomalies := [explanation];
            Threat.explanation := ScoreData.explanation score_data;
            Threat.ml_explanation :=
              "ML-based detection: " +:+ fmt env ".2%" ml_score
              +:+ " confidence. " +:+ explanation;
            Threat.status := "open" |} in
       do! modify_db (fun db => with_threats (threats db ++ [threat]) db) then
       do! commit then
       do! modify_db (fun db =>
             with_anomaly_alerts
               (update_first
                  (fun x => AnomalyAlert.alert_id x
                            =? AnomalyAlert.alert_id anomaly_alert)
                  (AnomalyAlert.link_threat (Threat.threat_id threat))
                  (anomaly_alerts db)) db) then
       do! commit then
       let! db := get_db in
       do! match first_where (has_hash fp) (anomaly_fingerprints db) with
           | Some _ =>
             do! modify_db (fun db =>
                   with_anomaly_fingerprints
                     (update_first (has_hash fp) AnomalyFingerprint.set_escalated
                                   (anomaly_fingerprints db)) db) then
             commit
           | None => ret tt
           end then
       ret (Some threat)
     end)
    (fun _ => ret None).

Definition serious (s : string) : bool :=
  String.eqb s "high" || String.eqb s "critical".

(** [_auto_escalate_to_incident]: refresh the user's open incident of the
    last two hours, or create one. The evidence payload is kept as the id
    of the alert it cites. *)
Definition _auto_escalate_to_incident (env : Env) (threat_alert : ThreatAlertDB.t)
    (a : UserActivity) (score_data : ScoreData.t) (explanation : string)
    : M (option Incident.t) :=
  try_except
    (let! now := datetime_now env in
     let cutoff_time := now - 2 * usec_per_hour in
     let! db := get_db in
     let active (i : Incident.t) :=
       String.eqb (Incident.user_id i) (user_id a)
       && (cutoff_time <=? Incident.timestamp i)
       && (String.eqb (Incident.status i) "open"
           || String.eqb (Incident.status i) "in_progress") in
     let its := ScoreData.its_score score_data in
     match head (order_by_desc Incident.timestamp (filter active (incidents db))) with
     | Some existing_incident =>
       let i1 := if Qlt_bool (Incident.its_score existing_incident) its
                 then Incident.set_scores its existing_incident
                 else existing_incident in
       let i2 := if serious (ThreatAlertDB.risk_level threat_alert)
                    && negb (serious (Incident.severity i1))
                 then Incident.set_severity (ThreatAlertDB.risk_level threat_alert) i1
                 else i1 in
       let! now := datetime_now env in
       let i3 := Incident.set_last_updated now i2 in
       do! modify_db (fun db =>
             with_incidents
               (update_first
                  (fun x => Incident.incident_id x
                            =? Incident.incident_id existing_incident)
                  (fun _ => i3) (incidents db)) db) then
       do! commit then
       ret (Some i3)
     | None =>
       let incident_type := _determine_incident_type a explanation in
       let severity := ThreatAlertDB.risk_level threat_alert in
       let severity :=
         if existsb (String.eqb severity) ["low"; "medium"; "high"; "critical"]%string
         then severity else its_risk_level its in
       let description_parts :=
         [if truthy_str explanation then explanation
          else "Auto-escalated from alert ALT"
               +:+ fmt_05d (ThreatAlertDB.alert_id threat_alert)]
         ++ match ThreatAlertDB.anomalies threat_alert with
            | [] => []
            | an => ["Anomalies: " +:+ join ", " (take 3 an)]
            end in
       let! now := datetime_now env in
       let! db := get_db in
       let incident :=
         {| Incident.incident_id := next_id Incident.incident_id (incidents db);
            Incident.user_id := user_id a;
            Incident.threat_id := None;
            Incident.timestamp := now;
            Incident.incident_type := incident_type;
            Incident.severity := severity;
            Incident.ml_incident_score := (its / 100)%Q;
            Incident.its_score := its;
            Incident.description := join ". " description_parts;
            Incident.evidence_alert_id := ThreatAlertDB.alert_id threat_alert;
            Incident.status := "open";
            Incident.assigned_to := "Security Team";
            Incident.last_updated := None |} in
       do! modify_db (fun db => with_incidents (incidents db ++ [incident]) db) then
       do! commit then
       ret (Some incident)
     end)
    (fun _ => ret None).

(** The local variables of [ingest_activity] that exist only once the
    alert branch has bound them. *)
Record Locals := {
  threat_alert : option ThreatAlertDB.t;
  anomaly_alert : option AnomalyAlert.t;
  score_data : option ScoreData.t;
  risk_level : option string;
  anomalies_list : option (list string);
  alert_timestamp : option Z
}.

Definition unbound : Locals :=
  {| threat_alert := None; anomaly_alert := None; score_data := None;
     risk_level := None; anomalies_list := None; alert_timestamp := None |}.

Definition local {A} (name : string) (x : option A) : M A :=
  match x with
  | Some v => ret v
  | None => raise (UnboundLocalError name)
  end.

Definition activity_log_of (db : DB) (a : UserActivity) : ActivityLog.t :=
  {| ActivityLog.activity_id := next_id ActivityLog.activity_id (activity_logs db);
     ActivityLog.user_id := user_id a;
     ActivityLog.timestamp := timestamp a;
     ActivityLog.activity_type := activity_type a;
     ActivityLog.details := details a;
     ActivityLog.ip_address := ip_address (details a);
     ActivityLog.device_id := device_id (details a);
     ActivityLog.location := location (details a) |}.

(** One entry of [recent_activities]. *)
Definition context_of (uid : string) (r : ActivityLog.t) : UserActivity :=
  {| user_id := uid;
     timestamp := ActivityLog.timestamp r;
     activity_type := ActivityLog.activity_type r;
     details := ActivityLog.details r |}.

Definition suppressed_response : list (string * Json) :=
  [("status", JStr "suppressed"); ("activity_logged", JBool true);
   ("reason", JStr "Duplicate anomaly suppressed")]%string.

Definition already_escalated_response : list (string * Json) :=
  [("status", JStr "already_escalated"); ("activity_logged", JBool true)]%string.

(** Lines 995-1030: bookkeeping on the fingerprint record. [Some r] is an
    early [return r]. *)
Definition fingerprint_bookkeeping (env : Env) (a : UserActivity)
    (fingerprint_hash : string) : M (option (list (string * Json))) :=
  let! db := get_db in
  match first_where (has_hash fingerprint_hash) (anomaly_fingerprints db) with
  | Some existing_fingerprint =>
    let! now := datetime_now env in
    do! modify_db (fun db =>
          with_anomaly_fingerprints
            (update_first (has_hash fingerprint_hash) (AnomalyFingerprint.touch now)
                          (anomaly_fingerprints db)) db) then
    let! suppressed :=
      match AnomalyFingerprint.suppressed_until existing_fingerprint with
      | Some deadline =>
        let! now := datetime_now env in ret (now <? deadline)
      | None => ret false
      end in
    if suppressed then
      do! commit then ret (Some suppressed_response)
    else if AnomalyFingerprint.escalated existing_fingerprint then
      do! commit then ret (Some already_escalated_response)
    else ret None
  | None =>
    let! first_seen := datetime_now env in
    let! last_seen := datetime_now env in
    do! modify_db (fun db =>
          with_anomaly_fingerprints
            (anomaly_fingerprints db
             ++ [{| AnomalyFingerprint.fingerprint_id :=
                      next_id AnomalyFingerprint.fingerprint_id
                              (anomaly_fingerprints db);
                    AnomalyFingerprint.fingerprint_hash := fingerprint_hash;
                    AnomalyFingerprint.user_id := user_id a;
                    AnomalyFingerprint.anomaly_type := activity_type a;
                    AnomalyFingerprint.first_seen := first_seen;
                    AnomalyFingerprint.last_seen := last_seen;
                    AnomalyFingerprint.count := 1;
                    AnomalyFingerprint.suppressed_until := None;
                    AnomalyFingerprint.escalated := false |}]) db) then
    ret None
  end.

(** Lines 1080-1100: an alert with this fingerprint exists; refresh it and
    the user's latest dashboard alert. *)
Definition refresh_existing_alert (uid : string) (existing_alert : AnomalyAlert.t)
    (ml_score : Q) (sd : ScoreData.t) (risk : string) (anomalies : list string)
    (explanation : string) (now : Z) : M unit :=
  do! modify_db (fun db =>
        with_anomaly_alerts
          (update_first
             (fun x => AnomalyAlert.alert_id x =? AnomalyAlert.alert_id existing_alert)
             (AnomalyAlert.refresh now ml_score) (anomaly_alerts db)) db) then
  do! commit then
  let! db := get_db in
  match head (order_by_desc ThreatAlertDB.timestamp
                (filter (fun x => String.eqb (ThreatAlertDB.user_id x) uid)
                        (threat_alerts db))) with
  | Some existing_threat_alert =>
    do! modify_db (fun db =>
          with_threat_alerts
            (update_first
               (fun x => ThreatAlertDB.alert_id x
                         =? ThreatAlertDB.alert_id existing_threat_alert)
               (ThreatAlertDB.refresh now (ScoreData.its_score sd) risk anomalies
                                      explanation)
               (threat_alerts db)) db) then
    commit
  | None => ret tt
  end.

(** Lines 1145-1182: Alert -> Threat, Alert -> Incident, then the user's
    ITS; the result are the locals the new-alert branch has bound. *)
Definition escalate_new_alert (env : Env) (a : UserActivity) (ml_score : Q)
    (sd : ScoreData.t) (risk : string) (anomalies : list string)
    (explanation : string) (now : Z) (new_anomaly_alert : AnomalyAlert.t)
    (new_threat_alert : ThreatAlertDB.t) : M Locals :=
  let uid := user_id a in
  let its := ScoreData.its_score sd in
  do! (if Qle_bool THREAT_ESCALATION_THRESHOLD ml_score
       then do! _escalate_to_threat env new_anomaly_alert a ml_score explanation
            then ret tt
       else ret tt) then
  do! (if should_escalate risk ml_score its then
         let! incident :=
           _auto_escalate_to_incident env new_threat_alert a sd explanation in
         match incident with
         | Some _ =>
           (* [threat_alert.anomalies.append(...)] changes the loaded list
              only: the JSON column does not track in-place mutation. *)
           do! modify_db (fun db =>
                 with_threat_alerts
                   (update_first
                      (fun x => ThreatAlertDB.alert_id x
                                =? ThreatAlertDB.alert_id new_threat_alert)
                      (ThreatAlertDB.set_status "escalated_to_incident")
                      (threat_alerts db)) db) then
           commit
         | None => ret tt
         end
       else ret tt) then
  let! t := datetime_now env in
  do! modify_db (fun db =>
        with_users
          (update_first (fun u => String.eqb (User.user_id u) uid)
             (User.set_score its (ScoreData.risk_level sd) t) (users db)) db) then
  do! commit then
  ret {| threat_alert := Some new_threat_alert;
         anomaly_alert := Some new_anomaly_alert;
         score_data := Some sd; risk_level := Some risk;
         anomalies_list := Some anomalies; alert_timestamp := Some now |}.

(** Lines 1118-1135: the dashboard alert, and the suppression deadline
    copied onto the fingerprint. *)
Definition publish_alert (env : Env) (a : UserActivity) (fingerprint_hash : string)
    (ml_score : Q) (sd : ScoreData.t) (risk : string) (anomalies : list string)
    (explanation : string) (now : Z) (new_anomaly_alert : AnomalyAlert.t)
    : M Locals :=
  let! db := get_db in
  let new_threat_alert :=
    {| ThreatAlertDB.alert_id := next_id ThreatAlertDB.alert_id (threat_alerts db);
       ThreatAlertDB.user_id := user_id a;
       ThreatAlertDB.timestamp := now;
       ThreatAlertDB.its_score := ScoreData.its_score sd;
       ThreatAlertDB.risk_level := risk;
       ThreatAlertDB.anomalies := anomalies;
       ThreatAlertDB.explanation :=
         if truthy_str explanation then explanation
         else "ML anomaly detected: " +:+ fmt env ".1%" ml_score
              +:+ " confidence. " +:+ activity_type a +:+ " activity flagged.";
       ThreatAlertDB.status := "open";
       ThreatAlertDB.is_viewed := false |} in
  do! modify_db (fun db =>
        with_threat_alerts (threat_alerts db ++ [new_threat_alert]) db) then
  do! commit then
  do! modify_db (fun db =>
        with_anomaly_fingerprints
          (update_first (has_hash fingerprint_hash)
             (AnomalyFingerprint.set_suppressed_until
                (AnomalyAlert.suppressed_until new_anomaly_alert))
             (anomaly_fingerprints db)) db) then
  do! commit then
  escalate_new_alert env a ml_score sd risk anomalies explanation now
                     new_anomaly_alert new_threat_alert.

(** Lines 1101-1116: no alert with this fingerprint yet; create one,
    suppressed for the next 24 hours. *)
Definition create_alert (env : Env) (a : UserActivity) (fingerprint_hash : string)
    (ml_score : Q) (sd : ScoreData.t) (risk : string) (anomalies : list string)
    (explanation : string) (now : Z) : M Locals :=
  let! t := datetime_now env in
  let! db := get_db in
  let new_anomaly_alert :=
    {| AnomalyAlert.alert_id := next_id AnomalyAlert.alert_id (anomaly_alerts db);
       AnomalyAlert.user_id := user_id a;
       AnomalyAlert.timestamp := now;
       AnomalyAlert.anomaly_type := activity_type a;
       AnomalyAlert.anomaly_fingerprint := fingerprint_hash;
       AnomalyAlert.ml_anomaly_score := ml_score;
       AnomalyAlert.confidence := ml_score;
       AnomalyAlert.activity_details := details a;
       AnomalyAlert.status := "new";
       AnomalyAlert.escalated_to_threat_id := None;
       AnomalyAlert.suppressed_until :=
         Some (t + ALERT_SUPPRESSION_HOURS * usec_per_hour) |} in
  do! modify_db (fun db =>
        with_anomaly_alerts (anomaly_alerts db ++ [new_anomaly_alert]) db) then
  do! commit then
  publish_alert env a fingerprint_hash ml_score sd risk anomalies explanation
                now new_anomaly_alert.

(** Lines 1037-1182: the body of [if is_anomaly and ml_score >= 0.3]. *)
Definition alert_branch (env : Env) (a : UserActivity) (fingerprint_hash : string)
    (ml_score : Q) (explanation : string) : M Locals :=
  let! db := get_db in
  let existing_alert :=
    first_where (fun x => String.eqb (AnomalyAlert.anomaly_fingerprint x)
                                     fingerprint_hash) (anomaly_alerts db) in
  let! sd := calculate_its_score env (user_id a) in
  let risk := risk_band ml_score (ScoreData.its_score sd) in
  let anomalies := anomalies_of explanation a in
  let! now := datetime_now env in
  match existing_alert with
  | Some ea =>
    do! refresh_existing_alert (user_id a) ea ml_score sd risk anomalies
                               explanation now then
    ret {| threat_alert := None; anomaly_alert := None;
           score_data := Some sd; risk_level := Some risk;
           anomalies_list := Some anomalies; alert_timestamp := Some now |}
  | None => create_alert env a fingerprint_hash ml_score sd risk anomalies
                         explanation now
  end.

(** Lines 1184-1199: the [return] that follows the [if] at the same
    indentation, whichever way the [if] went. *)
Definition alert_generated_response (l : Locals) (ml_score : Q)
    (explanation : string) : M (list (string * Json)) :=
  let! ta := local "threat_alert" (threat_alert l) in
  let! aa := local "anomaly_alert" (anomaly_alert l) in
  let! sd := local "score_data" (score_data l) in
  let! risk := local "risk_level" (risk_level l) in
  let! anomalies := local "anomalies_list" (anomalies_list l) in
  let! ts := local "alert_timestamp" (alert_timestamp l) in
  ret [("status", JStr "alert_generated");
       ("activity_logged", JBool true);
       ("alert", JObj
          [("alert_id", JStr ("ALT" +:+ fmt_05d (ThreatAlertDB.alert_id ta)));
           ("anomaly_alert_id", JStr ("ANM" +:+ fmt_05d (AnomalyAlert.alert_id aa)));
           ("type", JStr "threat_alert");
           ("ml_score", JNum ml_score);
           ("its_score", JNum (ScoreData.its_score sd));
           ("risk_level", JStr risk);
           ("anomalies", JStrs anomalies);
           ("explanation", JStr explanation);
           ("timestamp", JTime ts)]);
       ("its_score", JNum (ScoreData.its_score sd))]%string.

(** Lines 1201-1218, which no path reaches: the ITS refresh, the daily
    snapshot and the [status=ok] body. *)
Definition ok_tail (env : Env) (a : UserActivity) (is_anomaly : bool)
    (ml_score : Q) : M (list (string * Json)) :=
  let! sd := calculate_its_score env (user_id a) in
  let! t := datetime_now env in
  do! modify_db (fun db =>
        with_users
          (update_first (fun u => String.eqb (User.user_id u) (user_id a))
             (User.set_score (ScoreData.its_score sd) (ScoreData.risk_level sd) t)
             (users db)) db) then
  do! _save_daily_its_snapshot env (user_id a) sd then
  do! commit then
  ret [("status", JStr "ok"); ("activity_logged", JBool true);
       ("its_score", JNum (ScoreData.its_score sd));
       ("ml_anomaly_score", JNum (if is_anomaly then ml_score else 0%Q))]%string.

(** Lines 958-984: the trailing one-hour context (at most 100 rows, most
    recent first) and the detector's verdict on it. *)
Definition recent_context (env : Env) (a : UserActivity) : M (list UserActivity) :=
  let uid := user_id a in
  let! now := datetime_now env in
  let cutoff := now - usec_per_hour in
  let! db := get_db in
  let recent_activities_db :=
    take 100 (order_by_desc ActivityLog.timestamp
                (filter (fun r => cutoff <=? ActivityLog.timestamp r)
                        (user_rows uid db))) in
  ret (map (context_of uid) recent_activities_db).

Definition classify (env : Env) (a : UserActivity) : M (bool * Q * string) :=
  let! recent_activities := recent_context env a in
  detect_anomaly env a (user_id a) recent_activities.

(** Lines 1032-1199: past the fingerprint checks. *)
Definition respond (env : Env) (a : UserActivity) (v : bool * Q * string)
    (fingerprint_hash : string) : M (list (string * Json)) :=
  let '(is_anomaly, ml_score, explanation) := v in
  do! commit then
  let! l := if is_anomaly && Qle_bool (3 # 10) ml_score
            then alert_branch env a fingerprint_hash ml_score explanation
            else ret unbound in
  alert_generated_response l ml_score explanation.

(** Lines 958-1199: everything after the activity has been stored. *)
Definition analyse (env : Env) (a : UserActivity) : M (list (string * Json)) :=
  let! v := classify env a in
  let fingerprint_hash := generate_fingerprint env a (user_id a) in
  let! early := fingerprint_bookkeeping env a fingerprint_hash in
  match early with
  | Some response => ret response
  | None => respond env a v fingerprint_hash
  end.

(** Lines 945-956: [db.add(activity_log); db.commit()]. *)
Definition store_activity (a : UserActivity) : M unit :=
  do! modify_db (fun db =>
        with_activity_logs (activity_logs db ++ [activity_log_of db a]) db) then
  commit.

(** The [try] body of [ingest_activity]. *)
Definition ingest_body (env : Env) (a : UserActivity) : M (list (string * Json)) :=
  let uid := user_id a in
  let! db := get_db in
  match first_where (fun u => String.eqb (User.user_id u) uid) (users db) with
  | None => raise (HTTPException 404 ("User " +:+ uid +:+ " not found"))
  | Some user =>
    do! store_activity a then
    analyse env a
  end.

(** [ingest_activity]: a fresh session, the [try] body, the
    [except Exception] that rolls back and raises a 500 carrying [str(e)],
    and the [finally] that closes the session. *)
Definition open_session (w : World) : World :=
  {| committed := committed w; session := committed w;
     user_baselines := user_baselines w; clock_reads := clock_reads w |}.

Definition ingest_handler (env : Env) (a : UserActivity) : M (list (string * Json)) :=
  try_except (ingest_body env a)
    (fun e => do! rollback then raise (HTTPException 500 (exn_str e))).

Definition ingest_activity (env : Env) (a : UserActivity) (w : World)
    : HttpResponse * World :=
  match ingest_handler env a (open_session w) with
  | (inr body, w') => (Ok200 body, open_session w')
  | (inl (HTTPException c d), w') => (HttpError c d, open_session w')
  | (inl _, w') => (HttpError 500 "Internal Server Error", open_session w')
  end.

(* ================================================================= *)
(** * The agent's aggregator and its offline queue *)

(** What one [session.post] can end in, as [_send_activity] tells them
    apart. *)
Inductive Outcome (Result : Type) :=
| Delivered (result : Result)
| HTTPError
| ConnectionError
| TimeoutOrOther.
Arguments Delivered {Result} result.
Arguments HTTPError {Result}.
Arguments ConnectionError {Result}.
Arguments TimeoutOrOther {Result}.

Record Stats := {
  activities_sent : Z;
  anomalies_detected : Z;
  alerts_sent : Z;
  queued_locally : Z;
  retried_from_queue : Z
}.

Definition LOCAL_QUEUE_LIMIT : nat := 1000.

Section Aggregator.
(** The event dicts and the JSON results are opaque to the queueing. *)
Variable Event : Type.
Variable Result : Type.
Variable anomaly_alert_created : Result -> bool.
(** The network: how the [n]-th POST of the process ends. *)
Variable net : nat -> Event -> Outcome Result.

(** [ActivityAggregator], with the trace of POSTs made so far. *)
Record ActivityAggregator := {
  alert_queue : list Event;
  local_queue : list Event;
  connection_available : bool;
  stats : Stats;
  posts : list Event
}.

Definition set_local_queue (q : list Event) (ag : ActivityAggregator) :=
  {| alert_queue := alert_queue ag; local_queue := q;
     connection_available := connection_available ag; stats := stats ag;
     posts := posts ag |}.
Definition set_connection (b : bool) (ag : ActivityAggregator) :=
  {| alert_queue := alert_queue ag; local_queue := local_queue ag;
     connection_available := b; stats := stats ag; posts := posts ag |}.
Definition set_stats (s : Stats) (ag : ActivityAggregator) :=
  {| alert_queue := alert_queue ag; local_queue := local_queue ag;
     connection_available := connection_available ag; stats := s;
     posts := posts ag |}.

(** [_send_activity]: a result, or [None] on any failure; a connection
    error also clears [connection_available]. *)
Definition _send_activity (activity : Event) (ag : ActivityAggregator)
    : option Result * ActivityAggregator :=
  let ag' := {| alert_queue := alert_queue ag; local_queue := local_queue ag;
                connection_available := connection_available ag;
                stats := stats ag; posts := posts ag ++ [activity] |} in
  match net (length (posts ag)) activity with
  | Delivered r => (Some r, ag')
  | ConnectionError => (None, set_connection false ag')
  | HTTPError | TimeoutOrOther => (None, ag')
  end.

Definition count_alert (r : Result) (s : Stats) : Stats :=
  if anomaly_alert_created r then
    {| activities_sent := activities_sent s;
       anomalies_detected := anomalies_detected s + 1;
       alerts_sent := alerts_sent s + 1;
       queued_locally := queued_locally s;
       retried_from_queue := retried_from_queue s |}
  else s.

(** One iteration of the retry loop (lines 1398-1418). *)
Definition retry_one (ag : ActivityAggregator) (activity : Event)
    : ActivityAggregator :=
  match _send_activity activity ag with
  | (Some r, ag) =>
    let s := stats ag in
    set_stats (count_alert r
                 {| activities_sent := activities_sent s + 1;
                    anomalies_detected := anomalies_detected s;
                    alerts_sent := alerts_sent s;
                    queued_locally := queued_locally s;
                    retried_from_queue := retried_from_queue s + 1 |}) ag
  | (None, ag) =>
    if Nat.ltb (length (local_queue ag)) LOCAL_QUEUE_LIMIT
    then set_local_queue (local_queue ag ++ [activity]) ag
    else set_local_queue (tail (local_queue ag) ++ [activity]) ag
  end.

(** One iteration of the loop over new activities (lines 1430-1454). *)
Definition send_one (ag : ActivityAggregator) (activity : Event)
    : ActivityAggregator :=
  match _send_activity activity ag with
  | (Some r, ag) =>
    let s := stats ag in
    set_connection true
      (set_stats (count_alert r
                    {| activities_sent := activities_sent s + 1;
                       anomalies_detected := anomalies_detected s;
                       alerts_sent := alerts_sent s;
                       queued_locally := queued_locally s;
                       retried_from_queue := retried_from_queue s |}) ag)
  | (None, ag) =>
    let ag := set_connection false ag in
    if Nat.ltb (length (local_queue ag)) LOCAL_QUEUE_LIMIT
    then
      let s := stats ag in
      set_stats {| activities_sent := activities_sent s;
                   anomalies_detected := anomalies_detected s;
                   alerts_sent := alerts_sent s;
                   queued_locally := queued_locally s + 1;
                   retried_from_queue := retried_from_queue s |}
        (set_local_queue (local_queue ag ++ [activity]) ag)
    else ag
  end.

(** [_send_activities_batch]. *)
Definition retry_phase (ag : ActivityAggregator) : ActivityAggregator :=
  match local_queue ag with
  | [] => ag
  | retry_activities =>
    fold_left retry_one retry_activities (set_local_queue [] ag)
  end.

Definition _send_activities_batch (ag : ActivityAggregator) : ActivityAggregator :=
  let ag := retry_phase ag in
  match alert_queue ag with
  | [] => ag
  | activities_to_send =>
    fold_left send_one activities_to_send
      {| alert_queue := []; local_queue := local_queue ag;
         connection_available := connection_available ag;
         stats := stats ag; posts := posts ag |}
  end.
End Aggregator.

Arguments alert_queue {Event}.
Arguments local_queue {Event}.
Arguments connection_available {Event}.
Arguments stats {Event}.
Arguments posts {Event}.
Arguments _send_activities_batch {Event Result}.
Arguments retry_phase {Event Result}.
Arguments retry_one {Event Result}.
Arguments send_one {Event Result}.
Arguments _send_activity {Event Result}.
Arguments set_local_queue {Event}.

(* ================================================================= *)
(** * Concrete environments and states used by the examples *)

Module Fixture.
(** A clock starting at [t0] that advances one microsecond per read. *)
Definition clock_from (t0 : Z) : nat -> Z := fun n => t0 + Z.of_nat n.

(** Day 3, 10:00 and day 3, 23:00. *)
Definition day3 : Z := 3 * usec_per_day.
Definition ten_am : Z := day3 + 10 * usec_per_hour.
Definition eleven_pm : Z := day3 + 23 * usec_per_hour.

(** An outlier scorer whose normalised score is [s] on every input,
    with an unfitted regressor. *)
Definition flat_detector (s : Q) : DetectorModels :=
  {| scaler_transform := fun f => f;
     isolation_forest_predict := fun _ => 1;
     isolation_forest_score_samples := fun _ => ((1 # 2) - s)%Q;
     anomaly_scorer_predict := fun _ => None;
     pow_half := fun x => x |}.


(** A loaded registry whose three estimators agree on [p], so that the
    raw ensemble score is [100 p]; and the registry before
    [load_models]. *)
Definition loaded (p : Q) : ModelRegistry :=
  {| xgb_model := Some (fun _ => p);
     rf_model := Some (fun _ => p);
     iso_forest := Some (fun _ => ((1 # 2) - p)%Q);
     scaler := Some (fun f => f) |}.
Definition unloaded : ModelRegistry :=
  {| xgb_model := None; rf_model := None; iso_forest := None; scaler := None |}.

Definition digest (d : FingerprintData) : string :=
  fp_user_id d +:+ "|" +:+ fp_activity_type d +:+ "|" +:+ fp_file_path d
  +:+ "|" +:+ fp_process_name d +:+ "|" +:+ fp_ip_address d
  +:+ "|" +:+ fp_device_id d
  +:+ (if fp_large_file d then "|L" else "|l")
  +:+ (if fp_sensitive d then "S" else "s")
  +:+ (if fp_external d then "E" else "e")
  +:+ (if fp_off_hours d then "O" else "o").

Definition env_of (t0 : Z) (dm : DetectorModels) (reg : ModelRegistry) : Env :=
  {| clock := clock_from t0;
     detector_models := dm;
     models := reg;
     sha256_json := digest;
     generate_explanation := fun _ _ _ _ => "ML anomaly detected";
     its_explanation := fun _ _ _ _ => "ITS Score";
     fmt := fun _ _ => "?" |}.

Definition empty_db : DB :=
  {| users := []; activity_logs := []; anomaly_fingerprints := [];
     anomaly_alerts := []; threat_alerts := []; threats := [];
     incidents := []; historical_its_scores := [] |}.

Definition user (uid : string) : User.t :=
  {| User.user_id := uid; User.role := "Developer"; User.its_score := 0;
     User.risk_level := "low"; User.last_updated := None |}.

Definition world_of (db : DB) : World :=
  {| committed := db; session := db; user_baselines := ∅; clock_reads := 0 |}.

(** A server that knows U002 and U050 and has seen nothing yet. *)
Definition fresh : World :=
  world_of (with_users [user "U002"; user "U050"] empty_db).

(** Scenario 4 of the specification: a logon at 23:00. *)
Definition late_logon : UserActivity :=
  {| user_id := "U050"; timestamp := eleven_pm; activity_type := "logon";
     details :=
       {| size_mb := None; file_size_mb := None; sensitive := None;
          action := None; data_sent_mb := None; attachment_size_mb := None;
          external_connections := None; external := None;
          activity_hour := Some 23; logon_hour := Some 23;
          off_hours := Some true; suspicious := None; process_name := None;
          suspicious_keywords := None; geo_anomaly := None; file_path := None;
          ip_address := None; device_id := Some "host_host";
          location := None |} |}.

(** Scenario 1: a large external e-mail at 14:02. *)
Definition big_email : UserActivity :=
  {| user_id := "U002"; timestamp := day3 + 14 * usec_per_hour + 2 * usec_per_minute;
     activity_type := "email";
     details :=
       {| size_mb := None; file_size_mb := None; sensitive := None;
          action := None; data_sent_mb := None;
          attachment_size_mb := Some 120%Q;
          external_connections := None; external := Some true;
          activity_hour := Some 14; logon_hour := None;
          off_hours := None; suspicious := None; process_name := None;
          suspicious_keywords := Some 1%Q; geo_anomaly := None;
          file_path := None; ip_address := None; device_id := None;
          location := None |} |}.

(** A small, unremarkable file read at 11:00. *)
Definition quiet_read : UserActivity :=
  {| user_id := "U002"; timestamp := day3 + 11 * usec_per_hour;
     activity_type := "file_access";
     details :=
       {| size_mb := Some 1%Q; file_size_mb := None; sensitive := Some false;
          action := Some "read"%string; data_sent_mb := None;
          attachment_size_mb := None;
          external_connections := None; external := None;
          activity_hour := Some 11; logon_hour := None;
          off_hours := Some false; suspicious := None; process_name := None;
          suspicious_keywords := None; geo_anomaly := None;
          file_path := Some "C:/Users/u/Documents/notes.txt"%string;
          ip_address := None; device_id := None; location := None |} |}.


(** U002 with two stored activities of the last week: one an hour old,
    one six days and an hour old (the clock of the examples starts on
    day 7 at 10:00 here). *)
Definition day7_ten_am : Z := 7 * usec_per_day + 10 * usec_per_hour.
Definition stored (id : Z) (t : Z) : ActivityLog.t :=
  {| ActivityLog.activity_id := id; ActivityLog.user_id := "U002";
     ActivityLog.timestamp := t; ActivityLog.activity_type := "file_access";
     ActivityLog.details := details quiet_read;
     ActivityLog.ip_address := None; ActivityLog.device_id := None;
     ActivityLog.location := None |}.
Definition two_activities : World :=
  world_of
    (with_activity_logs
       [stored 1 (day7_ten_am - 6 * usec_per_day - usec_per_hour);
        stored 2 (day7_ten_am - usec_per_hour)]
       (with_users [user "U002"] empty_db)).

(** An agent whose offline queue holds events 0..999 (0 the oldest) and
    whose send queue holds event 1000, with the transport down. *)
Definition down : nat -> nat -> Outcome unit := fun _ _ => ConnectionError.
Definition full_agent : ActivityAggregator nat :=
  {| alert_queue := [1000%nat]; local_queue := seq 0 1000;
     connection_available := false;
     stats := {| activities_sent := 0; anomalies_detected := 0;
                 alerts_sent := 0; queued_locally := 1000;
                 retried_from_queue := 0 |};
     posts := [] |}.

End Fixture.

(* ================================================================= *)
(** * Specification-side notions *)

(** [peak] is the largest count of the histogram [hf]. *)
Definition is_peak (peak : Z) (hf : list (Z * Z)) : Prop :=
  (exists k, In (k, peak) hf) /\ (forall k v, In (k, v) hf -> v <= peak).

(** The count the histogram holds for hour [h] (0 when absent). *)
Definition freq_at (h : Z) (hf : list (Z * Z)) : Z := default 0 (dict_get h hf).


(** No baseline holds a typical sequence. *)
Definition no_sequences (ub : gmap string Baseline) : Prop :=
  forall uid b, ub !! uid = Some b -> typical_sequences b = [].

(** A computation keeps an invariant of the world, whatever it returns. *)
Definition keeps {A} (I : World -> Prop) (c : M A) : Prop :=
  forall w, I w -> I (snd (c w)).

(** The detector states a server process can be in: it starts without
    baselines, and only [detect_anomaly] (directly, or from the ingest
    endpoint) runs against them. *)
Inductive reachable (env : Env) : World -> Prop :=
| reach_start w : user_baselines w = ∅ -> reachable env w
| reach_detect w a uid recent :
    reachable env w -> reachable env (snd (detect_anomaly env a uid recent w))
| reach_ingest w a :
    reachable env w -> reachable env (snd (ingest_activity env a w)).

(** The transport is down: no POST is delivered. *)
Definition all_fail {Event Result} (net : nat -> Event -> Outcome Result) : Prop :=
  forall n e r, net n e <> Delivered r.

(** Nothing is pending: the session's copy is the committed one. *)
Definition settled (w : World) : Prop := session w = committed w.

(** Only the clock has been read between [w] and [w']. *)
Definition same_data (w w' : World) : Prop :=
  committed w' = committed w /\ session w' = session w
  /\ user_baselines w' = user_baselines w.

(** What a completed Alert -> Threat escalation writes: the threat, the
    link on the alert, the flag on the fingerprint. *)
Definition threat_effect (alert : AnomalyAlert.t) (t : Threat.t) (d : DB) : DB :=
  with_anomaly_fingerprints
    (update_first (has_hash (AnomalyAlert.anomaly_fingerprint alert))
       AnomalyFingerprint.set_escalated (anomaly_fingerprints d))
    (with_anomaly_alerts
       (update_first
          (fun x => AnomalyAlert.alert_id x =? AnomalyAlert.alert_id alert)
          (AnomalyAlert.link_threat (Threat.threat_id t)) (anomaly_alerts d))
       (with_threats (threats d ++ [t]) d)).

(** An incident of the user that is still being worked on. *)
Definition active_incident_of (uid : string) (i : Incident.t) : Prop :=
  Incident.user_id i = uid
  /\ (Incident.status i = "open"%string \/ Incident.status i = "in_progress"%string).

(** The body of an [alert_generated] response. *)
Definition alert_body (ta : ThreatAlertDB.t) (aa : AnomalyAlert.t)
    (sd : ScoreData.t) (risk : string) (anomalies : list string) (ts : Z)
    (ml : Q) (explanation : string) : list (string * Json) :=
  [("status", JStr "alert_generated");
   ("activity_logged", JBool true);
   ("alert", JObj
      [("alert_id", JStr ("ALT" +:+ fmt_05d (ThreatAlertDB.alert_id ta)));
       ("anomaly_alert_id", JStr ("ANM" +:+ fmt_05d (AnomalyAlert.alert_id aa)));
       ("type", JStr "threat_alert");
       ("ml_score", JNum ml);
       ("its_score", JNum (ScoreData.its_score sd));
       ("risk_level", JStr risk);
       ("anomalies", JStrs anomalies);
       ("explanation", JStr explanation);
       ("timestamp", JTime ts)]);
   ("its_score", JNum (ScoreData.its_score sd))]%string.

(** What the database [d'] holds once the new-alert branch has run on
    [d]: one more anomaly alert, carrying the fingerprint [h] and the
    suppression deadline; the same deadline on the fingerprint record;
    one more dashboard alert [ta], marked as escalated exactly when
    [should_escalate] holds, in which case the user has an active
    incident; the user's ITS refreshed. *)
Definition alert_created (uid h : string) (ml : Q) (sd : ScoreData.t)
    (deadline : Z) (ta : ThreatAlertDB.t) (d d' : DB) : Prop :=
  let its := ScoreData.its_score sd in
  let cond := should_escalate (risk_band ml its) ml its in
  activity_logs d' = activity_logs d
  /\ historical_its_scores d' = historical_its_scores d
  /\ (exists x,
        anomaly_alerts d' = anomaly_alerts d ++ [x]
        /\ AnomalyAlert.anomaly_fingerprint x = h
        /\ AnomalyAlert.suppressed_until x = Some deadline)
  /\ threat_alerts d'
     = threat_alerts d
       ++ [if cond then ThreatAlertDB.set_status "escalated_to_incident" ta
           else ta]
  /\ (exists g,
        anomaly_fingerprints d'
        = update_first (has_hash h) g (anomaly_fingerprints d)
        /\ forall fp,
             AnomalyFingerprint.fingerprint_hash (g fp)
             = AnomalyFingerprint.fingerprint_hash fp
             /\ AnomalyFingerprint.suppressed_until (g fp) = Some deadline)
  /\ (exists t,
        users d'
        = update_first (fun u => String.eqb (User.user_id u) uid)
            (User.set_score its (ScoreData.risk_level sd) t) (users d))
  /\ (cond = true ->
      exists i, In i (incidents d') /\ active_incident_of uid i)
  /\ (cond = false -> incidents d' = incidents d).

(** The dashboard alert a new-alert branch starts from. *)
Definition fresh_dashboard_alert (uid : string) (ml : Q) (sd : ScoreData.t)
    (ta : ThreatAlertDB.t) : Prop :=
  ThreatAlertDB.risk_level ta = risk_band ml (ScoreData.its_score sd)
  /\ ThreatAlertDB.status ta = "open"%string
  /\ ThreatAlertDB.its_score ta = ScoreData.its_score sd
  /\ ThreatAlertDB.user_id ta = uid.

(** The world once the posted activity has been added and committed. *)
Definition stored_db (a : UserActivity) (d : DB) : DB :=
  with_activity_logs (activity_logs d ++ [activity_log_of d a]) d.
Definition after_store (a : UserActivity) (w : World) : World :=
  {| committed := stored_db a (committed w); session := stored_db a (committed w);
     user_baselines := user_baselines w; clock_reads := clock_reads w |}.

(** The user the activity names is in the users table. *)
Definition known_user (a : UserActivity) (d : DB) : Prop :=
  exists u, first_where (fun u => String.eqb (User.user_id u) (user_id a))
                        (users d) = Some u.

(** The risk band of an alert in the words of the specification. *)
Definition in_band (ml its : Q) (band : string) : Prop :=
  (band = "critical"%string /\ (8 # 10 <= ml \/ 70 <= its)%Q)
  \/ (band = "high"%string /\ (ml < 8 # 10 /\ its < 70)%Q
      /\ (6 # 10 <= ml \/ 50 <= its)%Q)
  \/ (band = "medium"%string /\ (ml < 6 # 10 /\ its < 50)%Q
      /\ (4 # 10 <= ml \/ 30 <= its)%Q)
  \/ (band = "low"%string /\ (ml < 4 # 10 /\ its < 30)%Q).

(** The auto-promotion rule in the words of the specification. *)
Definition promoted (band : string) (ml its : Q) : Prop :=
  band = "critical"%string
  \/ (band = "high"%string /\ (50 <= its)%Q)
  \/ (band = "high"%string /\ (7 # 10 <= ml)%Q)
  \/ (65 <= its)%Q.

(* ================================================================= *)
(** * The module as loaded, and the manual escalation endpoint *)

(** [main.py] binds the name [_determine_incident_type] twice at module
    level: at line 1374 to a function of (activity, explanation), at
    line 1907 to a function of (threat). The second [def] rebinds the
    name, and a function looks its globals up when it is called, so
    every call made by a request handler reaches the function of
    line 1907. *)
Module Loaded.
Definition _determine_incident_type (threat : Threat.t) : string :=
  let threat_type := lower (Threat.threat_type threat) in
  if contains "data" threat_type || contains "exfiltration" threat_type
  then "data_breach"
  else if contains "sabotage" threat_type || contains "delete" threat_type
  then "insider_attack"
  else if contains "unauthorized" threat_type || contains "access" threat_type
  then "unauthorized_access"
  else if contains "policy" threat_type then "policy_violation"
  else "security_incident".

(** A call [f(x, y)] of a function [f] of one parameter: the arity is
    checked before the body runs, and the call raises [TypeError] with
    the message on the left. *)
Definition call_with_two {P C A B} (name : string) (f : P -> C) (x : A) (y : B)
    : string + C :=
  inl (name +:+ "() takes 1 positional argument but 2 were given").

(** [_auto_escalate_to_incident] as it runs: the call of line 1311 passes
    (activity, explanation) to the function of line 1907; the
    [TypeError] is caught by the [except Exception] of line 1366, which
    returns [None]. *)
Definition _auto_escalate_to_incident (env : Env) (threat_alert : ThreatAlertDB.t)
    (a : UserActivity) (score_data : ScoreData.t) (explanation : string)
    : M (option Incident.t) :=
  try_except
    (let! now := datetime_now env in
     let cutoff_time := now - 2 * usec_per_hour in
     let! db := get_db in
     let active (i : Incident.t) :=
       String.eqb (Incident.user_id i) (user_id a)
       && (cutoff_time <=? Incident.timestamp i)
       && (String.eqb (Incident.status i) "open"
           || String.eqb (Incident.status i) "in_progress") in
     let its := ScoreData.its_score score_data in
     match head (order_by_desc Incident.timestamp (filter active (incidents db))) with
     | Some existing_incident =>
       let i1 := if Qlt_bool (Incident.its_score existing_incident) its
                 then Incident.set_scores its existing_incident
                 else existing_incident in
       let i2 := if serious (ThreatAlertDB.risk_level threat_alert)
                    && negb (serious (Incident.severity i1))
                 then Incident.set_severity (ThreatAlertDB.risk_level threat_alert) i1
                 else i1 in
       let! now := datetime_now env in
       let i3 := Incident.set_last_updated now i2 in
       do! modify_db (fun db =>
             with_incidents
               (update_first
                  (fun x => Incident.incident_id x
                            =? Incident.incident_id existing_incident)
                  (fun _ => i3) (incidents db)) db) then
       do! commit then
       ret (Some i3)
     | None =>
       match call_with_two "_determine_incident_type" _determine_incident_type
                           a explanation with
       | inl _ => ret None
       | inr incident_type =>
         let severity := ThreatAlertDB.risk_level threat_alert in
         let severity :=
           if existsb (String.eqb severity) ["low"; "medium"; "high"; "critical"]%string
           then severity else its_risk_level its in
         let description_parts :=
           [if truthy_str explanation then explanation
            else "Auto-escalated from alert ALT"
                 +:+ fmt_05d (ThreatAlertDB.alert_id threat_alert)]
           ++ match ThreatAlertDB.anomalies threat_alert with
              | [] => []
              | an => ["Anomalies: " +:+ join ", " (take 3 an)]
              end in
         let! now := datetime_now env in
         let! db := get_db in
         let incident :=
           {| Incident.incident_id := next_id Incident.incident_id (incidents db);
              Incident.user_id := user_id a;
              Incident.threat_id := None;
              Incident.timestamp := now;
              Incident.incident_type := incident_type;
              Incident.severity := severity;
              Incident.ml_incident_score := (its / 100)%Q;
              Incident.its_score := its;
              Incident.description := join ". " description_parts;
              Incident.evidence_alert_id := ThreatAlertDB.alert_id threat_alert;
              Incident.status := "open";
              Incident.assigned_to := "Security Team";
              Incident.last_updated := None |} in
         do! modify_db (fun db => with_incidents (incidents db ++ [incident]) db) then
         do! commit then
         ret (Some incident)
       end
     end)
    (fun _ => ret None).

(** The procedures between the endpoint and that call, which are the
    ones of lines 928-1222 with the call resolved as above. *)
Definition escalate_new_alert (env : Env) (a : UserActivity) (ml_score : Q)
    (sd : ScoreData.t) (risk : string) (anomalies : list string)
    (explanation : string) (now : Z) (new_anomaly_alert : AnomalyAlert.t)
    (new_threat_alert : ThreatAlertDB.t) : M Locals :=
  let uid := user_id a in
  let its := ScoreData.its_score sd in
  do! (if Qle_bool THREAT_ESCALATION_THRESHOLD ml_score
       then do! _escalate_to_threat env new_anomaly_alert a ml_score explanation
            then ret tt
       else ret tt) then
  do! (if should_escalate risk ml_score its then
         let! incident :=
           _auto_escalate_to_incident env new_threat_alert a sd explanation in
         match incident with
         | Some _ =>
           (* [threat_alert.anomalies.append(...)] changes the loaded list
              only: the JSON column does not track in-place mutation. *)
           do! modify_db (fun db =>
                 with_threat_alerts
                   (update_first
                      (fun x => ThreatAlertDB.alert_id x
                                =? ThreatAlertDB.alert_id new_threat_alert)
                      (ThreatAlertDB.set_status "escalated_to_incident")
                      (threat_alerts db)) db) then
           commit
         | None => ret tt
         end
       else ret tt) then
  let! t := datetime_now env in
  do! modify_db (fun db =>
        with_users
          (update_first (fun u => String.eqb (User.user_id u) uid)
             (User.set_score its (ScoreData.risk_level sd) t) (users db)) db) then
  do! commit then
  ret {| threat_alert := Some new_threat_alert;
         anomaly_alert := Some new_anomaly_alert;
         score_data := Some sd; risk_level := Some risk;
         anomalies_list := Some anomalies; alert_timestamp := Some now |}.

Definition publish_alert (env : Env) (a : UserActivity) (fingerprint_hash : string)
    (ml_score : Q) (sd : ScoreData.t) (risk : string) (anomalies : list string)
    (explanation : string) (now : Z) (new_anomaly_alert : AnomalyAlert.t)
    : M Locals :=
  let! db := get_db in
  let new_threat_alert :=
    {| ThreatAlertDB.alert_id := next_id ThreatAlertDB.alert_id (threat_alerts db);
       ThreatAlertDB.user_id := user_id a;
       ThreatAlertDB.timestamp := now;
       ThreatAlertDB.its_score := ScoreData.its_score sd;
       ThreatAlertDB.risk_level := risk;
       ThreatAlertDB.anomalies := anomalies;
       ThreatAlertDB.explanation :=
         if truthy_str explanation then explanation
         else "ML anomaly detected: " +:+ fmt env ".1%" ml_score
              +:+ " confidence. " +:+ activity_type a +:+ " activity flagged.";
       ThreatAlertDB.status := "open";
       ThreatAlertDB.is_viewed := false |} in
  do! modify_db (fun db =>
        with_threat_alerts (threat_alerts db ++ [new_threat_alert]) db) then
  do! commit then
  do! modify_db (fun db =>
        with_anomaly_fingerprints
          (update_first (has_hash fingerprint_hash)
             (AnomalyFingerprint.set_suppressed_until
                (AnomalyAlert.suppressed_until new_anomaly_alert))
             (anomaly_fingerprints db)) db) then
  do! commit then
  escalate_new_alert env a ml_score sd risk anomalies explanation now
                     new_anomaly_alert new_threat_alert.

Definition create_alert (env : Env) (a : UserActivity) (fingerprint_hash : string)
    (ml_score : Q) (sd : ScoreData.t) (risk : string) (anomalies : list string)
    (explanation : string) (now : Z) : M Locals :=
  let! t := datetime_now env in
  let! db := get_db in
  let new_anomaly_alert :=
    {| AnomalyAlert.alert_id := next_id AnomalyAlert.alert_id (anomaly_alerts db);
       AnomalyAlert.user_id := user_id a;
       AnomalyAlert.timestamp := now;
       AnomalyAlert.anomaly_type := activity_type a;
       AnomalyAlert.anomaly_fingerprint := fingerprint_hash;
       AnomalyAlert.ml_anomaly_score := ml_score;
       AnomalyAlert.confidence := ml_score;
       AnomalyAlert.activity_details := details a;
       AnomalyAlert.status := "new";
       AnomalyAlert.escalated_to_threat_id := None;
       AnomalyAlert.suppressed_until :=
         Some (t + ALERT_SUPPRESSION_HOURS * usec_per_hour) |} in
  do! modify_db (fun db =>
        with_anomaly_alerts (anomaly_alerts db ++ [new_anomaly_alert]) db) then
  do! commit then
  publish_alert env a fingerprint_hash ml_score sd risk anomalies explanation
                now new_anomaly_alert.

Definition alert_branch (env : Env) (a : UserActivity) (fingerprint_hash : string)
    (ml_score : Q) (explanation : string) : M Locals :=
  let! db := get_db in
  let existing_alert :=
    first_where (fun x => String.eqb (AnomalyAlert.anomaly_fingerprint x)
                                     fingerprint_hash) (anomaly_alerts db) in
  let! sd := calculate_its_score env (user_id a) in
  let risk := risk_band ml_score (ScoreData.its_score sd) in
  let anomalies := anomalies_of explanation a in
  let! now := datetime_now env in
  match existing_alert with
  | Some ea =>
    do! refresh_existing_alert (user_id a) ea ml_score sd risk anomalies
                               explanation now then
    ret {| threat_alert := None; anomaly_alert := None;
           score_data := Some sd; risk_level := Some risk;
           anomalies_list := Some anomalies; alert_timestamp := Some now |}
  | None => create_alert env a fingerprint_hash ml_score sd risk anomalies
                         explanation now
  end.

Definition respond (env : Env) (a : UserActivity) (v : bool * Q * string)
    (fingerprint_hash : string) : M (list (string * Json)) :=
  let '(is_anomaly, ml_score, explanation) := v in
  do! commit then
  let! l := if is_anomaly && Qle_bool (3 # 10) ml_score
            then alert_branch env a fingerprint_hash ml_score explanation
            else ret unbound in
  alert_generated_response l ml_score explanation.

Definition analyse (env : Env) (a : UserActivity) : M (list (string * Json)) :=
  let! v := classify env a in
  let fingerprint_hash := generate_fingerprint env a (user_id a) in
  let! early := fingerprint_bookkeeping env a fingerprint_hash in
  match early with
  | Some response => ret response
  | None => respond env a v fingerprint_hash
  end.

Definition ingest_body (env : Env) (a : UserActivity) : M (list (string * Json)) :=
  let uid := user_id a in
  let! db := get_db in
  match first_where (fun u => String.eqb (User.user_id u) uid) (users db) with
  | None => raise (HTTPException 404 ("User " +:+ uid +:+ " not found"))
  | Some user =>
    do! store_activity a then
    analyse env a
  end.

Definition ingest_handler (env : Env) (a : UserActivity) : M (list (string * Json)) :=
  try_except (ingest_body env a)
    (fun e => do! rollback then raise (HTTPException 500 (exn_str e))).

Definition ingest_activity (env : Env) (a : UserActivity) (w : World)
    : HttpResponse * World :=
  match ingest_handler env a (open_session w) with
  | (inr body, w') => (Ok200 body, open_session w')
  | (inl (HTTPException c d), w') => (HttpError c d, open_session w')
  | (inl _, w') => (HttpError 500 "Internal Server Error", open_session w')
  end.
End Loaded.

(** [POST /api/anomaly-alerts/{alert_id}/escalate-to-threat]. The two
    shapes of its 200 body: [{'status': 'already_escalated', 'threat_id':
    ...}] and [{'status': 'escalated', 'threat_id': ..., 'threat':
    {...}}], whose fields are all columns of the threat. *)
Inductive EscalationResponse :=
| already_escalated_to (threat_id : option Z)
| escalated_to (threat : Threat.t).

(** Truthiness of a nullable integer column. *)
Definition truthy_id (x : option Z) : bool :=
  match x with Some n => negb (n =? 0) | None => false end.

Definition escalation_activity (alert : AnomalyAlert.t) : UserActivity :=
  {| user_id := AnomalyAlert.user_id alert;
     timestamp := AnomalyAlert.timestamp alert;
     activity_type := AnomalyAlert.anomaly_type alert;
     details := AnomalyAlert.activity_details alert |}.

Definition escalate_alert_to_threat_body (env : Env) (alert_id : Z)
    : M EscalationResponse :=
  let! db := get_db in
  match first_where (fun x => AnomalyAlert.alert_id x =? alert_id)
                    (anomaly_alerts db) with
  | None => raise (HTTPException 404 "Anomaly alert not found")
  | Some alert =>
    if truthy_id (AnomalyAlert.escalated_to_threat_id alert) then
      let tid := default 0 (AnomalyAlert.escalated_to_threat_id alert) in
      let threat := first_where (fun t => Threat.threat_id t =? tid) (threats db) in
      ret (already_escalated_to (option_map Threat.threat_id threat))
    else
      let activity := escalation_activity alert in
      let ml := AnomalyAlert.ml_anomaly_score alert in
      let! threat :=
        _escalate_to_threat env alert activity ml
                            ("ML Score: " +:+ fmt env ".2%" ml) in
      match threat with
      | Some t => ret (escalated_to t)
      | None => raise (HTTPException 500 "Failed to escalate to threat")
      end
  end.

(** The handler: a fresh session, the body, and [finally: db.close()]. *)
Definition escalate_alert_to_threat (env : Env) (alert_id : Z) (w : World)
    : (Exn + EscalationResponse) * World :=
  let (r, w') := escalate_alert_to_threat_body env alert_id (open_session w) in
  (r, open_session w').

(** The agent's test on a result of the ingest endpoint, lines 1403 and
    1437: [result.get('status') == 'anomaly_alert_created']. *)
Definition status_is_created (result : list (string * Json)) : bool :=
  match field "status" result with
  | Some (JStr s) => String.eqb s "anomaly_alert_created"
  | _ => false
  end.

(* ================================================================= *)
(** * Further examples *)

Module Sample.
(** A sensitive file read flagged off-hours by the agent, at 23:10. *)
Definition night_read : UserActivity :=
  {| user_id := "U002"; timestamp := Fixture.day3 + 23 * usec_per_hour + 10 * usec_per_minute;
     activity_type := "file_access";
     details :=
       {| size_mb := Some 2%Q; file_size_mb := Some 2%Q; sensitive := Some true;
          action := Some "read"%string; data_sent_mb := None;
          attachment_size_mb := None;
          external_connections := None; external := None;
          activity_hour := Some 23; logon_hour := None;
          off_hours := Some true; suspicious := None; process_name := None;
          suspicious_keywords := None; geo_anomaly := None;
          file_path := Some "C:/Users/u/Documents/salary.xlsx"%string;
          ip_address := None; device_id := None; location := None |} |}.

(** The large external e-mail of [Fixture.big_email] sent again three
    hours later with a 900 MB attachment: another event, the same
    fingerprint. *)
Definition bigger_email : UserActivity :=
  {| user_id := "U002";
     timestamp := Fixture.day3 + 17 * usec_per_hour;
     activity_type := "email";
     details :=
       {| size_mb := None; file_size_mb := None; sensitive := None;
          action := None; data_sent_mb := None;
          attachment_size_mb := Some 900%Q;
          external_connections := None; external := Some true;
          activity_hour := Some 17; logon_hour := None;
          off_hours := None; suspicious := None; process_name := None;
          suspicious_keywords := Some 3%Q; geo_anomaly := None;
          file_path := None; ip_address := None; device_id := None;
          location := None |} |}.

(** A server on which U002 already has an open incident, raised at
    09:30 with ITS 40 and severity medium. *)
Definition open_incident : Incident.t :=
  {| Incident.incident_id := 1; Incident.user_id := "U002";
     Incident.threat_id := None;
     Incident.timestamp := Fixture.day3 + 9 * usec_per_hour + 30 * usec_per_minute;
     Incident.incident_type := "suspicious_activity";
     Incident.severity := "medium";
     Incident.ml_incident_score := 4 # 10; Incident.its_score := 40;
     Incident.description := "Earlier incident";
     Incident.evidence_alert_id := 0;
     Incident.status := "open"; Incident.assigned_to := "Security Team";
     Incident.last_updated := None |}.
Definition with_incident : World :=
  Fixture.world_of
    (with_incidents [open_incident]
       (with_users [Fixture.user "U002"; Fixture.user "U050"] Fixture.empty_db)).

(** A dashboard alert of U002 rated high. *)
Definition high_alert : ThreatAlertDB.t :=
  {| ThreatAlertDB.alert_id := 7; ThreatAlertDB.user_id := "U002";
     ThreatAlertDB.timestamp := Fixture.ten_am;
     ThreatAlertDB.its_score := 55; ThreatAlertDB.risk_level := "high";
     ThreatAlertDB.anomalies := ["External communication"];
     ThreatAlertDB.explanation := "External email with attachment";
     ThreatAlertDB.status := "open"; ThreatAlertDB.is_viewed := false |}.
Definition score_55 : ScoreData.t :=
  {| ScoreData.its_score := 55; ScoreData.risk_level := "high";
     ScoreData.anomalies := []; ScoreData.explanation := "ITS Score" |}.


(** A server whose clock advances one day per reading, whose outlier
    scorer rates every event at 0.9 and whose ITS models are loaded. *)
Definition slow_env : Env :=
  {| clock := fun n => Fixture.ten_am + Z.of_nat n * usec_per_day;
     detector_models := Fixture.flat_detector (9 # 10);
     models := Fixture.loaded (1 # 10);
     sha256_json := Fixture.digest;
     generate_explanation := fun _ _ _ _ => "ML anomaly detected";
     its_explanation := fun _ _ _ _ => "ITS Score";
     fmt := fun _ _ => "?" |}.

(** An agent with one new event to send and nothing counted so far. *)
Definition idle_agent : ActivityAggregator UserActivity :=
  {| alert_queue := [Fixture.big_email]; local_queue := [];
     connection_available := true;
     stats := {| activities_sent := 0; anomalies_detected := 0;
                 alerts_sent := 0; queued_locally := 0;
                 retried_from_queue := 0 |};
     posts := [] |}.
(** An anomaly alert of U002 that is not stored, and the same alert as
    the only row of the alerts table. *)
Definition email_alert : AnomalyAlert.t :=
  {| AnomalyAlert.alert_id := 1; AnomalyAlert.user_id := "U002";
     AnomalyAlert.timestamp := Fixture.ten_am;
     AnomalyAlert.anomaly_type := "email";
     AnomalyAlert.anomaly_fingerprint := "U002|email|||||lsEo";
     AnomalyAlert.ml_anomaly_score := 45 # 100;
     AnomalyAlert.confidence := 45 # 100;
     AnomalyAlert.activity_details := details Fixture.big_email;
     AnomalyAlert.status := "new";
     AnomalyAlert.escalated_to_threat_id := None;
     AnomalyAlert.suppressed_until := None |}.
Definition with_alert : World :=
  Fixture.world_of
    (with_anomaly_alerts [email_alert]
       (with_users [Fixture.user "U002"; Fixture.user "U050"] Fixture.empty_db)).
End Sample.

(* ================================================================= *)
(** * Further notions used in the statements *)

(** A rational in the unit interval. *)
Definition unit_interval (q : Q) : Prop := (0 <= q /\ q <= 1)%Q.

(** A histogram over the hours of the day: one entry per hour, every
    count positive. *)
Definition hourly (hf : list (Z * Z)) : Prop :=
  List.NoDup (map fst hf)
  /\ Forall (fun kv => 0 <= fst kv < 24 /\ 1 <= snd kv) hf.

(** Every baseline has a non-empty hourly histogram and no typical
    hour. *)
Definition untrained (ub : gmap string Baseline) : Prop :=
  forall uid b, ub !! uid = Some b ->
    typical_hours b = ∅ /\ hour_frequency b <> [] /\ hourly (hour_frequency b).


(** One threat per fingerprint. *)
Definition one_threat_per_fingerprint (d : DB) : Prop :=
  List.NoDup (map Threat.threat_fingerprint (threats d)).

(** One anomaly alert per fingerprint. *)
Definition one_alert_per_fingerprint (d : DB) : Prop :=
  List.NoDup (map AnomalyAlert.anomaly_fingerprint (anomaly_alerts d)).

(** Both, in the session's copy and in the committed database. *)
Definition deduplicated (w : World) : Prop :=
  (one_alert_per_fingerprint (session w)
   /\ one_alert_per_fingerprint (committed w))
  /\ (one_threat_per_fingerprint (session w)
      /\ one_threat_per_fingerprint (committed w)).


(** [body] is a 200 body the ingest endpoint can answer with. *)
Definition ingest_can_answer (body : list (string * Json)) : Prop :=
  exists env a w w1, Loaded.ingest_activity env a w = (Ok200 body, w1).

(** The incident [_auto_escalate_to_incident] looks for: the newest one
    of the user that is open or in progress and not older than the
    cutoff. *)
Definition existing_incident_at (cutoff : Z) (uid : string)
    (rows : list Incident.t) : option Incident.t :=
  head (order_by_desc Incident.timestamp
          (filter (fun i : Incident.t =>
                     String.eqb (Incident.user_id i) uid
                     && (cutoff <=? Incident.timestamp i)
                     && (String.eqb (Incident.status i) "open"
                         || String.eqb (Incident.status i) "in_progress"))
                  rows)).

(** What lines 1300-1306 make of the incident found. *)
Definition refreshed_incident (its : Q) (risk : string) (now : Z)
    (e : Incident.t) : Incident.t :=
  let i1 := if Qlt_bool (Incident.its_score e) its
            then Incident.set_scores its e else e in
  let i2 := if serious risk && negb (serious (Incident.severity i1))
            then Incident.set_severity risk i1 else i1 in
  Incident.set_last_updated now i2.

(** The incidents table with the incident found replaced by its
    refreshed copy. *)
Definition refresh_in (its : Q) (risk : string) (now : Z) (e : Incident.t)
    (rows : list Incident.t) : list Incident.t :=
  update_first (fun x => Incident.incident_id x =? Incident.incident_id e)
               (fun _ => refreshed_incident its risk now e) rows.

(** The effect of the new-alert branch as it runs: as [alert_created],
    but the dashboard alert is marked as escalated, and an incident
    touched, only when an incident [found] was there to refresh. *)
Definition alert_published (uid h : string) (ml : Q) (sd : ScoreData.t)
    (deadline : Z) (ta : ThreatAlertDB.t) (found : option Incident.t)
    (d d' : DB) : Prop :=
  let its := ScoreData.its_score sd in
  activity_logs d' = activity_logs d
  /\ historical_its_scores d' = historical_its_scores d
  /\ (exists x,
        anomaly_alerts d' = anomaly_alerts d ++ [x]
        /\ AnomalyAlert.anomaly_fingerprint x = h
        /\ AnomalyAlert.suppressed_until x = Some deadline)
  /\ threat_alerts d'
     = threat_alerts d
       ++ [match found with
           | Some _ => ThreatAlertDB.set_status "escalated_to_incident" ta
           | None => ta
           end]
  /\ (exists g,
        anomaly_fingerprints d'
        = update_first (has_hash h) g (anomaly_fingerprints d)
        /\ forall fp,
             AnomalyFingerprint.fingerprint_hash (g fp)
             = AnomalyFingerprint.fingerprint_hash fp
             /\ AnomalyFingerprint.suppressed_until (g fp) = Some deadline)
  /\ (exists t,
        users d'
        = update_first (fun u => String.eqb (User.user_id u) uid)
            (User.set_score its (ScoreData.risk_level sd) t) (users d))
  /\ match found with
     | Some e => exists t, incidents d'
                           = refresh_in its (ThreatAlertDB.risk_level ta) t e
                                        (incidents d)
     | None => incidents d' = incidents d
     end.

(** The incident the new-alert branch refreshes, if any: none unless the
    alert qualifies for promotion. *)
Definition incident_to_refresh (ml : Q) (sd : ScoreData.t) (cutoff : Z)
    (uid : string) (rows : list Incident.t) : option Incident.t :=
  let its := ScoreData.its_score sd in
  if should_escalate (risk_band ml its) ml its
  then existing_incident_at cutoff uid rows else None.

(** The four risk bands in their order. *)
Definition band_rank (band : string) : nat :=
  if String.eqb band "critical" then 3
  else if String.eqb band "high" then 2
  else if String.eqb band "medium" then 1
  else 0.

(** The fingerprint [h] has a record, and the record is flagged as
    escalated. *)
Definition muted_in (h : string) (fps : list AnomalyFingerprint.t) : Prop :=
  exists fp, first_where (has_hash h) fps = Some fp
             /\ AnomalyFingerprint.escalated fp = true.
Definition muted (h : string) (d : DB) : Prop :=
  muted_in h (anomaly_fingerprints d).

(** The states a server process can be in: it starts without baselines,
    and the detector runs when it is called directly or when an
    activity is posted. *)
Inductive served (env : Env) : World -> Prop :=
| served_start w : user_baselines w = ∅ -> served env w
| served_detect w a uid recent :
    served env w -> served env (snd (detect_anomaly env a uid recent w))
| served_post w a :
    served env w -> served env (snd (Loaded.ingest_activity env a w)).

(** The world after a sequence of posts to the ingest endpoint. *)
Definition after_posts (env : Env) (posts : list UserActivity) (w : World)
    : World :=
  fold_left (fun w a => snd (Loaded.ingest_activity env a w)) posts w.

(* ================================================================= *)
(** * Facts about the Python helpers *)

Lemma Qlt_bool_iff (a b : Q) : Qlt_bool a b = true <-> (a < b)%Q.
Proof.
  unfold Qlt_bool. rewrite negb_true_iff.
  split.
  - intros H. apply Qnot_le_lt. intros Hle.
    apply Qle_bool_iff in Hle. congruence.
  - intros H. destruct (Qle_bool b a) eqn:E; [|reflexivity].
    apply Qle_bool_iff in E. exfalso. exact (Qlt_not_le _ _ H E).
Qed.

Lemma Qlt_bool_false_iff (a b : Q) : Qlt_bool a b = false <-> (b <= a)%Q.
Proof.
  unfold Qlt_bool. rewrite negb_false_iff. apply Qle_bool_iff.
Qed.

Lemma py_min_le (a b : Q) : (a <= b)%Q -> py_min a b == a.
Proof.
  intros H. unfold py_min.
  destruct (Qlt_bool b a) eqn:E; [|reflexivity].
  apply Qlt_bool_iff in E. exfalso. exact (Qlt_not_le _ _ E H).
Qed.

Lemma py_max_le (a b : Q) : (a <= b)%Q -> py_max a b == b.
Proof.
  intros H. unfold py_max.
  destruct (Qlt_bool a b) eqn:E; [reflexivity|].
  apply Qlt_bool_false_iff in E. apply Qle_antisym; assumption.
Qed.

Lemma py_max_ge (a b : Q) : (b <= a)%Q -> py_max a b == a.
Proof.
  intros H. unfold py_max.
  destruct (Qlt_bool a b) eqn:E; [|reflexivity].
  apply Qlt_bool_iff in E. exfalso. exact (Qlt_not_le _ _ E H).
Qed.

(* ================================================================= *)
(** * The off-hours score *)

Lemma fold_max_ge (l : list (Z * Z)) (v : Z) :
  v <= fold_left (fun m kv => Z.max m (snd kv)) l v.
Proof.
  revert v. induction l as [|[k x] l IH]; intros v; simpl; [lia|].
  specialize (IH (Z.max v x)). lia.
Qed.

Lemma fold_max_upper (l : list (Z * Z)) (v : Z) k x :
  In (k, x) l -> x <= fold_left (fun m kv => Z.max m (snd kv)) l v.
Proof.
  revert v. induction l as [|[k' x'] l IH]; intros v Hin; simpl in *; [tauto|].
  destruct Hin as [Heq|Hin].
  - inversion Heq; subst. pose proof (fold_max_ge l (Z.max v x)). lia.
  - apply IH. exact Hin.
Qed.

Lemma fold_max_attained (l : list (Z * Z)) (v : Z) :
  fold_left (fun m kv => Z.max m (snd kv)) l v = v
  \/ exists k, In (k, fold_left (fun m kv => Z.max m (snd kv)) l v) l.
Proof.
  revert v. induction l as [|[k x] l IH]; intros v; simpl; [left; reflexivity|].
  destruct (IH (Z.max v x)) as [Heq|[k' Hin]].
  - rewrite Heq. destruct (Z.max_spec v x) as [[_ ->]|[_ ->]].
    + right. exists k. left. reflexivity.
    + left. reflexivity.
  - right. exists k'. right. exact Hin.
Qed.

(** [max_value] is the peak of a non-empty histogram. *)
Lemma max_value_is_peak (hf : list (Z * Z)) : hf <> [] -> is_peak (max_value hf) hf.
Proof.
  destruct hf as [|[k v] l]; [congruence|]. intros _. split.
  - simpl. destruct (fold_max_attained l v) as [Heq|[k' Hin]].
    + exists k. left. rewrite Heq. reflexivity.
    + exists k'. right. exact Hin.
  - intros k' v' [Heq|Hin]; simpl.
    + inversion Heq; subst. apply fold_max_ge.
    + eapply fold_max_upper. exact Hin.
Qed.




Lemma deviation_within_one (f p : Z) :
  0 <= f -> 0 < p -> (1 - inject_Z f / inject_Z p <= 1)%Q.
Proof.
  intros Hf Hp.
  assert (0 <= inject_Z f / inject_Z p)%Q as H0.
  { apply Qle_shift_div_l.
    - change (inject_Z 0 < inject_Z p)%Q. rewrite <- Zlt_Qlt. exact Hp.
    - rewrite Qmult_0_l. change (inject_Z 0 <= inject_Z f)%Q.
      rewrite <- Zle_Qle. exact Hf. }
  unfold Qminus. apply Qle_trans with (1 + 0)%Q.
  - apply Qplus_le_r. change (- (inject_Z f / inject_Z p) <= - 0)%Q.
    apply Qopp_le_compat. exact H0.
  - rewrite Qplus_0_r. apply Qle_refl.
Qed.



(** Inside [detect_anomaly] the baseline entry is created before the score
    is computed, so an off-hours first event never meets the
    "no baseline" case: its score is 0 when the server's hour equals the
    event's hour and 1 otherwise. *)
Lemma first_event_off_hours_score (env : Env) (a : UserActivity) (uid : string)
    (recent : list UserActivity) (w : World) :
  user_baselines w !! uid = None ->
  is_off_hours (event_hour a) = true ->
  exists feats w',
    observe env a uid recent w = (inr feats, w')
    /\ nth 8 feats 0%Q
       == if hour_of (clock env (clock_reads w)) =? event_hour a then 0 else 1.
Proof.
  intros Hnone Hoff.
  unfold observe, bind, datetime_now, modify_baselines, _extract_ml_features,
    bind, get_baselines, _calculate_rapid_activity_score, bind, get_baselines,
    datetime_now.
  cbn [user_baselines clock_reads].
  unfold _update_user_baseline at 1. rewrite Hnone. cbn [default new_baseline hour_frequency dict_get dict_set length].
  rewrite lookup_insert_eq.
  destruct (Qlt_bool 0 _); cbn [ret nth]; eexists _, _; (split; [reflexivity|]).
  all: unfold _calculate_off_hours_score, _update_user_baseline;
    rewrite Hnone, Hoff; cbn [negb default new_baseline hour_frequency
      typical_hours dict_get dict_set length];
    rewrite lookup_insert_eq; cbn [typical_hours hour_frequency];
    rewrite bool_decide_eq_false_2 by (cbn; set_solver);
    cbn [max_value fold_left dict_get default];
    rewrite Z.eqb_sym; destruct (event_hour a =? _); vm_compute; reflexivity.
Qed.


(* ================================================================= *)
(** * The temporal-anomaly feature *)

Lemma no_sequences_empty : no_sequences ∅.
Proof. intros uid b H. rewrite lookup_empty in H. discriminate. Qed.

Lemma update_keeps_no_sequences (now : Z) (uid : string) (a : UserActivity)
    (ub : gmap string Baseline) :
  no_sequences ub -> no_sequences (_update_user_baseline now uid a ub).
Proof.
  intros Hinv uid' b. unfold _update_user_baseline.
  destruct (decide (uid = uid')) as [->|Hne].
  - rewrite lookup_insert_eq. intros [= <-]. cbn [typical_sequences].
    destruct (ub !! uid') as [b0|] eqn:E; cbn [default].
    + exact (Hinv _ _ E).
    + reflexivity.
  - rewrite lookup_insert_ne by exact Hne. apply Hinv.
Qed.

Lemma temporal_anomaly_zero (ub : gmap string Baseline) (uid : string)
    (a : UserActivity) (recent : list UserActivity) :
  no_sequences ub -> _calculate_temporal_anomaly ub uid a recent = 0%Q.
Proof.
  intros Hinv. unfold _calculate_temporal_anomaly.
  destruct (ub !! uid) as [b|] eqn:E; [|reflexivity].
  rewrite (Hinv _ _ E). reflexivity.
Qed.

(* ================================================================= *)
(** * Reasoning about handlers: invariants *)

Lemma keeps_ret {A} (I : World -> Prop) (a : A) : keeps I (ret a).
Proof. intros w H. exact H. Qed.

Lemma keeps_raise {A} (I : World -> Prop) (e : Exn) : keeps I (@raise A e).
Proof. intros w H. exact H. Qed.

Lemma keeps_bind {A B} (I : World -> Prop) (c : M A) (k : A -> M B) :
  keeps I c -> (forall a, keeps I (k a)) -> keeps I (bind c k).
Proof.
  intros Hc Hk w H. unfold bind. specialize (Hc w H).
  destruct (c w) as [[e|a] w']; cbn in *; [exact Hc|].
  apply Hk. exact Hc.
Qed.

Lemma keeps_try_except {A} (I : World -> Prop) (c : M A) (h : Exn -> M A) :
  keeps I c -> (forall e, keeps I (h e)) -> keeps I (try_except c h).
Proof.
  intros Hc Hh w H. unfold try_except. specialize (Hc w H).
  destruct (c w) as [[e|a] w']; cbn in *; [|exact Hc].
  apply Hh. exact Hc.
Qed.

(** Decompose a [keeps] goal along the structure of the computation; what
    remains are the primitive steps the invariant is sensitive to. *)
Ltac keeps_step :=
  lazymatch goal with
  | |- keeps _ (bind _ _) => apply keeps_bind; [|intros ?]
  | |- keeps _ (ret _) => apply keeps_ret
  | |- keeps _ (raise _) => apply keeps_raise
  | |- keeps _ (try_except _ _) => apply keeps_try_except; [|intros ?]
  | |- keeps _ (local _ ?x) => destruct x; cbn [local]
  | |- keeps _ (model_call ?m _ _) => destruct m; cbn [model_call]
  | |- keeps _ (match ?x with _ => _ end) => destruct x
  | |- keeps _ (let _ := _ in _) => cbv zeta
  end.

(** A step that leaves the in-memory baselines alone keeps any invariant
    stated on them; likewise for the two copies of the database. *)
Ltac keeps_field :=
  lazymatch goal with
  | |- keeps _ (datetime_now _) => intros ? ?; assumption
  | |- keeps _ get_db => intros ? ?; assumption
  | |- keeps _ get_baselines => intros ? ?; assumption
  | |- keeps _ commit => let H := fresh in intros ? H; cbn in *; tauto
  | |- keeps _ rollback => let H := fresh in intros ? H; cbn in *; tauto
  end.

(** Every procedure of the ingest path, opened up to its primitive steps. *)
Ltac open_procedures :=
  unfold ingest_handler, ingest_body, store_activity, analyse, classify,
    recent_context, respond, fingerprint_bookkeeping, alert_branch,
    refresh_existing_alert, create_alert, publish_alert, escalate_new_alert,
    alert_generated_response, _escalate_to_threat, _auto_escalate_to_incident,
    calculate_its_score, score_rows, detect_anomaly, observe,
    _extract_ml_features, _calculate_rapid_activity_score.

Section BaselineInvariants.
(** An invariant of the detector's baselines that [_update_user_baseline]
    maintains is an invariant of the whole endpoint. *)
Variable P : gmap string Baseline -> Prop.
Hypothesis P_update :
  forall now uid a ub, P ub -> P (_update_user_baseline now uid a ub).
Let I : World -> Prop := fun w => P (user_baselines w).

Ltac baseline_steps :=
  repeat first
    [ keeps_step
    | keeps_field
    | lazymatch goal with
      | |- keeps _ (modify_db _) => intros ? ?; assumption
      | |- keeps _ (modify_baselines _) =>
          let H := fresh in intros ? H; apply P_update; exact H
      end ].

Lemma detect_anomaly_keeps env a uid recent :
  keeps I (detect_anomaly env a uid recent).
Proof. open_procedures. baseline_steps. Qed.

Lemma ingest_handler_keeps env a : keeps I (ingest_handler env a).
Proof. open_procedures. baseline_steps. Qed.

Lemma ingest_activity_keeps env a w :
  I w -> I (snd (ingest_activity env a w)).
Proof.
  intros H. unfold ingest_activity.
  pose proof (ingest_handler_keeps env a (open_session w) H) as Hk.
  destruct (ingest_handler env a (open_session w)) as [[[]|body] w'];
    exact Hk.
Qed.
End BaselineInvariants.

Lemma reachable_no_sequences (env : Env) (w : World) :
  reachable env w -> no_sequences (user_baselines w).
Proof.
  induction 1 as [w H|w a uid recent _ IH|w a _ IH].
  - rewrite H. apply no_sequences_empty.
  - apply (detect_anomaly_keeps no_sequences update_keeps_no_sequences).
    exact IH.
  - apply (ingest_activity_keeps no_sequences update_keeps_no_sequences).
    exact IH.
Qed.

(** [observe] always yields a feature vector. *)
Lemma observe_total (env : Env) (a : UserActivity) (uid : string)
    (recent : list UserActivity) (w : World) :
  exists feats w',
    observe env a uid recent w = (inr feats, w')
    /\ committed w' = committed w /\ session w' = session w
    /\ nth 12 feats 1%Q
       = _calculate_temporal_anomaly (user_baselines w') uid a recent.
Proof.
  unfold observe, bind, datetime_now, modify_baselines, _extract_ml_features,
    bind, get_baselines, _calculate_rapid_activity_score, bind, get_baselines,
    datetime_now.
  cbn [user_baselines clock_reads committed session].
  destruct (_ !! uid) as [b|]; [destruct (Qlt_bool 0 _)|];
    cbn [ret nth]; eexists _, _; (split; [reflexivity|]); cbn; auto.
Qed.

(** C9. In every state the detector can reach, the temporal-anomaly score
    is 0 for every activity, user and context, and so is feature 13 of the
    vector the next [detect_anomaly] extracts: no operation ever adds a
    typical sequence, so the 0.6 branch cannot be taken. *)
Theorem temporal_anomaly_always_zero (env : Env) (w : World) :
  reachable env w ->
  forall (a : UserActivity) (uid : string) (recent : list UserActivity),
    _calculate_temporal_anomaly (user_baselines w) uid a recent = 0%Q
    /\ exists feats w',
         observe env a uid recent w = (inr feats, w')
         /\ nth 12 feats 1%Q = 0%Q.
Proof.
  intros Hreach a uid recent.
  pose proof (reachable_no_sequences env w Hreach) as Hinv.
  split; [apply temporal_anomaly_zero; exact Hinv|].
  destruct (observe_total env a uid recent w) as (feats & w' & Hrun & _ & _ & Hf).
  exists feats, w'. split; [exact Hrun|].
  rewrite Hf. apply temporal_anomaly_zero.
  pose proof (reach_detect env w a uid recent Hreach) as Hr.
  apply reachable_no_sequences in Hr.
  unfold detect_anomaly, bind in Hr. rewrite Hrun in Hr. exact Hr.
Qed.

Lemma temporal_anomaly_always_zero_witness :
  let env := Fixture.env_of Fixture.ten_am (Fixture.flat_detector (2 # 10))
                            (Fixture.loaded (1 # 10)) in
  let w := snd (ingest_activity env Fixture.big_email Fixture.fresh) in
  _calculate_temporal_anomaly (user_baselines w) "U002" Fixture.big_email [] = 0%Q
  /\ exists feats w',
       observe env Fixture.big_email "U002" [] w = (inr feats, w')
       /\ nth 12 feats 1%Q = 0%Q.
Proof.
  intros env w.
  apply (temporal_anomaly_always_zero env w).
  apply reach_ingest. apply reach_start. reflexivity.
Defined.

(* ================================================================= *)
(** * The detector and the server's clock *)






(* ================================================================= *)
(** * The ITS engine's baseline floor *)

Section OrderByDesc.
Context {A : Type} (key : A -> Z).


Lemma In_insert_by_desc (x y : A) (s : list A) :
  In y (insert_by_desc key x s) <-> y = x \/ In y s.
Proof.
  induction s as [|z s IH]; cbn.
  - intuition.
  - destruct (key x <? key z); cbn; rewrite ?IH; intuition.
Qed.

Lemma In_order_by_desc (y : A) (l : list A) :
  In y (order_by_desc key l) <-> In y l.
Proof.
  induction l as [|x l IH]; cbn; [tauto|].
  rewrite In_insert_by_desc, IH. intuition.
Qed.




End OrderByDesc.





(* ================================================================= *)
(** * The agent's offline queue *)

Section AggregatorFacts.
Context {Event Result : Type}.
Variable created : Result -> bool.
Variable net : nat -> Event -> Outcome Result.

Local Abbreviation AG := (ActivityAggregator Event).

Lemma send_activity_frame (e : Event) (ag : AG) :
  local_queue (snd (_send_activity net e ag)) = local_queue ag
  /\ alert_queue (snd (_send_activity net e ag)) = alert_queue ag
  /\ posts (snd (_send_activity net e ag)) = posts ag ++ [e].
Proof.
  unfold _send_activity. destruct (net _ e); cbn; auto.
Qed.

Lemma send_activity_fails (e : Event) (ag : AG) :
  all_fail net -> fst (_send_activity net e ag) = None.
Proof.
  intros Hf. unfold _send_activity.
  destruct (net _ e) eqn:E; cbn; try reflexivity.
  exfalso. exact (Hf _ _ _ E).
Qed.

(** Every queued or new event is posted once per round, the offline
    queue first. *)
Lemma retry_one_posts (ag : AG) (e : Event) :
  posts (retry_one created net ag e) = posts ag ++ [e]
  /\ alert_queue (retry_one created net ag e) = alert_queue ag.
Proof.
  unfold retry_one.
  destruct (send_activity_frame e ag) as (Hq & Ha & Hp).
  destruct (_send_activity net e ag) as [[r|] ag']; cbn [fst snd local_queue alert_queue posts set_connection set_stats
           set_local_queue] in *.
  - auto.
  - destruct (Nat.ltb _ _); cbn; auto.
Qed.

Lemma send_one_posts (ag : AG) (e : Event) :
  posts (send_one created net ag e) = posts ag ++ [e]
  /\ alert_queue (send_one created net ag e) = alert_queue ag.
Proof.
  unfold send_one.
  destruct (send_activity_frame e ag) as (Hq & Ha & Hp).
  destruct (_send_activity net e ag) as [[r|] ag']; cbn [fst snd local_queue alert_queue posts set_connection set_stats
           set_local_queue] in *.
  - auto.
  - destruct (Nat.ltb _ _); cbn; auto.
Qed.

Lemma fold_retry_posts (es : list Event) (ag : AG) :
  posts (fold_left (retry_one created net) es ag) = posts ag ++ es
  /\ alert_queue (fold_left (retry_one created net) es ag) = alert_queue ag.
Proof.
  revert ag. induction es as [|e es IH]; intros ag; cbn.
  - rewrite app_nil_r. auto.
  - destruct (IH (retry_one created net ag e)) as [Hp Ha].
    destruct (retry_one_posts ag e) as [Hp1 Ha1].
    rewrite Hp, Ha, Hp1, Ha1, <- app_assoc. auto.
Qed.

Lemma fold_send_posts (es : list Event) (ag : AG) :
  posts (fold_left (send_one created net) es ag) = posts ag ++ es.
Proof.
  revert ag. induction es as [|e es IH]; intros ag; cbn.
  - rewrite app_nil_r. auto.
  - rewrite IH. destruct (send_one_posts ag e) as [-> _].
    rewrite <- app_assoc. reflexivity.
Qed.

Lemma retry_phase_posts (ag : AG) :
  posts (retry_phase created net ag) = posts ag ++ local_queue ag
  /\ alert_queue (retry_phase created net ag) = alert_queue ag.
Proof.
  unfold retry_phase. destruct (local_queue ag) as [|e es] eqn:E.
  - rewrite app_nil_r. auto.
  - apply (fold_retry_posts (e :: es) (set_local_queue [] ag)).
Qed.

Theorem offline_queue_retried_first (ag : AG) :
  posts (_send_activities_batch created net ag)
  = posts ag ++ local_queue ag ++ alert_queue ag.
Proof.
  unfold _send_activities_batch.
  destruct (retry_phase_posts ag) as [Hp Ha].
  rewrite Ha. destruct (alert_queue ag) as [|e es].
  - rewrite Hp, app_nil_r. reflexivity.
  - rewrite fold_send_posts. cbn [posts]. rewrite Hp, <- app_assoc. reflexivity.
Qed.

(** With the transport down, the retry loop puts back what it took. *)
Lemma fold_retry_all_fail (es : list Event) (ag : AG) :
  all_fail net ->
  (length (local_queue ag) + length es <= LOCAL_QUEUE_LIMIT)%nat ->
  local_queue (fold_left (retry_one created net) es ag) = local_queue ag ++ es.
Proof.
  intros Hf. revert ag. induction es as [|e es IH]; intros ag Hlen; cbn.
  - rewrite app_nil_r. reflexivity.
  - cbn [length] in Hlen.
    assert (local_queue (retry_one created net ag e) = local_queue ag ++ [e])
      as Hstep.
    { unfold retry_one.
      pose proof (send_activity_fails e ag Hf) as Hnone.
      destruct (send_activity_frame e ag) as (Hq & _ & _).
      destruct (_send_activity net e ag) as [[r|] ag']; cbn [fst snd local_queue alert_queue posts set_connection set_stats
           set_local_queue] in *;
        [discriminate|].
      rewrite Hq.
      destruct (Nat.ltb_spec (length (local_queue ag)) LOCAL_QUEUE_LIMIT);
        [reflexivity|lia]. }
    rewrite IH; rewrite Hstep; [rewrite <- app_assoc; reflexivity|].
    rewrite length_app. cbn [length]. lia.
Qed.

Lemma retry_phase_all_fail (ag : AG) :
  all_fail net ->
  (length (local_queue ag) <= LOCAL_QUEUE_LIMIT)%nat ->
  local_queue (retry_phase created net ag) = local_queue ag.
Proof.
  intros Hf Hlen. unfold retry_phase.
  destruct (local_queue ag) as [|e es] eqn:E; [exact E|].
  rewrite fold_retry_all_fail; [reflexivity|exact Hf|].
  cbn [set_local_queue local_queue length] in *. lia.
Qed.

(** With the transport down and the queue at its bound, the loop over
    new events leaves the queue as it is. *)
Lemma fold_send_full (es : list Event) (ag : AG) :
  all_fail net ->
  length (local_queue ag) = LOCAL_QUEUE_LIMIT ->
  local_queue (fold_left (send_one created net) es ag) = local_queue ag.
Proof.
  intros Hf. revert ag. induction es as [|e es IH]; intros ag Hlen; cbn;
    [reflexivity|].
  assert (local_queue (send_one created net ag e) = local_queue ag) as Hstep.
  { unfold send_one.
    pose proof (send_activity_fails e ag Hf) as Hnone.
    destruct (send_activity_frame e ag) as (Hq & _ & _).
    destruct (_send_activity net e ag) as [[r|] ag']; cbn [fst snd local_queue alert_queue posts set_connection set_stats
           set_local_queue] in *;
      [discriminate|].
    rewrite Hq.
    destruct (Nat.ltb_spec (length (local_queue ag)) LOCAL_QUEUE_LIMIT);
      [lia|]. cbn. exact Hq. }
  rewrite IH; rewrite Hstep; [reflexivity|exact Hlen].
Qed.

(** The offline queue never grows past its bound. *)
Lemma retry_one_bounded (ag : AG) (e : Event) :
  (length (local_queue ag) <= LOCAL_QUEUE_LIMIT)%nat ->
  (length (local_queue (retry_one created net ag e)) <= LOCAL_QUEUE_LIMIT)%nat.
Proof.
  intros Hlen. unfold retry_one.
  destruct (send_activity_frame e ag) as (Hq & _ & _).
  destruct (_send_activity net e ag) as [[r|] ag']; cbn [fst snd local_queue alert_queue posts set_connection set_stats
           set_local_queue] in *.
  - rewrite Hq. exact Hlen.
  - rewrite Hq.
    destruct (Nat.ltb_spec (length (local_queue ag)) LOCAL_QUEUE_LIMIT);
      cbn; rewrite length_app; cbn [length].
    + lia.
    + unfold LOCAL_QUEUE_LIMIT in *.
      destruct (local_queue ag); cbn [tail length] in *; lia.
Qed.

Lemma send_one_bounded (ag : AG) (e : Event) :
  (length (local_queue ag) <= LOCAL_QUEUE_LIMIT)%nat ->
  (length (local_queue (send_one created net ag e)) <= LOCAL_QUEUE_LIMIT)%nat.
Proof.
  intros Hlen. unfold send_one.
  destruct (send_activity_frame e ag) as (Hq & _ & _).
  destruct (_send_activity net e ag) as [[r|] ag']; cbn [fst snd local_queue alert_queue posts set_connection set_stats
           set_local_queue] in *.
  - rewrite Hq. exact Hlen.
  - rewrite Hq.
    destruct (Nat.ltb_spec (length (local_queue ag)) LOCAL_QUEUE_LIMIT); cbn.
    + rewrite length_app. cbn [length]. lia.
    + rewrite Hq. exact Hlen.
Qed.

Lemma fold_bounded (step : AG -> Event -> AG) (es : list Event) (ag : AG) :
  (forall ag e, (length (local_queue ag) <= LOCAL_QUEUE_LIMIT)%nat ->
                (length (local_queue (step ag e)) <= LOCAL_QUEUE_LIMIT)%nat) ->
  (length (local_queue ag) <= LOCAL_QUEUE_LIMIT)%nat ->
  (length (local_queue (fold_left step es ag)) <= LOCAL_QUEUE_LIMIT)%nat.
Proof.
  intros Hstep. revert ag. induction es as [|e es IH]; intros ag Hlen; cbn;
    [exact Hlen|].
  apply IH, Hstep, Hlen.
Qed.

Theorem offline_queue_bounded (ag : AG) :
  (length (local_queue ag) <= LOCAL_QUEUE_LIMIT)%nat ->
  (length (local_queue (_send_activities_batch created net ag))
   <= LOCAL_QUEUE_LIMIT)%nat.
Proof.
  intros Hlen.
  assert (length (local_queue (retry_phase created net ag))
          <= LOCAL_QUEUE_LIMIT)%nat as Hretry.
  { unfold retry_phase. destruct (local_queue ag) as [|e es] eqn:E.
    - rewrite E. cbn. unfold LOCAL_QUEUE_LIMIT. lia.
    - apply fold_bounded; [apply retry_one_bounded|].
      cbn. unfold LOCAL_QUEUE_LIMIT. lia. }
  unfold _send_activities_batch.
  destruct (alert_queue (retry_phase created net ag)); [exact Hretry|].
  apply fold_bounded; [apply send_one_bounded|exact Hretry].
Qed.

(** A new event whose POST fails is appended to an offline queue that
    has room. *)
Theorem failed_event_is_queued (ag : AG) (e : Event) :
  fst (_send_activity net e ag) = None ->
  (length (local_queue ag) < LOCAL_QUEUE_LIMIT)%nat ->
  local_queue (send_one created net ag e) = local_queue ag ++ [e].
Proof.
  intros Hnone Hlen. unfold send_one.
  destruct (send_activity_frame e ag) as (Hq & _ & _).
  destruct (_send_activity net e ag) as [[r|] ag']; cbn [fst snd local_queue alert_queue posts set_connection set_stats
           set_local_queue] in *; [discriminate|].
  rewrite Hq.
  destruct (Nat.ltb_spec (length (local_queue ag)) LOCAL_QUEUE_LIMIT);
    [reflexivity|lia].
Qed.

(** C8 at the bound. The transport is down, the offline queue holds
    1,000 events and one new event is waiting. After the round the
    offline queue is what it was: its oldest event is still at the
    front, and the new event, posted once after the queued ones, is in
    neither queue. The loop over new events drops the NEW event; only
    the retry loop evicts the oldest. *)
Theorem full_queue_drops_new_event (ag : AG) (x : Event) :
  all_fail net ->
  length (local_queue ag) = LOCAL_QUEUE_LIMIT ->
  alert_queue ag = [x] ->
  let ag' := _send_activities_batch created net ag in
  local_queue ag' = local_queue ag
  /\ alert_queue ag' = []
  /\ posts ag' = posts ag ++ local_queue ag ++ [x].
Proof.
  intros Hf Hlen Hx ag'. subst ag'.
  split; [|split].
  - unfold _send_activities_batch.
    destruct (retry_phase_posts ag) as [_ Ha]. rewrite Ha, Hx.
    rewrite fold_send_full; cbn [local_queue].
    + apply retry_phase_all_fail; [exact Hf|lia].
    + exact Hf.
    + rewrite retry_phase_all_fail; [exact Hlen|exact Hf|lia].
  - unfold _send_activities_batch.
    destruct (retry_phase_posts ag) as [_ Ha]. rewrite Ha, Hx.
    cbn [fold_left].
    destruct (send_one_posts
                {| alert_queue := [];
                   local_queue := local_queue (retry_phase created net ag);
                   connection_available :=
                     connection_available (retry_phase created net ag);
                   stats := stats (retry_phase created net ag);
                   posts := posts (retry_phase created net ag) |} x)
      as [_ ->].
    reflexivity.
  - rewrite offline_queue_retried_first, Hx. reflexivity.
Qed.
End AggregatorFacts.

Lemma full_queue_drops_new_event_witness :
  let ag' := _send_activities_batch (fun _ => false) Fixture.down
                                    Fixture.full_agent in
  local_queue ag' = seq 0 1000
  /\ alert_queue ag' = []
  /\ posts ag' = seq 0 1000 ++ [1000%nat].
Proof.
  apply (full_queue_drops_new_event (fun _ => false) Fixture.down
           Fixture.full_agent 1000%nat).
  - intros n e r. discriminate.
  - vm_compute. reflexivity.
  - reflexivity.
Defined.

(* ================================================================= *)
(** * Reasoning about handlers: runs *)

Lemma bind_run {A B} (c : M A) (k : A -> M B) (w w' : World) (a : A) :
  c w = (inr a, w') -> bind c k w = k a w'.
Proof. intros H. unfold bind. rewrite H. reflexivity. Qed.

Lemma bind_fail {A B} (c : M A) (k : A -> M B) (w w' : World) (e : Exn) :
  c w = (inl e, w') -> bind c k w = (inl e, w').
Proof. intros H. unfold bind. rewrite H. reflexivity. Qed.

(** ** Tables *)

Lemma next_id_fresh {A} (key : A -> Z) (l : list A) (x : A) :
  In x l -> key x < next_id key l.
Proof.
  unfold next_id. induction l as [|y l IH]; intros Hin; [destruct Hin|].
  cbn [fold_right]. destruct Hin as [->|Hin]; [lia|].
  specialize (IH Hin). lia.
Qed.

Lemma update_first_fresh_last {A} (p : A -> bool) (f : A -> A) (l : list A) (y : A) :
  (forall x, In x l -> p x = false) -> p y = true ->
  update_first p f (l ++ [y]) = l ++ [f y].
Proof.
  intros Hl Hy. induction l as [|x l IH]; cbn.
  - rewrite Hy. reflexivity.
  - rewrite (Hl x (or_introl eq_refl)). f_equal. apply IH.
    intros z Hz. apply Hl. right. exact Hz.
Qed.

Lemma update_first_by_new_id {A} (key : A -> Z) (f : A -> A) (l : list A) (y : A) :
  key y = next_id key l ->
  update_first (fun x => key x =? key y) f (l ++ [y]) = l ++ [f y].
Proof.
  intros Hy. apply update_first_fresh_last.
  - intros x Hx. apply Z.eqb_neq. pose proof (next_id_fresh key l x Hx). lia.
  - apply Z.eqb_refl.
Qed.

Lemma first_where_update_first {A} (p : A -> bool) (f : A -> A) (l : list A) :
  (forall x, p x = true -> p (f x) = true) ->
  first_where p (update_first p f l) = option_map f (first_where p l).
Proof.
  intros Hf. unfold first_where. induction l as [|x l IH]; cbn; [reflexivity|].
  destruct (p x) eqn:E; cbn.
  - rewrite (Hf x E). reflexivity.
  - rewrite E. exact IH.
Qed.

Lemma first_where_app_some {A} (p : A -> bool) (l l' : list A) (x : A) :
  first_where p l = Some x -> first_where p (l ++ l') = Some x.
Proof.
  unfold first_where. induction l as [|y l IH]; cbn; [discriminate|].
  destruct (p y); [tauto|exact IH].
Qed.

Lemma first_where_app_none {A} (p : A -> bool) (l : list A) (y : A) :
  first_where p l = None -> p y = true -> first_where p (l ++ [y]) = Some y.
Proof.
  unfold first_where. induction l as [|x l IH]; cbn; intros Hn Hy.
  - rewrite Hy. reflexivity.
  - destruct (p x); [discriminate|]. apply IH; assumption.
Qed.

Lemma first_where_true {A} (p : A -> bool) (l : list A) (x : A) :
  first_where p l = Some x -> In x l /\ p x = true.
Proof.
  unfold first_where. intros H. apply find_some in H. exact H.
Qed.

Lemma update_first_replaces {A} (p : A -> bool) (v : A) (l : list A) (x : A) :
  In x l -> p x = true -> In v (update_first p (fun _ => v) l).
Proof.
  induction l as [|y l IH]; intros Hin Hp; [destruct Hin|]. cbn.
  destruct (p y) eqn:E; [left; reflexivity|].
  destruct Hin as [->|Hin]; [congruence|]. right. apply IH; assumption.
Qed.

Lemma head_order_by_desc {A} (key : A -> Z) (l : list A) (x : A) :
  head (order_by_desc key l) = Some x -> In x l.
Proof.
  intros H. apply In_order_by_desc with (key := key).
  destruct (order_by_desc key l); [discriminate|].
  injection H as ->. left. reflexivity.
Qed.

(** ** Steps that only read *)

Ltac read_only :=
  repeat first
    [ keeps_step
    | keeps_field
    | lazymatch goal with
      | |- keeps _ (modify_baselines _) => fail 1
      | |- keeps _ (modify_db _) => fail 1
      end ].

Lemma calculate_its_score_same_data (env : Env) (uid : string) (w : World) :
  same_data w (snd (calculate_its_score env uid w)).
Proof.
  assert (keeps (same_data w) (calculate_its_score env uid)) as H.
  { unfold calculate_its_score, score_rows. read_only. }
  apply H. unfold same_data. auto.
Qed.

(** ** The number of clock reads only grows *)

Ltac clock_steps :=
  repeat first
    [ keeps_step
    | lazymatch goal with
      | |- keeps _ (datetime_now _) =>
          let H := fresh in intros ? H; cbn in *; lia
      | |- keeps _ get_db => intros ? ?; assumption
      | |- keeps _ get_baselines => intros ? ?; assumption
      | |- keeps _ commit => let H := fresh in intros ? H; exact H
      | |- keeps _ rollback => let H := fresh in intros ? H; exact H
      | |- keeps _ (modify_db _) => let H := fresh in intros ? H; exact H
      | |- keeps _ (modify_baselines _) => let H := fresh in intros ? H; exact H
      end ].

Lemma classify_clock (env : Env) (a : UserActivity) (k : nat) :
  keeps (fun w => (k <= clock_reads w)%nat) (classify env a).
Proof. open_procedures. clock_steps. Qed.

Lemma fingerprint_bookkeeping_clock (env : Env) (a : UserActivity) (h : string)
    (k : nat) :
  keeps (fun w => (k <= clock_reads w)%nat) (fingerprint_bookkeeping env a h).
Proof. open_procedures. clock_steps. Qed.

Lemma calculate_its_score_clock (env : Env) (uid : string) (k : nat) :
  keeps (fun w => (k <= clock_reads w)%nat) (calculate_its_score env uid).
Proof. open_procedures. clock_steps. Qed.

Lemma respond_clock (env : Env) (a : UserActivity) (v : bool * Q * string)
    (h : string) (k : nat) :
  keeps (fun w => (k <= clock_reads w)%nat) (respond env a v h).
Proof. open_procedures. clock_steps. Qed.

(** [create_alert] starts by reading the clock. *)
Lemma create_alert_reads (env : Env) (a : UserActivity) (h : string) (ml : Q)
    (sd : ScoreData.t) (risk : string) (anomalies : list string)
    (expl : string) (now : Z) (w : World) :
  (clock_reads w
   < clock_reads (snd (create_alert env a h ml sd risk anomalies expl now w)))%nat.
Proof.
  unfold create_alert. unfold bind at 1. unfold datetime_now at 1.
  cbv beta iota.
  match goal with
  | |- (_ < clock_reads (snd (?c ?w0)))%nat =>
      assert (keeps (fun w' => (S (clock_reads w) <= clock_reads w')%nat) c) as H
        by (open_procedures; clock_steps);
      unfold lt; apply (H w0); cbn; lia
  end.
Qed.

(** The detector step always yields a verdict and leaves the database
    alone. *)
Lemma classify_run (env : Env) (a : UserActivity) (w : World) :
  exists v w',
    classify env a w = (inr v, w')
    /\ committed w' = committed w /\ session w' = session w.
Proof.
  unfold classify, recent_context, bind at 1 2 3, datetime_now, get_db.
  cbn [ret session committed clock_reads user_baselines].
  match goal with
  | |- context [detect_anomaly env a ?uid ?recent ?w0] =>
      destruct (observe_total env a uid recent w0) as (feats & w' & Hrun & Hc & Hs & _);
      unfold detect_anomaly; rewrite (bind_run _ _ _ _ _ Hrun)
  end.
  cbn [ret]. eexists _, _. split; [reflexivity|]. cbn in Hc, Hs. auto.
Qed.

(** ** The fingerprint record *)

Lemma has_hash_touch (h : string) (now : Z) (f : AnomalyFingerprint.t) :
  has_hash h (AnomalyFingerprint.touch now f) = has_hash h f.
Proof. reflexivity. Qed.

Lemma fingerprint_bookkeeping_run (env : Env) (a : UserActivity) (h : string)
    (w : World) :
  exists r w' fps',
    fingerprint_bookkeeping env a h w = (inr r, w')
    /\ user_baselines w' = user_baselines w
    /\ session w' = with_anomaly_fingerprints fps' (session w)
    /\ (exists fp', first_where (has_hash h) fps' = Some fp')
    /\ ((r = None /\ committed w' = committed w)
        \/ (r = Some suppressed_response /\ committed w' = session w')
        \/ (r = Some already_escalated_response /\ committed w' = session w')).
Proof.
  unfold fingerprint_bookkeeping, bind at 1, get_db.
  destruct (first_where (has_hash h) (anomaly_fingerprints (session w)))
    as [fp|] eqn:Hfp.
  - assert (forall now, exists fp',
              first_where (has_hash h)
                (update_first (has_hash h) (AnomalyFingerprint.touch now)
                   (anomaly_fingerprints (session w))) = Some fp') as Hstill.
    { intros now. rewrite first_where_update_first by auto.
      rewrite Hfp. eexists. reflexivity. }
    unfold bind, datetime_now, modify_db, commit.
    cbn [session committed user_baselines clock_reads].
    destruct (AnomalyFingerprint.suppressed_until fp) as [d|].
    + cbn [ret clock_reads].
      destruct (_ <? d); [|destruct (AnomalyFingerprint.escalated fp)];
        cbn [ret session committed user_baselines clock_reads];
        eexists _, _, _; (split; [reflexivity|]); cbn; auto 10.
    + cbn [ret]. destruct (AnomalyFingerprint.escalated fp);
        cbn [ret session committed user_baselines clock_reads];
        eexists _, _, _; (split; [reflexivity|]); cbn; auto 10.
  - unfold bind, datetime_now, modify_db.
    cbn [ret session committed user_baselines clock_reads].
    eexists _, _, _. split; [reflexivity|]. cbn.
    split; [reflexivity|]. split; [reflexivity|]. split; [|auto].
    eexists. apply first_where_app_none; [exact Hfp|].
    unfold has_hash. cbn. apply String.eqb_refl.
Qed.

(** ** Alert -> Threat *)

Lemma update_first_no_match {A} (p : A -> bool) (f : A -> A) (l : list A) :
  first_where p l = None -> update_first p f l = l.
Proof.
  unfold first_where. induction l as [|x l IH]; cbn; [reflexivity|].
  destruct (p x); [discriminate|]. intros H. f_equal. exact (IH H).
Qed.

Lemma escalate_to_threat_run (env : Env) (alert : AnomalyAlert.t)
    (a : UserActivity) (ml : Q) (expl : string) (w : World) :
  settled w ->
  exists r w',
    _escalate_to_threat env alert a ml expl w = (inr r, w')
    /\ settled w'
    /\ user_baselines w' = user_baselines w
    /\ (session w' = session w
        \/ exists t, session w' = threat_effect alert t (session w)).
Proof.
  intros Hset. unfold settled in *.
  unfold _escalate_to_threat, try_except, bind at 1, get_db.
  destruct (first_where _ (threats (session w))) as [t0|].
  { cbn [ret]. eexists _, _. split; [reflexivity|]. auto. }
  unfold bind at 1.
  pose proof (calculate_its_score_same_data env (user_id a) w) as (Hc & Hs & Hb).
  destruct (calculate_its_score env (user_id a) w) as [[e|sd] w1];
    cbn [snd] in Hc, Hs, Hb.
  { cbn [ret]. eexists _, _. split; [reflexivity|].
    unfold settled. rewrite Hs, Hc. auto. }
  unfold bind, datetime_now, get_db, modify_db, commit.
  cbn [session committed user_baselines clock_reads ret].
  cbn [anomaly_fingerprints with_anomaly_alerts with_threats].
  rewrite Hs, Hb.
  destruct (first_where _ (anomaly_fingerprints (session w))) as [fp|] eqn:Hfp;
    cbn [session committed user_baselines clock_reads ret];
    eexists _, _; (split; [reflexivity|]); unfold settled;
    cbn [session committed user_baselines clock_reads];
    (split; [reflexivity|]); (split; [reflexivity|]); right;
    match goal with
    | |- context [threats (session w) ++ [?x]] => exists x
    end.
  - unfold threat_effect. cbn. reflexivity.
  - unfold threat_effect. rewrite (update_first_no_match _ _ _ Hfp). cbn.
    reflexivity.
Qed.

(** ** Alert -> Incident *)

Lemma In_filter_bool {A} (p : A -> bool) (l : list A) (x : A) :
  In x (filter p l) -> In x l /\ p x = true.
Proof.
  intros H. apply list_elem_of_In, list_elem_of_filter in H.
  destruct H as [Hp Hx]. split.
  - apply list_elem_of_In. exact Hx.
  - apply Is_true_true. exact Hp.
Qed.

Lemma auto_escalate_run (env : Env) (ta : ThreatAlertDB.t) (a : UserActivity)
    (sd : ScoreData.t) (expl : string) (w : World) :
  settled w ->
  exists inc w' rows,
    _auto_escalate_to_incident env ta a sd expl w = (inr (Some inc), w')
    /\ settled w'
    /\ user_baselines w' = user_baselines w
    /\ session w' = with_incidents rows (session w)
    /\ exists i, In i rows /\ active_incident_of (user_id a) i.
Proof.
  intros Hset.
  unfold _auto_escalate_to_incident, try_except, bind at 1, datetime_now.
  unfold bind at 1, get_db. cbn [session clock_reads].
  match goal with
  | |- context [head (order_by_desc Incident.timestamp (filter ?p ?l))] =>
      destruct (head (order_by_desc Incident.timestamp (filter p l)))
        as [existing|] eqn:Hhead;
      [apply head_order_by_desc, In_filter_bool in Hhead;
       destruct Hhead as [Hin Hact]|]
  end.
  - unfold bind, datetime_now, modify_db, commit.
    cbn [session committed user_baselines clock_reads ret].
    eexists _, _, _. split; [reflexivity|]. unfold settled.
    cbn [session committed user_baselines clock_reads].
    split; [reflexivity|]. split; [reflexivity|]. split; [reflexivity|].
    eexists. split.
    + eapply update_first_replaces; [exact Hin|]. apply Z.eqb_refl.
    + apply andb_true_iff in Hact. destruct Hact as [Hact Hst].
      apply andb_true_iff in Hact. destruct Hact as [Hu _].
      apply String.eqb_eq in Hu.
      unfold active_incident_of.
      destruct (Qlt_bool _ _), (serious _ && _)%bool; cbn;
        (split; [exact Hu|]);
        apply orb_true_iff in Hst; destruct Hst as [Hst|Hst];
        apply String.eqb_eq in Hst; auto.
  - unfold bind, datetime_now, get_db, modify_db, commit.
    cbn [session committed user_baselines clock_reads ret].
    eexists _, _, _. split; [reflexivity|]. unfold settled.
    cbn [session committed user_baselines clock_reads].
    split; [reflexivity|]. split; [reflexivity|]. split; [reflexivity|].
    eexists. split.
    + apply in_or_app. right. left. reflexivity.
    + unfold active_incident_of. cbn. auto.
Qed.

(** ** The new-alert branch *)

(** Lines 1145-1182 from a state in which the two new alert rows are the
    last rows of their tables. *)
Lemma escalate_new_alert_run (env : Env) (a : UserActivity) (ml : Q)
    (sd : ScoreData.t) (risk : string) (anomalies : list string)
    (expl : string) (now : Z) (naa : AnomalyAlert.t) (nta : ThreatAlertDB.t)
    (aas : list AnomalyAlert.t) (tas : list ThreatAlertDB.t) (w : World) :
  settled w ->
  anomaly_alerts (session w) = aas ++ [naa] ->
  AnomalyAlert.alert_id naa = next_id AnomalyAlert.alert_id aas ->
  threat_alerts (session w) = tas ++ [nta] ->
  ThreatAlertDB.alert_id nta = next_id ThreatAlertDB.alert_id tas ->
  let cond := should_escalate risk ml (ScoreData.its_score sd) in
  exists w' x t,
    escalate_new_alert env a ml sd risk anomalies expl now naa nta w
    = (inr {| threat_alert := Some nta; anomaly_alert := Some naa;
              score_data := Some sd; risk_level := Some risk;
              anomalies_list := Some anomalies;
              alert_timestamp := Some now |}, w')
    /\ settled w'
    /\ user_baselines w' = user_baselines w
    /\ activity_logs (session w') = activity_logs (session w)
    /\ historical_its_scores (session w') = historical_its_scores (session w)
    /\ anomaly_alerts (session w') = aas ++ [x]
    /\ (x = naa \/ exists tid, x = AnomalyAlert.link_threat tid naa)
    /\ threat_alerts (session w')
       = tas ++ [if cond
                 then ThreatAlertDB.set_status "escalated_to_incident" nta
                 else nta]
    /\ (anomaly_fingerprints (session w') = anomaly_fingerprints (session w)
        \/ anomaly_fingerprints (session w')
           = update_first (has_hash (AnomalyAlert.anomaly_fingerprint naa))
               AnomalyFingerprint.set_escalated
               (anomaly_fingerprints (session w)))
    /\ users (session w')
       = update_first (fun u => String.eqb (User.user_id u) (user_id a))
           (User.set_score (ScoreData.its_score sd) (ScoreData.risk_level sd) t)
           (users (session w))
    /\ (cond = true ->
        exists i, In i (incidents (session w'))
                  /\ active_incident_of (user_id a) i)
    /\ (cond = false -> incidents (session w') = incidents (session w)).
Proof.
  intros Hset Haa Hnaa Hta Hnta cond.
  unfold escalate_new_alert.
  (* Alert -> Threat *)
  match goal with
  | |- context [bind ?c _ w] =>
      assert (exists w1 x,
                c w = (inr tt, w1) /\ settled w1
                /\ user_baselines w1 = user_baselines w
                /\ users (session w1) = users (session w)
                /\ activity_logs (session w1) = activity_logs (session w)
                /\ historical_its_scores (session w1)
                   = historical_its_scores (session w)
                /\ incidents (session w1) = incidents (session w)
                /\ threat_alerts (session w1) = tas ++ [nta]
                /\ anomaly_alerts (session w1) = aas ++ [x]
                /\ (x = naa \/ exists tid, x = AnomalyAlert.link_threat tid naa)
                /\ (anomaly_fingerprints (session w1)
                    = anomaly_fingerprints (session w)
                    \/ anomaly_fingerprints (session w1)
                       = update_first
                           (has_hash (AnomalyAlert.anomaly_fingerprint naa))
                           AnomalyFingerprint.set_escalated
                           (anomaly_fingerprints (session w))))
        as (w1 & x & Hrun1 & Hset1 & Hb1 & Hu1 & Hl1 & Hh1 & Hi1 & Hta1 & Haa1
            & Hx & Hfp1)
  end.
  { destruct (Qle_bool THREAT_ESCALATION_THRESHOLD ml).
    - destruct (escalate_to_threat_run env naa a ml expl w Hset)
        as (r & w1 & Hr & Hs1 & Hb & [Heq|[t Heq]]).
      + exists w1, naa. rewrite (bind_run _ _ _ _ _ Hr). cbn [ret].
        rewrite Heq. auto 15.
      + exists w1, (AnomalyAlert.link_threat (Threat.threat_id t) naa).
        rewrite (bind_run _ _ _ _ _ Hr). cbn [ret].
        rewrite Heq. unfold threat_effect.
        cbn [users activity_logs historical_its_scores incidents threat_alerts
             anomaly_alerts anomaly_fingerprints with_anomaly_fingerprints
             with_anomaly_alerts with_threats].
        rewrite Haa, (update_first_by_new_id _ _ _ _ Hnaa). eauto 15.
    - exists w, naa. cbn [ret]. auto 15. }
  rewrite (bind_run _ _ _ _ _ Hrun1).
  (* Alert -> Incident *)
  match goal with
  | |- context [bind ?c _ w1] =>
      assert (exists w2,
                c w1 = (inr tt, w2) /\ settled w2
                /\ user_baselines w2 = user_baselines w1
                /\ users (session w2) = users (session w1)
                /\ activity_logs (session w2) = activity_logs (session w1)
                /\ historical_its_scores (session w2)
                   = historical_its_scores (session w1)
                /\ anomaly_alerts (session w2) = anomaly_alerts (session w1)
                /\ anomaly_fingerprints (session w2)
                   = anomaly_fingerprints (session w1)
                /\ threat_alerts (session w2)
                   = tas ++ [if cond
                             then ThreatAlertDB.set_status
                                    "escalated_to_incident" nta
                             else nta]
                /\ (cond = true ->
                    exists i, In i (incidents (session w2))
                              /\ active_incident_of (user_id a) i)
                /\ (cond = false -> incidents (session w2) = incidents (session w1)))
        as (w2 & Hrun2 & Hset2 & Hb2 & Hu2 & Hl2 & Hh2 & Haa2 & Hfp2 & Hta2
            & Hyes & Hno)
  end.
  { fold cond. destruct cond.
    - destruct (auto_escalate_run env nta a sd expl w1 Hset1)
        as (inc & w2 & rows & Hr & Hs2 & Hb & Hsess & i & Hin & Hact).
      rewrite (bind_run _ _ _ _ _ Hr).
      unfold bind, modify_db, commit.
      cbn [session committed user_baselines clock_reads ret].
      eexists. split; [reflexivity|]. unfold settled.
      cbn [session committed user_baselines clock_reads].
      rewrite Hsess.
      cbn [users activity_logs historical_its_scores incidents threat_alerts
           anomaly_alerts anomaly_fingerprints with_threat_alerts
           with_incidents].
      rewrite Hta1, (update_first_by_new_id _ _ _ _ Hnta).
      repeat (split; [reflexivity || exact Hb|]).
      split; [intros _; exists i; auto|discriminate].
    - exists w1. cbn [ret]. rewrite Hta1.
      repeat (split; [reflexivity || exact Hset1|]).
      split; [discriminate|reflexivity]. }
  rewrite (bind_run _ _ _ _ _ Hrun2).
  unfold bind, datetime_now, modify_db, commit.
  cbn [session committed user_baselines clock_reads ret].
  eexists _, x, _. split; [reflexivity|]. unfold settled.
  cbn [session committed user_baselines clock_reads].
  cbn [users activity_logs historical_its_scores incidents threat_alerts
       anomaly_alerts anomaly_fingerprints with_users].
  rewrite Hu2, Hu1, Hl2, Hl1, Hh2, Hh1, Haa2, Haa1, Hfp2, Hta2, Hb2, Hb1.
  repeat (split; [reflexivity || assumption|]).
  intros Hc. rewrite (Hno Hc). exact Hi1.
Qed.

Lemma update_first_twice {A} (p : A -> bool) (f g : A -> A) (l : list A) :
  (forall x, p x = true -> p (f x) = true) ->
  update_first p g (update_first p f l) = update_first p (fun x => g (f x)) l.
Proof.
  intros Hf. induction l as [|x l IH]; cbn; [reflexivity|].
  destruct (p x) eqn:E; cbn.
  - rewrite (Hf x E). reflexivity.
  - rewrite E, IH. reflexivity.
Qed.

(** Lines 1101-1182 as a whole: what creating an alert leaves behind. *)
Lemma create_alert_run (env : Env) (a : UserActivity) (h : string) (ml : Q)
    (sd : ScoreData.t) (risk : string) (anomalies : list string)
    (expl : string) (now : Z) (w : World) :
  settled w ->
  let deadline :=
    clock env (clock_reads w) + ALERT_SUPPRESSION_HOURS * usec_per_hour in
  let cond := should_escalate risk ml (ScoreData.its_score sd) in
  exists w' naa nta x g t,
    create_alert env a h ml sd risk anomalies expl now w
    = (inr {| threat_alert := Some nta; anomaly_alert := Some naa;
              score_data := Some sd; risk_level := Some risk;
              anomalies_list := Some anomalies;
              alert_timestamp := Some now |}, w')
    /\ settled w'
    /\ user_baselines w' = user_baselines w
    /\ (ThreatAlertDB.risk_level nta = risk
        /\ ThreatAlertDB.status nta = "open"%string
        /\ ThreatAlertDB.its_score nta = ScoreData.its_score sd
        /\ ThreatAlertDB.user_id nta = user_id a)
    /\ activity_logs (session w') = activity_logs (session w)
    /\ historical_its_scores (session w') = historical_its_scores (session w)
    /\ (anomaly_alerts (session w') = anomaly_alerts (session w) ++ [x]
        /\ AnomalyAlert.anomaly_fingerprint x = h
        /\ AnomalyAlert.suppressed_until x = Some deadline)
    /\ threat_alerts (session w')
       = threat_alerts (session w)
         ++ [if cond
             then ThreatAlertDB.set_status "escalated_to_incident" nta
             else nta]
    /\ (anomaly_fingerprints (session w')
        = update_first (has_hash h) g (anomaly_fingerprints (session w))
        /\ forall fp,
             AnomalyFingerprint.fingerprint_hash (g fp)
             = AnomalyFingerprint.fingerprint_hash fp
             /\ AnomalyFingerprint.suppressed_until (g fp) = Some deadline)
    /\ users (session w')
       = update_first (fun u => String.eqb (User.user_id u) (user_id a))
           (User.set_score (ScoreData.its_score sd) (ScoreData.risk_level sd) t)
           (users (session w))
    /\ (cond = true ->
        exists i, In i (incidents (session w'))
                  /\ active_incident_of (user_id a) i)
    /\ (cond = false -> incidents (session w') = incidents (session w)).
Proof.
  intros Hset deadline cond.
  unfold create_alert, publish_alert.
  unfold bind, datetime_now, get_db, modify_db, commit.
  cbn [session committed user_baselines clock_reads ret].
  cbn [threat_alerts with_anomaly_alerts].
  match goal with
  | |- context [escalate_new_alert env a ml sd risk anomalies expl now ?naa ?nta ?w2] =>
      destruct (escalate_new_alert_run env a ml sd risk anomalies expl now
                  naa nta (anomaly_alerts (session w))
                  (threat_alerts (session w)) w2)
        as (w' & x & t & Hrun & Hset' & Hb & Hl & Hh & Haa & Hx & Hta & Hfp
            & Hu & Hyes & Hno);
      [reflexivity|reflexivity|reflexivity|reflexivity|reflexivity|];
      exists w', naa, nta, x
  end.
  cbn [session committed user_baselines clock_reads] in *.
  cbn [users activity_logs historical_its_scores incidents threat_alerts
       anomaly_alerts anomaly_fingerprints with_anomaly_fingerprints
       with_threat_alerts with_anomaly_alerts] in *.
  cbn [AnomalyAlert.anomaly_fingerprint AnomalyAlert.suppressed_until] in Hfp.
  fold deadline in Hfp.
  assert (AnomalyAlert.anomaly_fingerprint x = h
          /\ AnomalyAlert.suppressed_until x = Some deadline) as Hxf.
  { destruct Hx as [->|[tid ->]]; cbn; auto. }
  destruct Hfp as [Hfp|Hfp].
  - exists (AnomalyFingerprint.set_suppressed_until (Some deadline)), t.
    rewrite Hrun. fold cond in Hta, Hyes, Hno.
    repeat (match goal with |- _ /\ _ => split end);
      try reflexivity; try assumption; try apply Hxf;
      intros fp; cbn; auto.
  - exists (fun fp => AnomalyFingerprint.set_escalated
                        (AnomalyFingerprint.set_suppressed_until (Some deadline) fp)),
           t.
    rewrite Hrun. fold cond in Hta, Hyes, Hno.
    rewrite update_first_twice in Hfp by auto.
    repeat (match goal with |- _ /\ _ => split end);
      try reflexivity; try assumption; try apply Hxf;
      intros fp; cbn; auto.
Qed.

Lemma alert_branch_cases (env : Env) (a : UserActivity) (h : string) (ml : Q)
    (expl : string) (w : World) :
  settled w ->
  exists r w',
    alert_branch env a h ml expl w = (r, w')
    /\ user_baselines w' = user_baselines w
    /\ ((exists e, r = inl e)
        \/ (exists l, r = inr l /\ threat_alert l = None)
        \/ (exists sd now naa nta n,
              r = inr {| threat_alert := Some nta; anomaly_alert := Some naa;
                         score_data := Some sd;
                         risk_level :=
                           Some (risk_band ml (ScoreData.its_score sd));
                         anomalies_list := Some (anomalies_of expl a);
                         alert_timestamp := Some now |}
              /\ settled w'
              /\ fresh_dashboard_alert (user_id a) ml sd nta
              /\ alert_created (user_id a) h ml sd
                   (clock env n + ALERT_SUPPRESSION_HOURS * usec_per_hour) nta
                   (session w) (session w')
              /\ (clock_reads w <= n < clock_reads w')%nat)).
Proof.
  intros Hset. unfold alert_branch, bind at 1, get_db. unfold bind at 1.
  pose proof (calculate_its_score_same_data env (user_id a) w) as (Hc & Hs & Hb).
  pose proof (calculate_its_score_clock env (user_id a) (clock_reads w) w
                (Nat.le_refl _)) as Hk.
  destruct (calculate_its_score env (user_id a) w) as [[e|sd] w1];
    cbn [snd] in Hc, Hs, Hb, Hk.
  { eexists _, _. split; [reflexivity|]. split; [exact Hb|]. left. eauto. }
  unfold bind at 1, datetime_now.
  destruct (first_where _ (anomaly_alerts (session w))) as [ea|].
  - unfold refresh_existing_alert, bind, modify_db, commit, get_db.
    cbn [session committed user_baselines clock_reads ret].
    match goal with
    | |- context [head ?l] => destruct (head l)
    end; cbn [session committed user_baselines clock_reads ret];
      eexists _, _; (split; [reflexivity|]);
      cbn [user_baselines]; (split; [exact Hb|]);
      right; left; eexists; split; reflexivity.
  - match goal with
    | |- context [create_alert env a h ml sd ?risk ?an expl ?now ?w2] =>
        pose proof (create_alert_reads env a h ml sd risk an expl now w2) as Hlt;
        destruct (create_alert_run env a h ml sd risk an expl now w2)
          as (w' & naa & nta & x & g & t & Hrun & Hset' & Hb' & Hnta & Hl & Hh
              & Hx & Hta & Hfp & Hu & Hyes & Hno);
        [unfold settled in *; cbn [session committed]; congruence|]
    end.
    rewrite Hrun in Hlt. cbn [snd] in Hlt.
    rewrite Hrun. cbn [session committed user_baselines clock_reads] in *.
    eexists _, _. split; [reflexivity|]. split; [congruence|].
    right; right. exists sd, (clock env (clock_reads w1)), naa, nta,
      (S (clock_reads w1)).
    split; [reflexivity|]. split; [exact Hset'|].
    rewrite Hs in *.
    split; [exact Hnta|].
    split; [|lia].
    unfold alert_created. cbv zeta.
    repeat (match goal with |- _ /\ _ => split end); eauto.
Qed.

(** ** Past the fingerprint checks *)

Lemma respond_cases (env : Env) (a : UserActivity) (is_anomaly : bool) (ml : Q)
    (expl : string) (h : string) (w : World) :
  exists r w',
    respond env a (is_anomaly, ml, expl) h w = (r, w')
    /\ user_baselines w' = user_baselines w
    /\ ((exists e, r = inl e)
        \/ (exists sd now naa nta n,
              r = inr (alert_body nta naa sd
                         (risk_band ml (ScoreData.its_score sd))
                         (anomalies_of expl a) now ml expl)
              /\ (is_anomaly && Qle_bool (3 # 10) ml = true)
              /\ settled w'
              /\ fresh_dashboard_alert (user_id a) ml sd nta
              /\ alert_created (user_id a) h ml sd
                   (clock env n + ALERT_SUPPRESSION_HOURS * usec_per_hour) nta
                   (session w) (session w')
              /\ (clock_reads w <= n < clock_reads w')%nat)).
Proof.
  unfold respond, bind at 1, commit.
  destruct (is_anomaly && Qle_bool (3 # 10) ml) eqn:Hcond.
  - match goal with
    | |- context [bind (alert_branch env a h ml expl) _ ?w0] =>
        destruct (alert_branch_cases env a h ml expl w0)
          as (r & w' & Hrun & Hb & Hcases); [reflexivity|]
    end.
    cbn [session user_baselines clock_reads] in *.
    destruct Hcases as [[e ->]|[(l & -> & Hl)|(sd & now & naa & nta & n & -> & Hrest)]].
    + rewrite (bind_fail _ _ _ _ _ Hrun). eexists _, _.
      split; [reflexivity|]. split; [exact Hb|]. left. eauto.
    + rewrite (bind_run _ _ _ _ _ Hrun).
      unfold alert_generated_response, bind at 1. rewrite Hl. cbn [local raise].
      eexists _, _. split; [reflexivity|]. split; [exact Hb|]. left. eauto.
    + rewrite (bind_run _ _ _ _ _ Hrun).
      unfold alert_generated_response, bind, local, ret.
      cbn [threat_alert anomaly_alert score_data risk_level anomalies_list
           alert_timestamp].
      eexists _, _. split; [reflexivity|]. split; [exact Hb|]. right.
      exists sd, now, naa, nta, n. split; [reflexivity|]. tauto.
  - unfold bind, ret, alert_generated_response, bind, local, unbound, raise.
    cbn [threat_alert].
    eexists _, _. split; [reflexivity|]. split; [reflexivity|]. left. eauto.
Qed.

(** ** Everything after the activity has been stored *)

Lemma analyse_cases (env : Env) (a : UserActivity) (w : World) :
  let h := generate_fingerprint env a (user_id a) in
  exists r w',
    analyse env a w = (r, w')
    /\ ((exists e, r = inl e)
        \/ r = inr suppressed_response
        \/ r = inr already_escalated_response
        \/ (exists ml expl sd now naa nta n fps',
              r = inr (alert_body nta naa sd
                         (risk_band ml (ScoreData.its_score sd))
                         (anomalies_of expl a) now ml expl)
              /\ settled w'
              /\ fresh_dashboard_alert (user_id a) ml sd nta
              /\ (exists fp, first_where (has_hash h) fps' = Some fp)
              /\ alert_created (user_id a) h ml sd
                   (clock env n + ALERT_SUPPRESSION_HOURS * usec_per_hour) nta
                   (with_anomaly_fingerprints fps' (session w)) (session w')
              /\ (clock_reads w <= n < clock_reads w')%nat)).
Proof.
  intros h. unfold analyse.
  destruct (classify_run env a w) as ([[is_anomaly ml] expl] & w1 & Hrun1 & Hc1 & Hs1).
  pose proof (classify_clock env a (clock_reads w) w (Nat.le_refl _)) as Hk1.
  rewrite Hrun1 in Hk1. cbn [snd] in Hk1.
  rewrite (bind_run _ _ _ _ _ Hrun1). fold h.
  destruct (fingerprint_bookkeeping_run env a h w1)
    as (early & w2 & fps' & Hrun2 & Hb2 & Hs2 & Hfp & Hearly).
  pose proof (fingerprint_bookkeeping_clock env a h (clock_reads w1) w1
                (Nat.le_refl _)) as Hk2.
  rewrite Hrun2 in Hk2. cbn [snd] in Hk2.
  rewrite (bind_run _ _ _ _ _ Hrun2).
  destruct Hearly as [[-> Hc2]|[[-> Hc2]|[-> Hc2]]].
  - destruct (respond_cases env a is_anomaly ml expl h w2)
      as (r & w' & Hrun3 & Hb3 & Hcases).
    rewrite Hrun3. eexists _, _. split; [reflexivity|].
    destruct Hcases
      as [He|(sd & now & naa & nta & n & -> & _ & Hset & Hnta & Hcr & Hn)].
    + left. exact He.
    + right; right; right.
      exists ml, expl, sd, now, naa, nta, n, fps'.
      split; [reflexivity|]. split; [exact Hset|]. split; [exact Hnta|].
      split; [exact Hfp|]. split; [|lia]. rewrite Hs2, Hs1 in Hcr. exact Hcr.
  - cbn [ret]. eexists _, _. split; [reflexivity|]. auto.
  - cbn [ret]. eexists _, _. split; [reflexivity|]. auto.
Qed.

(** ** The endpoint in terms of [analyse] *)

Lemma ingest_activity_unknown (env : Env) (a : UserActivity) (w : World) :
  first_where (fun u => String.eqb (User.user_id u) (user_id a))
              (users (committed w)) = None ->
  ingest_body env a (open_session w)
  = (inl (HTTPException 404 ("User " +:+ user_id a +:+ " not found")),
     open_session w)
  /\ ingest_activity env a w
     = (HttpError 500
          (exn_str (HTTPException 404 ("User " +:+ user_id a +:+ " not found"))),
        open_session w).
Proof.
  intros Hu.
  assert (ingest_body env a (open_session w)
          = (inl (HTTPException 404 ("User " +:+ user_id a +:+ " not found")),
             open_session w)) as Hbody.
  { unfold ingest_body, bind, get_db. cbn [session open_session].
    rewrite Hu. reflexivity. }
  split; [exact Hbody|].
  unfold ingest_activity, ingest_handler, try_except. rewrite Hbody.
  unfold bind, rollback, raise. reflexivity.
Qed.

Lemma ingest_body_known (env : Env) (a : UserActivity) (w : World) :
  known_user a (committed w) ->
  ingest_body env a (open_session w) = analyse env a (after_store a w).
Proof.
  intros [u Hu]. unfold ingest_body, bind at 1, get_db.
  cbn [session open_session]. rewrite Hu.
  unfold store_activity, bind, modify_db, commit. reflexivity.
Qed.

Lemma ingest_activity_known (env : Env) (a : UserActivity) (w : World) :
  known_user a (committed w) ->
  ingest_activity env a w
  = match analyse env a (after_store a w) with
    | (inr body, w') => (Ok200 body, open_session w')
    | (inl e, w') => (HttpError 500 (exn_str e), open_session w')
    end.
Proof.
  intros Hu. unfold ingest_activity, ingest_handler, try_except.
  rewrite (ingest_body_known env a w Hu).
  destruct (analyse env a (after_store a w)) as [[e|body] w']; [|reflexivity].
  unfold bind, rollback, raise. reflexivity.
Qed.

Lemma known_or_not (a : UserActivity) (d : DB) :
  known_user a d
  \/ first_where (fun u => String.eqb (User.user_id u) (user_id a)) (users d)
     = None.
Proof.
  unfold known_user. destruct (first_where _ (users d)); eauto.
Qed.

(** ** Tables no step of the endpoint writes to *)

Ltac table_steps :=
  repeat first
    [ keeps_step
    | keeps_field
    | lazymatch goal with
      | |- keeps _ (modify_baselines _) => intros ? ?; assumption
      | |- keeps _ (modify_db _) =>
          let H1 := fresh in let H2 := fresh in
          intros ? [H1 H2]; split; cbn; assumption
      end ].


Lemma analyse_keeps_snapshots (env : Env) (a : UserActivity)
    (rows : list HistoricalITSScore.t) :
  keeps (fun w => historical_its_scores (session w) = rows
                  /\ historical_its_scores (committed w) = rows)
        (analyse env a).
Proof. open_procedures. table_steps. Qed.

(* ================================================================= *)
(** * The responses of the ingest endpoint *)

(** Every 200 body is one of three literals. *)
Lemma ingest_bodies (env : Env) (a : UserActivity) (w w1 : World)
    (body : list (string * Json)) :
  ingest_activity env a w = (Ok200 body, w1) ->
  body = suppressed_response
  \/ body = already_escalated_response
  \/ exists ta aa sd risk anomalies ts ml expl,
       body = alert_body ta aa sd risk anomalies ts ml expl.
Proof.
  intros Hrun. destruct (known_or_not a (committed w)) as [Hu|Hu].
  - rewrite (ingest_activity_known env a w Hu) in Hrun.
    destruct (analyse_cases env a (after_store a w)) as (r & w' & Hr & Hcases).
    rewrite Hr in Hrun.
    destruct Hcases as [[e ->]|[->|[->|(ml & expl & sd & now & naa & nta & n
                                        & fps' & -> & _)]]].
    + discriminate Hrun.
    + injection Hrun as <- _. auto.
    + injection Hrun as <- _. auto.
    + injection Hrun as <- _. right; right. eauto 10.
  - rewrite (proj2 (ingest_activity_unknown env a w Hu)) in Hrun.
    discriminate Hrun.
Qed.

(** C7 (as amended). A 200 response of the ingest endpoint has status
    [alert_generated], [suppressed] or [already_escalated]. The
    [alert_generated] body carries a numeric [its_score]; the [suppressed]
    and [already_escalated] bodies carry no [its_score] field. *)
Theorem ingest_response_fields (env : Env) (a : UserActivity) (w w1 : World)
    (body : list (string * Json)) :
  ingest_activity env a w = (Ok200 body, w1) ->
  (field "status" body = Some (JStr "alert_generated")
   /\ exists q, field "its_score" body = Some (JNum q))
  \/ (field "status" body = Some (JStr "suppressed")
      /\ field "its_score" body = None)
  \/ (field "status" body = Some (JStr "already_escalated")
      /\ field "its_score" body = None).
Proof.
  intros Hrun.
  destruct (ingest_bodies env a w w1 body Hrun)
    as [->|[->|(ta & aa & sd & risk & an & ts & ml & expl & ->)]].
  - right; left. split; reflexivity.
  - right; right. split; reflexivity.
  - left. split; [reflexivity|]. eexists. reflexivity.
Qed.

Lemma ingest_response_fields_witness :
  let env := Fixture.env_of Fixture.ten_am (Fixture.flat_detector (2 # 10))
                            (Fixture.loaded (1 # 10)) in
  let r := ingest_activity env Fixture.big_email Fixture.fresh in
  exists body,
    fst r = Ok200 body
    /\ field "status" body = Some (JStr "alert_generated")
    /\ exists q, field "its_score" body = Some (JNum q).
Proof.
  intros env r.
  destruct r as [resp w1] eqn:Hr. cbn [fst].
  assert (exists body, resp = Ok200 body
                       /\ field "status" body = Some (JStr "alert_generated"))
    as (body & -> & Hstatus).
  { assert (resp = fst r) as -> by (subst r; rewrite Hr; reflexivity).
    subst r. vm_compute. eexists. split; reflexivity. }
  exists body. split; [reflexivity|]. split; [exact Hstatus|].
  destruct (ingest_response_fields env Fixture.big_email Fixture.fresh w1 body Hr)
    as [[_ Hq]|[[Hs _]|[Hs _]]].
  - exact Hq.
  - rewrite Hstatus in Hs. discriminate Hs.
  - rewrite Hstatus in Hs. discriminate Hs.
Defined.

(** C7 (as stated) fails: the second of two identical posts is answered
    with status [suppressed], and that body has no [its_score] field. *)
Lemma suppressed_response_has_no_its_score :
  let env := Fixture.env_of Fixture.ten_am (Fixture.flat_detector (2 # 10))
                            (Fixture.loaded (1 # 10)) in
  let w1 := snd (ingest_activity env Fixture.big_email Fixture.fresh) in
  exists body,
    fst (ingest_activity env Fixture.big_email w1) = Ok200 body
    /\ field "status" body = Some (JStr "suppressed")
    /\ field "its_score" body = None.
Proof.
  cbv zeta. eexists. split; [vm_compute; reflexivity|].
  split; reflexivity.
Qed.

(* ================================================================= *)
(** * Activities that do not alert *)

(** No response of the endpoint has status [ok]: the [return] of lines
    1184-1199 sits after the [if], not inside it, so the code of lines
    1201-1218 is never reached. *)
Lemma ingest_never_returns_ok (env : Env) (a : UserActivity) (w w1 : World)
    (body : list (string * Json)) :
  ingest_activity env a w = (Ok200 body, w1) ->
  field "status" body <> Some (JStr "ok").
Proof.
  intros Hrun.
  destruct (ingest_bodies env a w w1 body Hrun)
    as [->|[->|(ta & aa & sd & risk & an & ts & ml & expl & ->)]];
    discriminate.
Qed.

(** The endpoint never writes a daily snapshot. *)
Lemma ingest_writes_no_snapshot (env : Env) (a : UserActivity) (w : World) :
  historical_its_scores (committed (snd (ingest_activity env a w)))
  = historical_its_scores (committed w).
Proof.
  destruct (known_or_not a (committed w)) as [Hu|Hu].
  - rewrite (ingest_activity_known env a w Hu).
    pose proof (analyse_keeps_snapshots env a
                  (historical_its_scores (committed w)) (after_store a w)
                  (conj eq_refl eq_refl)) as [_ Hk].
    destruct (analyse env a (after_store a w)) as [[e|body] w']; exact Hk.
  - rewrite (proj2 (ingest_activity_unknown env a w Hu)). reflexivity.
Qed.



(* ================================================================= *)
(** * Failures inside the ingest handler *)




(* ================================================================= *)
(** * Risk band and auto-promotion of a new alert *)

Lemma Qle_bool_false_lt (a b : Q) : Qle_bool a b = false -> (b < a)%Q.
Proof.
  intros H. apply Qnot_le_lt. intros Hle. apply Qle_bool_iff in Hle. congruence.
Qed.

Lemma risk_band_in_band (ml its : Q) : in_band ml its (risk_band ml its).
Proof.
  unfold risk_band, in_band.
  destruct (Qle_bool (8 # 10) ml) eqn:E1; cbn [orb].
  { left. split; [reflexivity|]. left. apply Qle_bool_iff. exact E1. }
  destruct (Qle_bool 70 its) eqn:E2.
  { left. split; [reflexivity|]. right. apply Qle_bool_iff. exact E2. }
  apply Qle_bool_false_lt in E1, E2.
  destruct (Qle_bool (6 # 10) ml) eqn:E3; cbn [orb].
  { right; left. split; [reflexivity|]. split; [auto|].
    left. apply Qle_bool_iff. exact E3. }
  destruct (Qle_bool 50 its) eqn:E4.
  { right; left. split; [reflexivity|]. split; [auto|].
    right. apply Qle_bool_iff. exact E4. }
  apply Qle_bool_false_lt in E3, E4.
  destruct (Qle_bool (4 # 10) ml) eqn:E5; cbn [orb].
  { right; right; left. split; [reflexivity|]. split; [auto|].
    left. apply Qle_bool_iff. exact E5. }
  destruct (Qle_bool 30 its) eqn:E6.
  { right; right; left. split; [reflexivity|]. split; [auto|].
    right. apply Qle_bool_iff. exact E6. }
  apply Qle_bool_false_lt in E5, E6.
  right; right; right. auto.
Qed.

Lemma should_escalate_iff (band : string) (ml its : Q) :
  should_escalate band ml its = true <-> promoted band ml its.
Proof.
  unfold should_escalate, promoted.
  rewrite !orb_true_iff, !andb_true_iff, !String.eqb_eq, !Qle_bool_iff.
  tauto.
Qed.


(* ================================================================= *)
(** * The same activity, twice *)

(** The detector step updates the user's baseline at the hour the server
    clock shows, whatever the verdict. *)
Lemma classify_baselines (env : Env) (a : UserActivity) (w : World) :
  user_baselines (snd (classify env a w))
  = _update_user_baseline (clock env (S (clock_reads w))) (user_id a) a
      (user_baselines w).
Proof.
  unfold classify, recent_context, detect_anomaly, observe, bind, datetime_now,
    get_db, modify_baselines, _extract_ml_features, bind, get_baselines,
    _calculate_rapid_activity_score, bind, get_baselines, datetime_now.
  cbn [user_baselines clock_reads committed session ret].
  destruct (_ !! _) as [b|]; [destruct (Qlt_bool 0 _)|]; reflexivity.
Qed.

(** The fingerprint checks when the record exists and carries a
    deadline: two clock reads, the record touched, and the answer decided
    by the second read. *)
Lemma fingerprint_bookkeeping_found (env : Env) (a : UserActivity) (h : string)
    (w : World) (fp : AnomalyFingerprint.t) (d : Z) :
  first_where (has_hash h) (anomaly_fingerprints (session w)) = Some fp ->
  AnomalyFingerprint.suppressed_until fp = Some d ->
  exists w',
    clock_reads w' = S (S (clock_reads w))
    /\ user_baselines w' = user_baselines w
    /\ session w'
       = with_anomaly_fingerprints
           (update_first (has_hash h)
              (AnomalyFingerprint.touch (clock env (clock_reads w)))
              (anomaly_fingerprints (session w)))
           (session w)
    /\ ((clock env (S (clock_reads w)) < d
         /\ fingerprint_bookkeeping env a h w = (inr (Some suppressed_response), w')
         /\ committed w' = session w')
        \/ (d <= clock env (S (clock_reads w))
            /\ (fingerprint_bookkeeping env a h w
                = (inr (Some already_escalated_response), w')
                \/ fingerprint_bookkeeping env a h w = (inr None, w')))).
Proof.
  intros Hfp Hd.
  destruct (fingerprint_bookkeeping env a h w) as [r w'] eqn:Hrun.
  unfold fingerprint_bookkeeping, bind at 1, get_db in Hrun. rewrite Hfp in Hrun.
  unfold bind, datetime_now, modify_db, commit in Hrun.
  cbn [session committed user_baselines clock_reads] in Hrun. rewrite Hd in Hrun.
  cbn [ret clock_reads] in Hrun.
  exists w'.
  destruct (clock env (S (clock_reads w)) <? d) eqn:E.
  - apply Z.ltb_lt in E. unfold ret in Hrun.
    cbn [session committed user_baselines clock_reads] in Hrun.
    injection Hrun as <- <-.
    split; [|split; [|split; [|left; split; [exact E|split]]]]; reflexivity.
  - apply Z.ltb_ge in E.
    destruct (AnomalyFingerprint.escalated fp);
      unfold ret in Hrun;
      cbn [session committed user_baselines clock_reads] in Hrun;
      injection Hrun as <- <-.
    + split; [|split; [|split; [|right; split; [exact E|left]]]]; reflexivity.
    + split; [|split; [|split; [|right; split; [exact E|right]]]]; reflexivity.
Qed.

(** Everything after the store, when the fingerprint record carries a
    deadline that no clock read of this call reaches. *)
Lemma analyse_suppressed (env : Env) (a : UserActivity) (w : World)
    (fp : AnomalyFingerprint.t) (d : Z) :
  let h := generate_fingerprint env a (user_id a) in
  first_where (has_hash h) (anomaly_fingerprints (session w)) = Some fp ->
  AnomalyFingerprint.suppressed_until fp = Some d ->
  (forall m, (clock_reads w <= m < clock_reads (snd (analyse env a w)))%nat ->
             clock env m < d) ->
  exists now w',
    analyse env a w = (inr suppressed_response, w')
    /\ session w'
       = with_anomaly_fingerprints
           (update_first (has_hash h) (AnomalyFingerprint.touch now)
              (anomaly_fingerprints (session w)))
           (session w)
    /\ committed w' = session w'
    /\ user_baselines w'
       = _update_user_baseline (clock env (S (clock_reads w))) (user_id a) a
           (user_baselines w).
Proof.
  intros h Hfp Hd Hwin.
  destruct (classify_run env a w) as (v & wc & Hrun1 & Hc1 & Hs1).
  pose proof (classify_clock env a (clock_reads w) w (Nat.le_refl _)) as Hk1.
  pose proof (classify_baselines env a w) as Hb1.
  rewrite Hrun1 in Hk1, Hb1. cbn [snd] in Hk1, Hb1.
  unfold analyse in *. rewrite (bind_run _ _ _ _ _ Hrun1) in *. fold h in Hwin |- *.
  rewrite <- Hs1 in Hfp.
  destruct (fingerprint_bookkeeping_found env a h wc fp d Hfp Hd)
    as (w2 & Hk2 & Hb2 & Hs2 & [(Hlt & Hrun2 & Hc2)|(Hge & [Hrun2|Hrun2])]).
  - rewrite (bind_run _ _ _ _ _ Hrun2). cbn [ret].
    exists (clock env (clock_reads wc)), w2.
    split; [reflexivity|]. rewrite Hs2, Hs1, Hb2.
    split; [reflexivity|]. split; [rewrite Hc2, Hs2, Hs1; reflexivity|exact Hb1].
  - exfalso. rewrite (bind_run _ _ _ _ _ Hrun2) in Hwin. cbn [ret snd] in Hwin.
    specialize (Hwin (S (clock_reads wc))). lia.
  - exfalso. rewrite (bind_run _ _ _ _ _ Hrun2) in Hwin.
    pose proof (respond_clock env a v h (S (S (clock_reads wc))) w2) as Hk3.
    cbv beta in Hk3. rewrite Hk2 in Hk3. specialize (Hk3 (Nat.le_refl _)).
    specialize (Hwin (S (clock_reads wc))). lia.
Qed.

Lemma ingest_activity_clock (env : Env) (a : UserActivity) (w : World) :
  known_user a (committed w) ->
  clock_reads (snd (ingest_activity env a w))
  = clock_reads (snd (analyse env a (after_store a w))).
Proof.
  intros Hu. rewrite (ingest_activity_known env a w Hu).
  destruct (analyse env a (after_store a w)) as [[e|body] w']; reflexivity.
Qed.

(** C3 (as stated) fails. The second of two identical posts is answered
    with [suppressed], yet beyond the fingerprint bookkeeping it has
    changed the detector's state: the user's hour histogram counts one
    more event. *)
Lemma suppressed_duplicate_updates_baseline :
  let env := Fixture.env_of Fixture.ten_am (Fixture.flat_detector (2 # 10))
                            (Fixture.loaded (1 # 10)) in
  let w1 := snd (ingest_activity env Fixture.big_email Fixture.fresh) in
  let r2 := ingest_activity env Fixture.big_email w1 in
  fst r2 = Ok200 suppressed_response
  /\ option_map hour_frequency (user_baselines w1 !! "U002"%string)
     = Some [(10, 1)]
  /\ option_map hour_frequency (user_baselines (snd r2) !! "U002"%string)
     = Some [(10, 2)].
Proof.
  cbv zeta. split; [vm_compute; reflexivity|].
  split; vm_compute; reflexivity.
Qed.

(** C3 (as amended). When a post is answered with [alert_generated], it
    has created exactly one anomaly alert, carrying the activity's
    fingerprint and [suppressed_until = now + 24h] for a clock read [now]
    of that call, and the fingerprint record carries the same deadline.
    If the same activity is posted again and every clock read of the
    second call is before the deadline, the second call answers
    [suppressed]; the database it leaves is the one it found with the
    activity stored and the fingerprint record touched (last seen,
    count), so no second alert exists; and the detector's baseline of the
    user has been updated once more. *)
Theorem duplicate_is_suppressed (env : Env) (a : UserActivity) (w w1 : World)
    (body1 : list (string * Json)) :
  let h := generate_fingerprint env a (user_id a) in
  let r2 := ingest_activity env a w1 in
  ingest_activity env a w = (Ok200 body1, w1) ->
  field "status" body1 = Some (JStr "alert_generated") ->
  exists x fp n,
    let deadline := clock env n + ALERT_SUPPRESSION_HOURS * usec_per_hour in
    (clock_reads w <= n < clock_reads w1)%nat
    /\ anomaly_alerts (committed w1) = anomaly_alerts (committed w) ++ [x]
    /\ AnomalyAlert.anomaly_fingerprint x = h
    /\ AnomalyAlert.suppressed_until x = Some deadline
    /\ first_where (has_hash h) (anomaly_fingerprints (committed w1)) = Some fp
    /\ AnomalyFingerprint.suppressed_until fp = Some deadline
    /\ ((forall m, (clock_reads w1 <= m < clock_reads (snd r2))%nat ->
                   clock env m < deadline) ->
        exists now,
          fst r2 = Ok200 suppressed_response
          /\ committed (snd r2)
             = with_anomaly_fingerprints
                 (update_first (has_hash h) (AnomalyFingerprint.touch now)
                    (anomaly_fingerprints (committed w1)))
                 (stored_db a (committed w1))
          /\ anomaly_alerts (committed (snd r2))
             = anomaly_alerts (committed w) ++ [x]
          /\ user_baselines (snd r2)
             = _update_user_baseline (clock env (S (clock_reads w1)))
                 (user_id a) a (user_baselines w1)).
Proof.
  intros h r2 Hrun Hstatus. subst r2.
  destruct (known_or_not a (committed w)) as [Hu|Hu].
  2:{ rewrite (proj2 (ingest_activity_unknown env a w Hu)) in Hrun.
      discriminate Hrun. }
  rewrite (ingest_activity_known env a w Hu) in Hrun.
  destruct (analyse_cases env a (after_store a w)) as (r & w' & Hr & Hcases).
  rewrite Hr in Hrun. fold h in Hcases.
  destruct Hcases as [[e ->]|[->|[->|(ml & expl & sd & now & naa & nta & n
                                      & fps' & -> & Hset & Hnta & Hfp & Hcr & Hn)]]].
  - discriminate Hrun.
  - injection Hrun as <- _. discriminate Hstatus.
  - injection Hrun as <- _. discriminate Hstatus.
  - injection Hrun as _ <-. clear Hstatus.
    unfold settled in Hset.
    destruct Hfp as (fp0 & Hfp0).
    destruct Hcr as (_ & _ & (x & Haa & Hxh & Hxd) & _ & (g & Hfps & Hg)
                     & (t & Husers) & _ & _).
    cbn [session after_store anomaly_alerts anomaly_fingerprints users
         with_anomaly_fingerprints stored_db with_activity_logs] in Haa, Hfps, Husers.
    cbn [clock_reads after_store] in Hn.
    cbn [open_session committed clock_reads]. rewrite <- Hset.
    assert (first_where (has_hash h) (anomaly_fingerprints (session w'))
            = Some (g fp0)) as Hfp1.
    { rewrite Hfps, first_where_update_first, Hfp0; [reflexivity|].
      intros y Hy. unfold has_hash in *. rewrite (proj1 (Hg y)). exact Hy. }
    exists x, (g fp0), n. cbv zeta.
    split; [exact Hn|]. split; [exact Haa|]. split; [exact Hxh|].
    split; [exact Hxd|]. split; [exact Hfp1|]. split; [apply Hg|].
    intros Hwin.
    assert (known_user a (committed (open_session w'))) as Hu1.
    { destruct Hu as [u Hu]. exists (User.set_score (ScoreData.its_score sd)
                                       (ScoreData.risk_level sd) t u).
      cbn [open_session committed]. rewrite <- Hset, Husers.
      rewrite first_where_update_first, Hu; [reflexivity|].
      intros y Hy. exact Hy. }
    rewrite (ingest_activity_clock env a (open_session w') Hu1) in Hwin.
    rewrite (ingest_activity_known env a (open_session w') Hu1).
    destruct (analyse_suppressed env a (after_store a (open_session w'))
                (g fp0) (clock env n + ALERT_SUPPRESSION_HOURS * usec_per_hour))
      as (now2 & w2 & Hrun2 & Hs2 & Hc2 & Hb2).
    { cbn [session after_store anomaly_fingerprints stored_db with_activity_logs
           open_session committed]. rewrite <- Hset. exact Hfp1. }
    { apply Hg. }
    { exact Hwin. }
    rewrite Hrun2. cbn [fst snd open_session committed user_baselines].
    cbn [session after_store open_session committed user_baselines clock_reads]
      in Hs2, Hb2.
    rewrite <- Hset in Hs2.
    exists now2. split; [reflexivity|].
    rewrite Hc2, Hs2.
    split; [reflexivity|]. split; [exact Haa|exact Hb2].
Qed.

Lemma duplicate_is_suppressed_witness :
  let env := Fixture.env_of Fixture.ten_am (Fixture.flat_detector (2 # 10))
                            (Fixture.loaded (1 # 10)) in
  let r1 := ingest_activity env Fixture.big_email Fixture.fresh in
  let r2 := ingest_activity env Fixture.big_email (snd r1) in
  (exists body1, fst r1 = Ok200 body1
                 /\ field "status" body1 = Some (JStr "alert_generated"))
  /\ (exists x, anomaly_alerts (committed (snd r1)) = [x])
  /\ fst r2 = Ok200 suppressed_response
  /\ (exists x, anomaly_alerts (committed (snd r2)) = [x]).
Proof.
  intros env r1 r2.
  assert (exists body1, fst r1 = Ok200 body1
                        /\ field "status" body1 = Some (JStr "alert_generated"))
    as (body1 & Hf & Hst)
    by (vm_compute; eexists; split; reflexivity).
  assert (ingest_activity env Fixture.big_email Fixture.fresh
          = (Ok200 body1, snd r1)) as Hrun.
  { rewrite <- Hf. subst r1. apply surjective_pairing. }
  assert (clock_reads (snd r2) = 14%nat) as Hreads
    by (vm_compute; reflexivity).
  destruct (duplicate_is_suppressed env Fixture.big_email Fixture.fresh (snd r1)
              body1 Hrun Hst)
    as (x & fp & n & Hn & Haa & _ & _ & _ & _ & Hsecond).
  destruct Hsecond as (now & Hfst & _ & Haa2 & _).
  { intros m Hm. fold r2 in Hm. rewrite Hreads in Hm.
    change (ALERT_SUPPRESSION_HOURS * usec_per_hour) with 86400000000.
    subst env. cbn [clock Fixture.env_of]. unfold Fixture.clock_from. lia. }
  split; [exists body1; split; [exact Hf|exact Hst]|].
  split; [exists x; exact Haa|].
  split; [exact Hfst|exists x; exact Haa2].
Defined.


(* ================================================================= *)
(** * The detector's scores are normalised *)

Lemma py_min_l_le (a b : Q) : (py_min a b <= a)%Q.
Proof.
  unfold py_min. destruct (Qlt_bool b a) eqn:E.
  - apply Qlt_bool_iff in E. lra.
  - lra.
Qed.

Lemma py_min_r_le (a b : Q) : (py_min a b <= b)%Q.
Proof.
  unfold py_min. destruct (Qlt_bool b a) eqn:E.
  - lra.
  - apply Qlt_bool_false_iff in E. exact E.
Qed.

Lemma py_min_ge (a b c : Q) : (c <= a)%Q -> (c <= b)%Q -> (c <= py_min a b)%Q.
Proof. intros Ha Hb. unfold py_min. destruct (Qlt_bool b a); assumption. Qed.

Lemma py_max_l_ge (a b : Q) : (a <= py_max a b)%Q.
Proof.
  unfold py_max. destruct (Qlt_bool a b) eqn:E.
  - apply Qlt_bool_iff in E. lra.
  - lra.
Qed.

Lemma py_max_r_ge (a b : Q) : (b <= py_max a b)%Q.
Proof.
  unfold py_max. destruct (Qlt_bool a b) eqn:E.
  - lra.
  - apply Qlt_bool_false_iff in E. exact E.
Qed.


Lemma clamp_unit_interval (x : Q) : unit_interval (py_min (py_max x 0) 1).
Proof.
  split.
  - apply py_min_ge; [apply py_max_r_ge|lra].
  - apply py_min_r_le.
Qed.



Lemma dict_get_In {V} (k : Z) (v : V) (d : list (Z * V)) :
  dict_get k d = Some v -> In (k, v) d.
Proof.
  induction d as [|[k' v'] d IH]; cbn; [discriminate|].
  destruct (k' =? k) eqn:E.
  - intros [= ->]. apply Z.eqb_eq in E. subst. left. reflexivity.
  - intros H. right. exact (IH H).
Qed.







Lemma ensemble_base_unit (dm : DetectorModels) (fs : list Q) :
  let iso_norm :=
    py_min (py_max ((- isolation_forest_score_samples dm fs + (1 # 2)) / 1) 0) 1 in
  let anomaly_score :=
    match anomaly_scorer_predict dm fs with
    | Some s => py_min (py_max s 0) 1
    | None => iso_norm
    end in
  unit_interval (iso_norm * (6 # 10) + anomaly_score * (4 # 10)).
Proof.
  intros iso_norm anomaly_score.
  assert (unit_interval iso_norm) as [H1 H2] by apply clamp_unit_interval.
  assert (unit_interval anomaly_score) as [H3 H4].
  { unfold anomaly_score. destruct (anomaly_scorer_predict dm fs).
    - apply clamp_unit_interval.
    - split; assumption. }
  unfold unit_interval. lra.
Qed.


Lemma sensitive_off_hours_boost (a : UserActivity) (recent : list UserActivity) :
  truthy_flag (sensitive (details a)) = true ->
  truthy_flag (off_hours (details a)) = true ->
  (35 # 100 <= pattern_boost a recent)%Q.
Proof.
  intros Hs Ho. unfold pattern_boost. cbv zeta. rewrite Hs, Ho.
  repeat match goal with
         | |- context [if ?c then _ else _] => destruct c
         end; vm_compute; discriminate.
Qed.

(** X3. An activity on a sensitive file that the agent has flagged
    off-hours is always reported as an anomaly with a score of at least
    0.35, whatever the fitted models answer and whatever the user's
    history: the pattern boosts for [sensitive] (0.20) and [off_hours]
    (0.15) alone pass the 0.30 threshold. *)
Theorem sensitive_off_hours_always_flagged (env : Env) (a : UserActivity)
    (uid : string) (recent : list UserActivity) (w : World) :
  truthy_flag (sensitive (details a)) = true ->
  truthy_flag (off_hours (details a)) = true ->
  exists ml explanation w',
    detect_anomaly env a uid recent w = (inr (true, ml, explanation), w')
    /\ (35 # 100 <= ml)%Q.
Proof.
  intros Hs Ho.
  destruct (observe_total env a uid recent w) as (feats & w' & Hrun & _).
  unfold detect_anomaly. rewrite (bind_run _ _ _ _ _ Hrun). cbn [ret].
  unfold verdict. cbv zeta.
  pose proof (ensemble_base_unit (detector_models env)
                (scaler_transform (detector_models env) feats)) as [Hb0 Hb1].
  cbv zeta in Hb0, Hb1.
  pose proof (sensitive_off_hours_boost a recent Hs Ho) as Hboost.
  match goal with
  | |- context [Qle_bool (3 # 10) ?m] =>
      assert (35 # 100 <= m)%Q as Hm by (apply py_min_ge; lra);
      assert (Qle_bool (3 # 10) m = true) as Hflag
        by (apply Qle_bool_iff; lra);
      rewrite Hflag
  end.
  cbn [orb]. eexists _, _, w'. split; [reflexivity|exact Hm].
Qed.

Lemma sensitive_off_hours_always_flagged_witness :
  let env := Fixture.env_of Fixture.ten_am (Fixture.flat_detector 0)
                            (Fixture.loaded 0) in
  exists ml explanation w',
    detect_anomaly env Sample.night_read "U002" [] Fixture.fresh
    = (inr (true, ml, explanation), w')
    /\ (35 # 100 <= ml)%Q.
Proof.
  intros env.
  apply (sensitive_off_hours_always_flagged env Sample.night_read "U002" []
           Fixture.fresh); reflexivity.
Defined.

(* ================================================================= *)
(** * The typical hours are never learned *)

Lemma hour_of_range (t : Z) : 0 <= hour_of t < 24.
Proof. unfold hour_of. apply Z.mod_pos_bound. lia. Qed.

Lemma dict_set_keys {V} (k k' : Z) (v : V) (d : list (Z * V)) :
  In k' (map fst (dict_set k v d)) <-> k' = k \/ In k' (map fst d).
Proof.
  induction d as [|[k0 v0] d IH]; cbn.
  - intuition.
  - destruct (k0 =? k) eqn:E; cbn.
    + apply Z.eqb_eq in E. subst k0. intuition.
    + rewrite IH. intuition.
Qed.

Lemma dict_set_NoDup {V} (k : Z) (v : V) (d : list (Z * V)) :
  List.NoDup (map fst d) -> List.NoDup (map fst (dict_set k v d)).
Proof.
  induction d as [|[k0 v0] d IH]; cbn; intros Hd.
  - apply List.NoDup_cons; [intros H; destruct H|apply List.NoDup_nil].
  - apply List.NoDup_cons_iff in Hd. destruct Hd as [Hnin Hrest].
    destruct (k0 =? k) eqn:E; cbn.
    + apply Z.eqb_eq in E. subst k0. apply List.NoDup_cons; assumption.
    + apply List.NoDup_cons; [|apply IH; exact Hrest].
      rewrite dict_set_keys. intros [->|Hin]; [|contradiction].
      rewrite Z.eqb_refl in E. discriminate.
Qed.

Lemma dict_set_Forall {V} (P : Z * V -> Prop) (k : Z) (v : V) (d : list (Z * V)) :
  Forall P d -> P (k, v) -> Forall P (dict_set k v d).
Proof.
  intros Hd Hkv. induction Hd as [|[k0 v0] d H0 Hd IH]; cbn.
  - constructor; [exact Hkv|constructor].
  - destruct (k0 =? k); constructor; assumption.
Qed.

Lemma dict_set_nonempty {V} (k : Z) (v : V) (d : list (Z * V)) :
  dict_set k v d <> [].
Proof. destruct d as [|[k0 v0] d]; cbn; [|destruct (k0 =? k)]; discriminate. Qed.

Lemma hourly_nil : hourly [].
Proof. split; [apply List.NoDup_nil|apply List.Forall_nil]. Qed.

Lemma hourly_length (hf : list (Z * Z)) : hourly hf -> (length hf <= 24)%nat.
Proof.
  intros [Hnd Hall].
  rewrite <- (length_map fst hf).
  change 24%nat with (length (map Z.of_nat (seq 0 24))).
  apply NoDup_incl_length; [exact Hnd|].
  intros k Hk. apply in_map_iff in Hk. destruct Hk as ([k0 v0] & <- & Hin).
  rewrite List.Forall_forall in Hall. specialize (Hall _ Hin). cbn [fst snd] in *.
  apply in_map_iff. exists (Z.to_nat k0). split; [lia|].
  apply in_seq. lia.
Qed.

Lemma hourly_count (hf : list (Z * Z)) (h : Z) :
  hourly hf -> 0 <= default 0 (dict_get h hf).
Proof.
  intros [_ Hall].
  destruct (dict_get h hf) as [v|] eqn:E; cbn [default from_option id]; [|lia].
  apply dict_get_In in E. rewrite List.Forall_forall in Hall.
  specialize (Hall _ E). cbn [snd] in Hall. lia.
Qed.

Lemma hourly_update (hf : list (Z * Z)) (now : Z) :
  hourly hf ->
  hourly (dict_set (hour_of now) (default 0 (dict_get (hour_of now) hf) + 1) hf).
Proof.
  intros Hh. pose proof (hourly_count hf (hour_of now) Hh) as Hc.
  destruct Hh as [Hnd Hall]. split.
  - apply dict_set_NoDup. exact Hnd.
  - apply dict_set_Forall; [exact Hall|]. cbn [fst snd].
    pose proof (hour_of_range now). lia.
Qed.

Lemma untrained_empty : untrained ∅.
Proof. intros uid b H. rewrite lookup_empty in H. discriminate. Qed.

Lemma update_keeps_untrained (now : Z) (uid : string) (a : UserActivity)
    (ub : gmap string Baseline) :
  untrained ub -> untrained (_update_user_baseline now uid a ub).
Proof.
  intros Hinv uid' b. unfold _update_user_baseline.
  destruct (decide (uid = uid')) as [->|Hne].
  2:{ rewrite lookup_insert_ne by exact Hne. apply Hinv. }
  rewrite lookup_insert_eq. intros [= <-].
  cbn [typical_hours hour_frequency].
  assert (typical_hours (default new_baseline (ub !! uid')) = ∅
          /\ hourly (hour_frequency (default new_baseline (ub !! uid'))))
    as [Hth Hh].
  { destruct (ub !! uid') as [b0|] eqn:E; cbn [default].
    - destruct (Hinv _ _ E) as (H1 & _ & H3). auto.
    - split; [reflexivity|apply hourly_nil]. }
  pose proof (hourly_update _ now Hh) as Hh'.
  pose proof (hourly_length _ Hh') as Hlen.
  split; [|split].
  - destruct (100 <? _) eqn:E; [apply Z.ltb_lt in E; lia|exact Hth].
  - apply dict_set_nonempty.
  - exact Hh'.
Qed.

(* ================================================================= *)
(** * The ITS engine: missing models, missing activity, bounds *)

Lemma order_by_desc_nonempty {A} (key : A -> Z) (l : list A) :
  l <> [] -> order_by_desc key l <> [].
Proof.
  destruct l as [|x l]; [congruence|]. intros _ E.
  assert (In x (order_by_desc key (x :: l))) as Hin
    by (apply In_order_by_desc; left; reflexivity).
  rewrite E in Hin. destruct Hin.
Qed.

Lemma order_by_desc_nil_inv {A} (key : A -> Z) (l : list A) :
  order_by_desc key l = [] -> l = [].
Proof.
  intros E. destruct l as [|x l]; [reflexivity|].
  exfalso. apply (order_by_desc_nonempty key (x :: l)); [discriminate|exact E].
Qed.

Lemma extract_features_some (rows : list ActivityLog.t) (role : string) :
  rows <> [] -> exists f, extract_features rows role = Some f.
Proof.
  destruct rows as [|r rows]; [congruence|]. intros _.
  unfold extract_features. eexists. reflexivity.
Qed.

(** The row list [calculate_its_score] hands to the scoring. *)
Lemma its_rows_cases (env : Env) (uid : string) (w : World) (user : User.t) :
  first_where (fun u => String.eqb (User.user_id u) uid) (users (session w))
  = Some user ->
  (user_rows uid (session w) = []
   /\ exists w',
        calculate_its_score env uid w
        = (inr {| ScoreData.its_score := 5; ScoreData.risk_level := "low";
                  ScoreData.anomalies := [];
                  ScoreData.explanation :=
                    "No activity data available - baseline score" |}, w')
        /\ same_data w w')
  \/ (user_rows uid (session w) <> []
      /\ exists rows w0,
           rows <> [] /\ same_data w w0
           /\ calculate_its_score env uid w = score_rows env user rows w0).
Proof.
  intros Hu.
  destruct (calculate_its_score env uid w) as [r w1] eqn:Hrun.
  unfold calculate_its_score, bind at 1, get_db in Hrun. rewrite Hu in Hrun.
  unfold bind at 1, datetime_now at 1 in Hrun. cbn [session clock_reads] in Hrun.
  set (w0 := {| committed := committed w; session := session w;
                user_baselines := user_baselines w;
                clock_reads := S (clock_reads w) |}) in *.
  assert (same_data w w0) as Hsame by (unfold same_data; auto).
  destruct (order_by_desc ActivityLog.timestamp (filter _ _)) as [|r1 rs] eqn:Hrecent.
  - destruct (user_rows uid (session w)) as [|r0 rows0] eqn:Hrows.
    + left. split; [reflexivity|].
      cbn in Hrun. injection Hrun as <- <-.
      eexists. split; [reflexivity|exact Hsame].
    + right. split; [discriminate|].
      pose proof (order_by_desc_nonempty ActivityLog.timestamp (r0 :: rows0)
                    ltac:(discriminate)) as Hne.
      destruct (order_by_desc ActivityLog.timestamp (r0 :: rows0))
        as [|x xs] eqn:Hall; [congruence|].
      change (take 50 (x :: xs)) with (x :: take 49 xs) in Hrun.
      cbv iota in Hrun.
      change (take 20 (x :: take 49 xs)) with (x :: take 19 (take 49 xs)) in Hrun.
      exists (x :: take 19 (take 49 xs)), w0.
      split; [discriminate|]. split; [exact Hsame|]. symmetry. exact Hrun.
  - right. split.
    + intros E. rewrite E in Hrecent. discriminate Hrecent.
    + exists (r1 :: rs), w0. split; [discriminate|]. split; [exact Hsame|].
      symmetry. exact Hrun.
Qed.

(** X5. Before [load_models] has run, [calculate_its_score] needs no
    model for a known user without any stored activity (the answer is
    the constant 5.0, low) and fails for a known user with stored
    activity: the first model it touches is the scaler, and the call
    raises [AttributeError] on [None]. *)
Theorem its_score_before_load_models (env : Env) (uid : string) (w : World)
    (user : User.t) :
  first_where (fun u => String.eqb (User.user_id u) uid) (users (session w))
  = Some user ->
  scaler (models env) = None ->
  (user_rows uid (session w) = [] ->
   exists sd w',
     calculate_its_score env uid w = (inr sd, w')
     /\ ScoreData.its_score sd = 5%Q /\ ScoreData.risk_level sd = "low"%string)
  /\ (user_rows uid (session w) <> [] ->
      exists w',
        calculate_its_score env uid w
        = (inl (AttributeError "'NoneType' object has no attribute 'transform'"),
           w')).
Proof.
  intros Hu Hscaler.
  destruct (its_rows_cases env uid w user Hu)
    as [(Hnil & w' & Hrun & _)|(Hne & rows & w0 & Hrows & _ & Hrun)].
  - split; [|congruence]. intros _. eexists _, w'. split; [exact Hrun|].
    split; reflexivity.
  - split; [congruence|]. intros _. rewrite Hrun.
    destruct (extract_features_some rows (User.role user) Hrows) as [f Hf].
    unfold score_rows. rewrite Hf. unfold bind at 1, model_call. rewrite Hscaler.
    eexists. reflexivity.
Qed.

Lemma its_score_before_load_models_witness :
  let env := Fixture.env_of Fixture.day7_ten_am (Fixture.flat_detector 0)
                            Fixture.unloaded in
  (exists sd w',
     calculate_its_score env "U002" Fixture.fresh = (inr sd, w')
     /\ ScoreData.its_score sd = 5%Q /\ ScoreData.risk_level sd = "low"%string)
  /\ exists w',
       calculate_its_score env "U002" Fixture.two_activities
       = (inl (AttributeError "'NoneType' object has no attribute 'transform'"),
          w').
Proof.
  intros env. split.
  - apply (its_score_before_load_models env "U002" Fixture.fresh
             (Fixture.user "U002")); reflexivity.
  - apply (its_score_before_load_models env "U002" Fixture.two_activities
             (Fixture.user "U002")); [reflexivity|reflexivity|].
    vm_compute. discriminate.
Defined.









(* ================================================================= *)
(** * The daily snapshot *)

Lemma update_first_map_key {A K} (key : A -> K) (p : A -> bool) (f : A -> A)
    (l : list A) :
  (forall x, p x = true -> key (f x) = key x) ->
  map key (update_first p f l) = map key l.
Proof.
  intros Hf. induction l as [|x l IH]; cbn; [reflexivity|].
  destruct (p x) eqn:E; cbn; [rewrite (Hf x E)|rewrite IH]; reflexivity.
Qed.

Lemma first_where_none {A} (p : A -> bool) (l : list A) (x : A) :
  first_where p l = None -> In x l -> p x = false.
Proof.
  unfold first_where. intros Hn Hin. exact (find_none p l Hn x Hin).
Qed.


Lemma update_first_keeps_others {A} (p : A -> bool) (f : A -> A) (l : list A)
    (x : A) :
  p x = false -> In x l -> In x (update_first p f l).
Proof.
  intros Hp. induction l as [|y l IH]; cbn; [tauto|].
  intros [->|Hin].
  - rewrite Hp. left. reflexivity.
  - destruct (p y); right; [exact Hin|exact (IH Hin)].
Qed.

Lemma NoDup_map_unique {A K} (key : A -> K) (l : list A) (x y : A) :
  List.NoDup (map key l) -> In x l -> In y l -> key x = key y -> x = y.
Proof.
  induction l as [|z l IH]; cbn; [tauto|].
  intros Hnd Hx Hy Hk. apply List.NoDup_cons_iff in Hnd. destruct Hnd as [Hnin Hnd].
  destruct Hx as [->|Hx], Hy as [->|Hy].
  - reflexivity.
  - exfalso. apply Hnin. rewrite Hk. apply in_map. exact Hy.
  - exfalso. apply Hnin. rewrite <- Hk. apply in_map. exact Hx.
  - exact (IH Hnd Hx Hy Hk).
Qed.




(* ================================================================= *)
(** * Alert -> Threat: one threat per fingerprint *)

(** The three ways [_escalate_to_threat] can end. *)
Lemma escalate_to_threat_cases (env : Env) (alert : AnomalyAlert.t)
    (a : UserActivity) (ml : Q) (expl : string) (w : World) :
  let same_fp := fun t : Threat.t =>
    String.eqb (Threat.threat_fingerprint t) (AnomalyAlert.anomaly_fingerprint alert) in
  exists r w',
    _escalate_to_threat env alert a ml expl w = (inr r, w')
    /\ ((exists t0, first_where same_fp (threats (session w)) = Some t0
                    /\ r = Some t0 /\ w' = w)
        \/ (first_where same_fp (threats (session w)) = None
            /\ r = None /\ same_data w w')
        \/ (first_where same_fp (threats (session w)) = None
            /\ exists t, r = Some t
                 /\ Threat.threat_fingerprint t = AnomalyAlert.anomaly_fingerprint alert
                 /\ Threat.threat_id t = next_id Threat.threat_id (threats (session w))
                 /\ Threat.user_id t = user_id a
                 /\ Threat.ml_threat_score t = ml
                 /\ session w' = threat_effect alert t (session w)
                 /\ committed w' = session w')).
Proof.
  intros same_fp.
  destruct (_escalate_to_threat env alert a ml expl w) as [r w'] eqn:Hrun.
  unfold _escalate_to_threat, try_except, bind at 1, get_db in Hrun.
  fold same_fp in Hrun.
  destruct (first_where same_fp (threats (session w))) as [t0|] eqn:Hfind.
  { cbn [ret] in Hrun. injection Hrun as <- <-.
    eexists _, _. split; [reflexivity|]. left. eauto. }
  unfold bind at 1 in Hrun.
  pose proof (calculate_its_score_same_data env (user_id a) w) as (Hc & Hs & Hb).
  destruct (calculate_its_score env (user_id a) w) as [[e|sd] w1];
    cbn [snd] in Hc, Hs, Hb.
  { cbn [ret] in Hrun. injection Hrun as <- <-.
    eexists _, _. split; [reflexivity|]. right; left.
    split; [reflexivity|]. split; [reflexivity|]. unfold same_data. auto. }
  unfold bind, datetime_now, get_db, modify_db, commit in Hrun.
  cbn [session committed user_baselines clock_reads ret] in Hrun.
  cbn [anomaly_fingerprints with_anomaly_alerts with_threats] in Hrun.
  rewrite Hs, Hb in Hrun.
  destruct (first_where _ (anomaly_fingerprints (session w))) as [fp|] eqn:Hfp;
    cbn [session committed user_baselines clock_reads ret] in Hrun;
    injection Hrun as <- <-;
    eexists _, _; (split; [reflexivity|]); right; right;
    (split; [reflexivity|]);
    match goal with
    | |- context [threats (session w) ++ [?x]] => exists x
    end;
    cbn [session committed Threat.threat_fingerprint Threat.threat_id
         Threat.user_id Threat.ml_threat_score];
    repeat (split; [reflexivity|]);
    try reflexivity.
  split; [|reflexivity]. unfold threat_effect.
  rewrite (update_first_no_match _ _ _ Hfp).
  destruct (session w); reflexivity.
Qed.

Lemma update_first_length {A} (p : A -> bool) (f : A -> A) (l : list A) :
  length (update_first p f l) = length l.
Proof.
  induction l as [|x l IH]; cbn; [reflexivity|].
  destruct (p x); cbn; [|rewrite IH]; reflexivity.
Qed.

(** X8. [_escalate_to_threat] never raises and keeps one threat per
    fingerprint: when a threat with the alert's fingerprint is already
    stored it returns that threat and writes nothing, not even the link
    on the alert; otherwise it returns [None] and writes nothing (the
    ITS computation failed) or appends exactly one threat carrying the
    alert's fingerprint and commits it. *)
Theorem threat_escalation_deduplicates (env : Env) (alert : AnomalyAlert.t)
    (a : UserActivity) (ml : Q) (expl : string) (w : World) :
  one_threat_per_fingerprint (session w) ->
  exists r w',
    _escalate_to_threat env alert a ml expl w = (inr r, w')
    /\ one_threat_per_fingerprint (session w')
    /\ (forall t0, In t0 (threats (session w)) ->
          Threat.threat_fingerprint t0 = AnomalyAlert.anomaly_fingerprint alert ->
          r = Some t0 /\ w' = w)
    /\ (forall t, r = Some t ->
          In t (threats (session w'))
          /\ Threat.threat_fingerprint t = AnomalyAlert.anomaly_fingerprint alert)
    /\ (r = None -> session w' = session w)
    /\ (length (threats (session w)) <= length (threats (session w'))
        <= S (length (threats (session w))))%nat.
Proof.
  intros Hone.
  destruct (escalate_to_threat_cases env alert a ml expl w)
    as (r & w' & Hrun & Hcases).
  exists r, w'. split; [exact Hrun|].
  set (fp := AnomalyAlert.anomaly_fingerprint alert) in *.
  set (same_fp := fun t : Threat.t => String.eqb (Threat.threat_fingerprint t) fp) in *.
  destruct Hcases as [(t0 & Hfind & -> & ->)
                     |[(Hfind & -> & Hsame)
                      |(Hfind & t & -> & Hfp & Hid & _ & _ & Hsess & _)]].
  - destruct (first_where_true _ _ _ Hfind) as [Hin Hp].
    apply String.eqb_eq in Hp.
    split; [exact Hone|]. split.
    { intros t1 Hin1 Hfp1. split; [|reflexivity]. f_equal.
      apply (NoDup_map_unique Threat.threat_fingerprint _ t0 t1 Hone Hin Hin1).
      congruence. }
    split; [intros t [= <-]; auto|]. split; [reflexivity|]. lia.
  - destruct Hsame as (_ & Hs & _). rewrite Hs.
    split; [exact Hone|]. split.
    { intros t1 Hin1 Hfp1. pose proof (first_where_none _ _ _ Hfind Hin1) as Hf.
      unfold same_fp in Hf. rewrite Hfp1, String.eqb_refl in Hf. discriminate. }
    split; [discriminate|]. split; [reflexivity|]. lia.
  - rewrite Hsess. unfold threat_effect, one_threat_per_fingerprint.
    cbn [threats with_anomaly_fingerprints with_anomaly_alerts with_threats].
    split.
    { rewrite map_app. cbn [map].
      apply NoDup_ListNoDup, NoDup_app.
      split; [apply NoDup_ListNoDup; exact Hone|].
      split; [|apply NoDup_singleton].
      intros k Hk Hk'. apply list_elem_of_In in Hk.
      apply list_elem_of_singleton in Hk'. subst k.
      apply in_map_iff in Hk. destruct Hk as (t1 & Hfp1 & Hin1).
      pose proof (first_where_none _ _ _ Hfind Hin1) as Hf.
      unfold same_fp in Hf. rewrite Hfp1, Hfp, String.eqb_refl in Hf.
      discriminate. }
    split.
    { intros t1 Hin1 Hfp1. pose proof (first_where_none _ _ _ Hfind Hin1) as Hf.
      unfold same_fp in Hf. rewrite Hfp1, String.eqb_refl in Hf. discriminate. }
    split.
    { intros t1 [= <-]. split; [|exact Hfp].
      apply in_or_app. right. left. reflexivity. }
    split; [discriminate|]. rewrite length_app. cbn [length]. lia.
Qed.

Lemma threat_escalation_deduplicates_witness :
  let env := Fixture.env_of Fixture.ten_am (Fixture.flat_detector 0)
                            (Fixture.loaded (1 # 10)) in
  let r1 := _escalate_to_threat env Sample.email_alert Fixture.big_email
              (45 # 100) "ML anomaly detected" Sample.with_alert in
  exists t,
    fst r1 = inr (Some t)
    /\ _escalate_to_threat env Sample.email_alert Fixture.big_email
         (45 # 100) "ML anomaly detected" (snd r1)
       = (inr (Some t), snd r1).
Proof.
  intros env r1.
  assert (exists t, fst r1 = inr (Some t) /\ In t (threats (session (snd r1)))
                    /\ Threat.threat_fingerprint t
                       = AnomalyAlert.anomaly_fingerprint Sample.email_alert)
    as (t & Hfst & Hin & Hfp)
    by (vm_compute; eexists; split; [reflexivity|split; [left|]; reflexivity]).
  exists t. split; [exact Hfst|].
  destruct (threat_escalation_deduplicates env Sample.email_alert
              Fixture.big_email (45 # 100) "ML anomaly detected" (snd r1))
    as (r & w' & Hrun & _ & Hdedup & _).
  - vm_compute. apply List.NoDup_cons; [intros []|apply List.NoDup_nil].
  - destruct (Hdedup t Hin Hfp) as [-> ->]. exact Hrun.
Defined.

(* ================================================================= *)
(** * Alert -> Incident as it runs *)

(** [_auto_escalate_to_incident] in closed form. *)
Lemma loaded_auto_escalate_eq (env : Env) (ta : ThreatAlertDB.t)
    (a : UserActivity) (sd : ScoreData.t) (expl : string) (w : World) :
  Loaded._auto_escalate_to_incident env ta a sd expl w
  = match existing_incident_at (clock env (clock_reads w) - 2 * usec_per_hour)
                               (user_id a) (incidents (session w)) with
    | None =>
      (inr None,
       {| committed := committed w; session := session w;
          user_baselines := user_baselines w;
          clock_reads := S (clock_reads w) |})
    | Some e =>
      let i3 := refreshed_incident (ScoreData.its_score sd)
                  (ThreatAlertDB.risk_level ta)
                  (clock env (S (clock_reads w))) e in
      let d := with_incidents
                 (refresh_in (ScoreData.its_score sd)
                    (ThreatAlertDB.risk_level ta)
                    (clock env (S (clock_reads w))) e (incidents (session w)))
                 (session w) in
      (inr (Some i3),
       {| committed := d; session := d; user_baselines := user_baselines w;
          clock_reads := S (S (clock_reads w)) |})
    end.
Proof.
  unfold Loaded._auto_escalate_to_incident, try_except, bind at 1, datetime_now.
  unfold bind at 1, get_db. cbn [session clock_reads].
  unfold existing_incident_at.
  match goal with
  | |- context [head ?l] => destruct (head l) as [e|]
  end.
  - unfold bind, datetime_now, modify_db, commit.
    cbn [session committed user_baselines clock_reads ret]. reflexivity.
  - cbn [Loaded.call_with_two ret]. reflexivity.
Qed.

(** When the lookup of lines 1289-1295 finds an incident, and when not. *)
Lemma existing_incident_some (cutoff : Z) (uid : string)
    (rows : list Incident.t) (e : Incident.t) :
  existing_incident_at cutoff uid rows = Some e ->
  In e rows /\ cutoff <= Incident.timestamp e
  /\ active_incident_of uid e.
Proof.
  unfold existing_incident_at. intros H.
  apply head_order_by_desc, In_filter_bool in H. destruct H as [Hin Hp].
  apply andb_true_iff in Hp. destruct Hp as [Hp Hst].
  apply andb_true_iff in Hp. destruct Hp as [Hu Ht].
  apply String.eqb_eq in Hu. apply Z.leb_le in Ht.
  split; [exact Hin|]. split; [exact Ht|]. split; [exact Hu|].
  apply orb_true_iff in Hst. destruct Hst as [Hst|Hst];
    apply String.eqb_eq in Hst; auto.
Qed.

Lemma existing_incident_none (cutoff : Z) (uid : string)
    (rows : list Incident.t) :
  existing_incident_at cutoff uid rows = None
  <-> forall i, In i rows ->
        ~ (cutoff <= Incident.timestamp i /\ active_incident_of uid i).
Proof.
  unfold existing_incident_at. split.
  - intros H i Hin (Ht & Hu & Hst).
    match type of H with
    | head (order_by_desc _ (filter ?p _)) = None =>
        assert (In i (filter p rows)) as Hf
    end.
    { apply list_elem_of_In, list_elem_of_filter. split.
      - apply Is_true_true. rewrite !andb_true_iff, orb_true_iff, !String.eqb_eq.
        rewrite Z.leb_le. auto.
      - apply list_elem_of_In. exact Hin. }
    match type of H with
    | head ?l = None => destruct l eqn:E; [|discriminate]
    end.
    apply order_by_desc_nil_inv in E. rewrite E in Hf. destruct Hf.
  - intros H.
    match goal with
    | |- head ?l = None => destruct (head l) as [e|] eqn:E; [|reflexivity]
    end.
    exfalso. apply head_order_by_desc, In_filter_bool in E.
    destruct E as [Hin Hp]. apply (H e Hin).
    apply andb_true_iff in Hp. destruct Hp as [Hp Hst].
    apply andb_true_iff in Hp. destruct Hp as [Hu Ht].
    apply String.eqb_eq in Hu. apply Z.leb_le in Ht.
    split; [exact Ht|]. split; [exact Hu|].
    apply orb_true_iff in Hst. destruct Hst as [Hst|Hst];
      apply String.eqb_eq in Hst; auto.
Qed.

Lemma refresh_in_ids (its : Q) (risk : string) (now : Z) (e : Incident.t)
    (rows : list Incident.t) :
  map Incident.incident_id (refresh_in its risk now e rows)
  = map Incident.incident_id rows.
Proof.
  unfold refresh_in. apply update_first_map_key.
  intros x Hx. apply Z.eqb_eq in Hx. rewrite Hx.
  unfold refreshed_incident.
  destruct (Qlt_bool _ _), (serious risk && _)%bool; reflexivity.
Qed.

(** X9. [_auto_escalate_to_incident] as the loaded module runs it never
    creates an incident: for every input it returns without raising and
    leaves the ids of the incidents table as they were. It returns
    [None] exactly when the user has no open or in-progress incident of
    the last two hours, and then it has written nothing. *)
Theorem auto_escalation_never_creates_incident (env : Env)
    (ta : ThreatAlertDB.t) (a : UserActivity) (sd : ScoreData.t)
    (expl : string) (w : World) :
  let cutoff := clock env (clock_reads w) - 2 * usec_per_hour in
  exists r w',
    Loaded._auto_escalate_to_incident env ta a sd expl w = (inr r, w')
    /\ map Incident.incident_id (incidents (session w'))
       = map Incident.incident_id (incidents (session w))
    /\ (r = None
        <-> forall i, In i (incidents (session w)) ->
              ~ (cutoff <= Incident.timestamp i
                 /\ active_incident_of (user_id a) i))
    /\ (r = None -> same_data w w').
Proof.
  intros cutoff. rewrite loaded_auto_escalate_eq. fold cutoff.
  pose proof (existing_incident_none cutoff (user_id a) (incidents (session w)))
    as Hnone.
  destruct (existing_incident_at cutoff (user_id a) (incidents (session w)))
    as [e|].
  - eexists _, _. split; [reflexivity|]. cbn [session incidents with_incidents].
    split; [apply refresh_in_ids|]. split; [|discriminate].
    split; [discriminate|]. intros H. apply Hnone in H. discriminate H.
  - eexists _, _. split; [reflexivity|]. cbn [session].
    split; [reflexivity|]. split.
    + split; [intros _; apply Hnone; reflexivity|reflexivity].
    + intros _. unfold same_data. cbn. auto.
Qed.

Lemma Qlt_bool_false_le (x y : Q) : Qlt_bool x y = false -> (y <= x)%Q.
Proof.
  intros H. destruct (Qlt_le_dec x y) as [Hlt|Hle]; [|exact Hle].
  apply Qlt_bool_iff in Hlt. congruence.
Qed.

(** X10. When the user has an open or in-progress incident of the last
    two hours, [_auto_escalate_to_incident] returns the newest such
    incident refreshed and committed: same id, user, status and creation
    time; the ITS raised to the new score and never lowered; the
    severity raised to the alert's high or critical level and never
    changed once it is high or critical; [last_updated] set to the
    second clock reading. No other row of the table changes. *)
Theorem auto_escalation_refreshes_incident (env : Env)
    (ta : ThreatAlertDB.t) (a : UserActivity) (sd : ScoreData.t)
    (expl : string) (w : World) (e : Incident.t) :
  existing_incident_at (clock env (clock_reads w) - 2 * usec_per_hour)
                       (user_id a) (incidents (session w)) = Some e ->
  let its := ScoreData.its_score sd in
  let risk := ThreatAlertDB.risk_level ta in
  exists i w',
    Loaded._auto_escalate_to_incident env ta a sd expl w = (inr (Some i), w')
    /\ In e (incidents (session w)) /\ active_incident_of (user_id a) e
    /\ (Incident.incident_id i = Incident.incident_id e
        /\ Incident.user_id i = Incident.user_id e
        /\ Incident.status i = Incident.status e
        /\ Incident.timestamp i = Incident.timestamp e)
    /\ (Incident.its_score e <= Incident.its_score i
        /\ its <= Incident.its_score i
        /\ (Incident.its_score i = its
            \/ Incident.its_score i = Incident.its_score e))%Q
    /\ (serious (Incident.severity e) = true ->
        Incident.severity i = Incident.severity e)
    /\ (serious (Incident.severity e) = false -> serious risk = true ->
        Incident.severity i = risk)
    /\ (serious risk = false -> Incident.severity i = Incident.severity e)
    /\ Incident.last_updated i = Some (clock env (S (clock_reads w)))
    /\ committed w' = session w'
    /\ In i (incidents (session w'))
    /\ length (incidents (session w')) = length (incidents (session w))
    /\ (forall x, In x (incidents (session w)) ->
          Incident.incident_id x <> Incident.incident_id e ->
          In x (incidents (session w'))).
Proof.
  intros Hfound its risk. rewrite loaded_auto_escalate_eq, Hfound.
  destruct (existing_incident_some _ _ _ _ Hfound) as (Hin & _ & Hact).
  cbv zeta. fold its risk.
  eexists _, _. split; [reflexivity|].
  cbn [session committed incidents with_incidents].
  split; [exact Hin|]. split; [exact Hact|].
  assert (forall i1, Incident.its_score i1 = Incident.its_score
            (if serious risk && negb (serious (Incident.severity i1))
             then Incident.set_severity risk i1 else i1)) as Hsev
    by (intros i1; destruct (serious risk && _)%bool; reflexivity).
  unfold refreshed_incident.
  split.
  { destruct (Qlt_bool _ _), (serious risk && _)%bool; cbn; auto. }
  split.
  { cbn [Incident.its_score Incident.set_last_updated]. rewrite <- Hsev.
    destruct (Qlt_bool (Incident.its_score e) its) eqn:E.
    - apply Qlt_bool_iff in E. cbn [Incident.its_score Incident.set_scores].
      split; [apply Qlt_le_weak; exact E|]. split; [apply Qle_refl|auto].
    - apply Qlt_bool_false_le in E.
      split; [apply Qle_refl|]. split; [exact E|auto]. }
  split.
  { intros Hs. destruct (Qlt_bool _ _); cbn [Incident.severity Incident.set_scores];
      rewrite Hs, andb_false_r; reflexivity. }
  split.
  { intros Hs Hr. destruct (Qlt_bool _ _); cbn [Incident.severity Incident.set_scores];
      rewrite Hs, Hr; reflexivity. }
  split.
  { intros Hr. rewrite Hr. cbn [andb].
    destruct (Qlt_bool _ _); reflexivity. }
  split; [reflexivity|]. split; [reflexivity|].
  split.
  { unfold refresh_in. eapply update_first_replaces; [exact Hin|].
    apply Z.eqb_refl. }
  split; [apply update_first_length|].
  intros x Hx Hne. unfold refresh_in.
  apply update_first_keeps_others; [|exact Hx].
  apply Z.eqb_neq. exact Hne.
Qed.

Lemma auto_escalation_refreshes_incident_witness :
  let env := Fixture.env_of Fixture.ten_am (Fixture.flat_detector 0)
                            (Fixture.loaded (1 # 10)) in
  exists i w',
    Loaded._auto_escalate_to_incident env Sample.high_alert Fixture.big_email
      Sample.score_55 "External email with attachment" Sample.with_incident
    = (inr (Some i), w')
    /\ Incident.its_score i = 55%Q
    /\ Incident.severity i = "high"%string
    /\ incidents (committed w') = [i].
Proof.
  intros env.
  destruct (auto_escalation_refreshes_incident env Sample.high_alert
              Fixture.big_email Sample.score_55
              "External email with attachment" Sample.with_incident
              Sample.open_incident)
    as (i & w' & Hrun & _).
  - vm_compute. reflexivity.
  - exists i, w'. split; [exact Hrun|].
    revert Hrun. rewrite loaded_auto_escalate_eq.
    assert (existing_incident_at
              (clock env (clock_reads Sample.with_incident) - 2 * usec_per_hour)
              (user_id Fixture.big_email)
              (incidents (session Sample.with_incident))
            = Some Sample.open_incident) as -> by (vm_compute; reflexivity).
    cbv zeta. intros [= <- <-]. vm_compute. auto.
Defined.

(* ================================================================= *)
(** * The ingest endpoint as it runs *)

Ltac loaded_procedures :=
  unfold Loaded.ingest_handler, Loaded.ingest_body, store_activity,
    Loaded.analyse, classify, recent_context, Loaded.respond,
    fingerprint_bookkeeping, Loaded.alert_branch, refresh_existing_alert,
    Loaded.create_alert, Loaded.publish_alert, Loaded.escalate_new_alert,
    alert_generated_response, _escalate_to_threat,
    Loaded._auto_escalate_to_incident, Loaded.call_with_two,
    calculate_its_score, score_rows, detect_anomaly, observe,
    _extract_ml_features, _calculate_rapid_activity_score.

Lemma escalate_to_threat_clock (env : Env) (alert : AnomalyAlert.t)
    (a : UserActivity) (ml : Q) (expl : string) (k : nat) :
  keeps (fun w => (k <= clock_reads w)%nat)
        (_escalate_to_threat env alert a ml expl).
Proof. open_procedures. clock_steps. Qed.

Lemma loaded_respond_clock (env : Env) (a : UserActivity)
    (v : bool * Q * string) (h : string) (k : nat) :
  keeps (fun w => (k <= clock_reads w)%nat) (Loaded.respond env a v h).
Proof. loaded_procedures. clock_steps. Qed.

Lemma loaded_create_alert_reads (env : Env) (a : UserActivity) (h : string)
    (ml : Q) (sd : ScoreData.t) (risk : string) (anomalies : list string)
    (expl : string) (now : Z) (w : World) :
  (clock_reads w
   < clock_reads
       (snd (Loaded.create_alert env a h ml sd risk anomalies expl now w)))%nat.
Proof.
  unfold Loaded.create_alert. unfold bind at 1. unfold datetime_now at 1.
  cbv beta iota.
  match goal with
  | |- (_ < clock_reads (snd (?c ?w0)))%nat =>
      assert (keeps (fun w' => (S (clock_reads w) <= clock_reads w')%nat) c) as H
        by (loaded_procedures; clock_steps);
      unfold lt; apply (H w0); cbn; lia
  end.
Qed.

(** Lines 1145-1182 from a state in which the two new alert rows are the
    last rows of their tables. *)
Lemma loaded_escalate_new_alert_run (env : Env) (a : UserActivity) (ml : Q)
    (sd : ScoreData.t) (risk : string) (anomalies : list string)
    (expl : string) (now : Z) (naa : AnomalyAlert.t) (nta : ThreatAlertDB.t)
    (aas : list AnomalyAlert.t) (tas : list ThreatAlertDB.t) (w : World) :
  settled w ->
  anomaly_alerts (session w) = aas ++ [naa] ->
  AnomalyAlert.alert_id naa = next_id AnomalyAlert.alert_id aas ->
  threat_alerts (session w) = tas ++ [nta] ->
  ThreatAlertDB.alert_id nta = next_id ThreatAlertDB.alert_id tas ->
  let its := ScoreData.its_score sd in
  exists w' x t m,
    Loaded.escalate_new_alert env a ml sd risk anomalies expl now naa nta w
    = (inr {| threat_alert := Some nta; anomaly_alert := Some naa;
              score_data := Some sd; risk_level := Some risk;
              anomalies_list := Some anomalies;
              alert_timestamp := Some now |}, w')
    /\ settled w'
    /\ user_baselines w' = user_baselines w
    /\ activity_logs (session w') = activity_logs (session w)
    /\ historical_its_scores (session w') = historical_its_scores (session w)
    /\ anomaly_alerts (session w') = aas ++ [x]
    /\ (x = naa \/ exists tid, x = AnomalyAlert.link_threat tid naa)
    /\ (anomaly_fingerprints (session w') = anomaly_fingerprints (session w)
        \/ anomaly_fingerprints (session w')
           = update_first (has_hash (AnomalyAlert.anomaly_fingerprint naa))
               AnomalyFingerprint.set_escalated
               (anomaly_fingerprints (session w)))
    /\ users (session w')
       = update_first (fun u => String.eqb (User.user_id u) (user_id a))
           (User.set_score its (ScoreData.risk_level sd) t)
           (users (session w))
    /\ (clock_reads w <= m < clock_reads w')%nat
    /\ let found :=
         if should_escalate risk ml its
         then existing_incident_at (clock env m - 2 * usec_per_hour)
                (user_id a) (incidents (session w))
         else None in
       threat_alerts (session w')
       = tas ++ [match found with
                 | Some _ => ThreatAlertDB.set_status "escalated_to_incident" nta
                 | None => nta
                 end]
       /\ match found with
          | Some e => exists t', incidents (session w')
                                 = refresh_in its (ThreatAlertDB.risk_level nta)
                                              t' e (incidents (session w))
          | None => incidents (session w') = incidents (session w)
          end.
Proof.
  intros Hset Haa Hnaa Hta Hnta its.
  unfold Loaded.escalate_new_alert.
  (* Alert -> Threat *)
  match goal with
  | |- context [bind ?c _ w] =>
      assert (exists w1 x,
                c w = (inr tt, w1) /\ settled w1
                /\ (clock_reads w <= clock_reads w1)%nat
                /\ user_baselines w1 = user_baselines w
                /\ users (session w1) = users (session w)
                /\ activity_logs (session w1) = activity_logs (session w)
                /\ historical_its_scores (session w1)
                   = historical_its_scores (session w)
                /\ incidents (session w1) = incidents (session w)
                /\ threat_alerts (session w1) = tas ++ [nta]
                /\ anomaly_alerts (session w1) = aas ++ [x]
                /\ (x = naa \/ exists tid, x = AnomalyAlert.link_threat tid naa)
                /\ (anomaly_fingerprints (session w1)
                    = anomaly_fingerprints (session w)
                    \/ anomaly_fingerprints (session w1)
                       = update_first
                           (has_hash (AnomalyAlert.anomaly_fingerprint naa))
                           AnomalyFingerprint.set_escalated
                           (anomaly_fingerprints (session w))))
        as (w1 & x & Hrun1 & Hset1 & Hk1 & Hb1 & Hu1 & Hl1 & Hh1 & Hi1 & Hta1
            & Haa1 & Hx & Hfp1)
  end.
  { destruct (Qle_bool THREAT_ESCALATION_THRESHOLD ml).
    - destruct (escalate_to_threat_run env naa a ml expl w Hset)
        as (r & w1 & Hr & Hs1 & Hb & [Heq|[t Heq]]);
        pose proof (escalate_to_threat_clock env naa a ml expl (clock_reads w) w
                      (Nat.le_refl _)) as Hk;
        rewrite Hr in Hk; cbn [snd] in Hk.
      + exists w1, naa. rewrite (bind_run _ _ _ _ _ Hr). cbn [ret].
        rewrite Heq. auto 15.
      + exists w1, (AnomalyAlert.link_threat (Threat.threat_id t) naa).
        rewrite (bind_run _ _ _ _ _ Hr). cbn [ret].
        rewrite Heq. unfold threat_effect.
        cbn [users activity_logs historical_its_scores incidents threat_alerts
             anomaly_alerts anomaly_fingerprints with_anomaly_fingerprints
             with_anomaly_alerts with_threats].
        rewrite Haa, (update_first_by_new_id _ _ _ _ Hnaa). eauto 15.
    - exists w, naa. cbn [ret]. auto 15. }
  rewrite (bind_run _ _ _ _ _ Hrun1).
  (* Alert -> Incident *)
  set (found := if should_escalate risk ml its
                then existing_incident_at
                       (clock env (clock_reads w1) - 2 * usec_per_hour)
                       (user_id a) (incidents (session w))
                else None).
  match goal with
  | |- context [bind ?c _ w1] =>
      assert (exists w2,
                c w1 = (inr tt, w2) /\ settled w2
                /\ (clock_reads w1 <= clock_reads w2)%nat
                /\ user_baselines w2 = user_baselines w1
                /\ users (session w2) = users (session w1)
                /\ activity_logs (session w2) = activity_logs (session w1)
                /\ historical_its_scores (session w2)
                   = historical_its_scores (session w1)
                /\ anomaly_alerts (session w2) = anomaly_alerts (session w1)
                /\ anomaly_fingerprints (session w2)
                   = anomaly_fingerprints (session w1)
                /\ threat_alerts (session w2)
                   = tas ++ [match found with
                             | Some _ => ThreatAlertDB.set_status
                                           "escalated_to_incident" nta
                             | None => nta
                             end]
                /\ match found with
                   | Some e =>
                     exists t', incidents (session w2)
                                = refresh_in its (ThreatAlertDB.risk_level nta)
                                             t' e (incidents (session w))
                   | None => incidents (session w2) = incidents (session w)
                   end)
        as (w2 & Hrun2 & Hset2 & Hk2 & Hb2 & Hu2 & Hl2 & Hh2 & Haa2 & Hfp2
            & Hta2 & Hinc)
  end.
  { subst found. fold its. destruct (should_escalate risk ml its).
    - unfold bind at 1. rewrite loaded_auto_escalate_eq, Hi1.
      destruct (existing_incident_at _ (user_id a) (incidents (session w)))
        as [e|].
      + cbv zeta. unfold bind, modify_db, commit.
        cbn [session committed user_baselines clock_reads ret].
        eexists. split; [reflexivity|]. unfold settled.
        cbn [session committed user_baselines clock_reads].
        cbn [users activity_logs historical_its_scores incidents threat_alerts
             anomaly_alerts anomaly_fingerprints with_threat_alerts
             with_incidents].
        rewrite Hta1, (update_first_by_new_id _ _ _ _ Hnta).
        split; [reflexivity|]. split; [lia|].
        repeat (split; [reflexivity|]). eexists. reflexivity.
      + cbn [ret]. eexists. split; [reflexivity|].
        cbn [session committed user_baselines clock_reads].
        split; [exact Hset1|]. split; [lia|].
        rewrite Hta1, Hi1. repeat (split; [reflexivity|]). reflexivity.
    - exists w1. cbn [ret]. rewrite Hta1, Hi1.
      split; [reflexivity|]. split; [exact Hset1|]. split; [lia|].
      repeat (split; [reflexivity|]). reflexivity. }
  rewrite (bind_run _ _ _ _ _ Hrun2).
  unfold bind, datetime_now, modify_db, commit.
  cbn [session committed user_baselines clock_reads ret].
  eexists _, x, _, (clock_reads w1). split; [reflexivity|]. unfold settled.
  cbn [session committed user_baselines clock_reads].
  cbn [users activity_logs historical_its_scores incidents threat_alerts
       anomaly_alerts anomaly_fingerprints with_users].
  rewrite Hu2, Hu1, Hl2, Hl1, Hh2, Hh1, Haa2, Haa1, Hfp2, Hb2, Hb1.
  repeat (split; [reflexivity || assumption|]).
  split; [lia|]. fold found. cbv zeta. split; [exact Hta2|exact Hinc].
Qed.

(** Lines 1101-1182 as a whole: what creating an alert leaves behind. *)
Lemma loaded_create_alert_run (env : Env) (a : UserActivity) (h : string)
    (ml : Q) (sd : ScoreData.t) (risk : string) (anomalies : list string)
    (expl : string) (now : Z) (w : World) :
  settled w ->
  let deadline :=
    clock env (clock_reads w) + ALERT_SUPPRESSION_HOURS * usec_per_hour in
  let its := ScoreData.its_score sd in
  exists w' naa nta x g t m,
    Loaded.create_alert env a h ml sd risk anomalies expl now w
    = (inr {| threat_alert := Some nta; anomaly_alert := Some naa;
              score_data := Some sd; risk_level := Some risk;
              anomalies_list := Some anomalies;
              alert_timestamp := Some now |}, w')
    /\ settled w'
    /\ user_baselines w' = user_baselines w
    /\ (ThreatAlertDB.risk_level nta = risk
        /\ ThreatAlertDB.status nta = "open"%string
        /\ ThreatAlertDB.its_score nta = its
        /\ ThreatAlertDB.user_id nta = user_id a)
    /\ activity_logs (session w') = activity_logs (session w)
    /\ historical_its_scores (session w') = historical_its_scores (session w)
    /\ (anomaly_alerts (session w') = anomaly_alerts (session w) ++ [x]
        /\ AnomalyAlert.anomaly_fingerprint x = h
        /\ AnomalyAlert.suppressed_until x = Some deadline)
    /\ (anomaly_fingerprints (session w')
        = update_first (has_hash h) g (anomaly_fingerprints (session w))
        /\ forall fp,
             AnomalyFingerprint.fingerprint_hash (g fp)
             = AnomalyFingerprint.fingerprint_hash fp
             /\ AnomalyFingerprint.suppressed_until (g fp) = Some deadline)
    /\ users (session w')
       = update_first (fun u => String.eqb (User.user_id u) (user_id a))
           (User.set_score its (ScoreData.risk_level sd) t)
           (users (session w))
    /\ (clock_reads w < m < clock_reads w')%nat
    /\ let found :=
         if should_escalate risk ml its
         then existing_incident_at (clock env m - 2 * usec_per_hour)
                (user_id a) (incidents (session w))
         else None in
       threat_alerts (session w')
       = threat_alerts (session w)
         ++ [match found with
             | Some _ => ThreatAlertDB.set_status "escalated_to_incident" nta
             | None => nta
             end]
       /\ match found with
          | Some e => exists t', incidents (session w')
                                 = refresh_in its (ThreatAlertDB.risk_level nta)
                                              t' e (incidents (session w))
          | None => incidents (session w') = incidents (session w)
          end.
Proof.
  intros Hset deadline its.
  unfold Loaded.create_alert, Loaded.publish_alert.
  unfold bind, datetime_now, get_db, modify_db, commit.
  cbn [session committed user_baselines clock_reads ret].
  cbn [threat_alerts with_anomaly_alerts].
  match goal with
  | |- context [Loaded.escalate_new_alert env a ml sd risk anomalies expl now
                  ?naa ?nta ?w2] =>
      destruct (loaded_escalate_new_alert_run env a ml sd risk anomalies expl
                  now naa nta (anomaly_alerts (session w))
                  (threat_alerts (session w)) w2)
        as (w' & x & t & m & Hrun & Hset' & Hb & Hl & Hh & Haa & Hx & Hfp
            & Hu & Hm & Hta & Hinc);
      [reflexivity|reflexivity|reflexivity|reflexivity|reflexivity|];
      exists w', naa, nta, x
  end.
  cbn [session committed user_baselines clock_reads] in *.
  cbn [users activity_logs historical_its_scores incidents threat_alerts
       anomaly_alerts anomaly_fingerprints with_anomaly_fingerprints
       with_threat_alerts with_anomaly_alerts] in *.
  cbn [AnomalyAlert.anomaly_fingerprint AnomalyAlert.suppressed_until] in Hfp.
  fold deadline in Hfp. fold its in Hu, Hta, Hinc.
  assert (AnomalyAlert.anomaly_fingerprint x = h
          /\ AnomalyAlert.suppressed_until x = Some deadline) as Hxf.
  { destruct Hx as [->|[tid ->]]; cbn; auto. }
  destruct Hfp as [Hfp|Hfp].
  - exists (AnomalyFingerprint.set_suppressed_until (Some deadline)), t, m.
    rewrite Hrun.
    repeat (match goal with |- _ /\ _ => split end);
      try reflexivity; try assumption; try apply Hxf; try lia;
      intros fp; cbn; auto.
  - exists (fun fp => AnomalyFingerprint.set_escalated
                        (AnomalyFingerprint.set_suppressed_until (Some deadline) fp)),
           t, m.
    rewrite Hrun.
    rewrite update_first_twice in Hfp by auto.
    repeat (match goal with |- _ /\ _ => split end);
      try reflexivity; try assumption; try apply Hxf; try lia;
      intros fp; cbn; auto.
Qed.

Lemma loaded_alert_branch_cases (env : Env) (a : UserActivity) (h : string)
    (ml : Q) (expl : string) (w : World) :
  settled w ->
  exists r w',
    Loaded.alert_branch env a h ml expl w = (r, w')
    /\ user_baselines w' = user_baselines w
    /\ ((exists e, r = inl e)
        \/ (exists l, r = inr l /\ threat_alert l = None)
        \/ (exists sd now naa nta n m,
              r = inr {| threat_alert := Some nta; anomaly_alert := Some naa;
                         score_data := Some sd;
                         risk_level :=
                           Some (risk_band ml (ScoreData.its_score sd));
                         anomalies_list := Some (anomalies_of expl a);
                         alert_timestamp := Some now |}
              /\ settled w'
              /\ fresh_dashboard_alert (user_id a) ml sd nta
              /\ alert_published (user_id a) h ml sd
                   (clock env n + ALERT_SUPPRESSION_HOURS * usec_per_hour) nta
                   (incident_to_refresh ml sd (clock env m - 2 * usec_per_hour)
                      (user_id a) (incidents (session w)))
                   (session w) (session w')
              /\ (clock_reads w <= n < m)%nat /\ (m < clock_reads w')%nat)).
Proof.
  intros Hset. unfold Loaded.alert_branch, bind at 1, get_db. unfold bind at 1.
  pose proof (calculate_its_score_same_data env (user_id a) w) as (Hc & Hs & Hb).
  pose proof (calculate_its_score_clock env (user_id a) (clock_reads w) w
                (Nat.le_refl _)) as Hk.
  destruct (calculate_its_score env (user_id a) w) as [[e|sd] w1];
    cbn [snd] in Hc, Hs, Hb, Hk.
  { eexists _, _. split; [reflexivity|]. split; [exact Hb|]. left. eauto. }
  unfold bind at 1, datetime_now.
  destruct (first_where _ (anomaly_alerts (session w))) as [ea|].
  - unfold refresh_existing_alert, bind, modify_db, commit, get_db.
    cbn [session committed user_baselines clock_reads ret].
    match goal with
    | |- context [head ?l] => destruct (head l)
    end; cbn [session committed user_baselines clock_reads ret];
      eexists _, _; (split; [reflexivity|]);
      cbn [user_baselines]; (split; [exact Hb|]);
      right; left; eexists; split; reflexivity.
  - match goal with
    | |- context [Loaded.create_alert env a h ml sd ?risk ?an expl ?now ?w2] =>
        destruct (loaded_create_alert_run env a h ml sd risk an expl now w2)
          as (w' & naa & nta & x & g & t & m & Hrun & Hset' & Hb' & Hnta & Hl
              & Hh & Hx & Hfp & Hu & Hm & Hta & Hinc);
        [unfold settled in *; cbn [session committed]; congruence|]
    end.
    rewrite Hrun. cbn [session committed user_baselines clock_reads] in *.
    eexists _, _. split; [reflexivity|]. split; [congruence|].
    right; right. exists sd, (clock env (clock_reads w1)), naa, nta,
      (S (clock_reads w1)), m.
    split; [reflexivity|]. split; [exact Hset'|].
    rewrite Hs in *.
    split; [exact Hnta|].
    split; [|lia].
    destruct Hnta as (Hrisk & _).
    unfold alert_published, incident_to_refresh. cbv zeta.
    repeat (match goal with |- _ /\ _ => split end); eauto.
Qed.

(** ** Past the fingerprint checks *)

Lemma loaded_respond_cases (env : Env) (a : UserActivity) (is_anomaly : bool)
    (ml : Q) (expl : string) (h : string) (w : World) :
  exists r w',
    Loaded.respond env a (is_anomaly, ml, expl) h w = (r, w')
    /\ user_baselines w' = user_baselines w
    /\ ((exists e, r = inl e)
        \/ (exists sd now naa nta n m,
              r = inr (alert_body nta naa sd
                         (risk_band ml (ScoreData.its_score sd))
                         (anomalies_of expl a) now ml expl)
              /\ (is_anomaly && Qle_bool (3 # 10) ml = true)
              /\ settled w'
              /\ fresh_dashboard_alert (user_id a) ml sd nta
              /\ alert_published (user_id a) h ml sd
                   (clock env n + ALERT_SUPPRESSION_HOURS * usec_per_hour) nta
                   (incident_to_refresh ml sd (clock env m - 2 * usec_per_hour)
                      (user_id a) (incidents (session w)))
                   (session w) (session w')
              /\ (clock_reads w <= n < m)%nat /\ (m < clock_reads w')%nat)).
Proof.
  unfold Loaded.respond, bind at 1, commit.
  destruct (is_anomaly && Qle_bool (3 # 10) ml) eqn:Hcond.
  - match goal with
    | |- context [bind (Loaded.alert_branch env a h ml expl) _ ?w0] =>
        destruct (loaded_alert_branch_cases env a h ml expl w0)
          as (r & w' & Hrun & Hb & Hcases); [reflexivity|]
    end.
    cbn [session user_baselines clock_reads] in *.
    destruct Hcases
      as [[e ->]|[(l & -> & Hl)|(sd & now & naa & nta & n & m & -> & Hrest)]].
    + rewrite (bind_fail _ _ _ _ _ Hrun). eexists _, _.
      split; [reflexivity|]. split; [exact Hb|]. left. eauto.
    + rewrite (bind_run _ _ _ _ _ Hrun).
      unfold alert_generated_response, bind at 1. rewrite Hl. cbn [local raise].
      eexists _, _. split; [reflexivity|]. split; [exact Hb|]. left. eauto.
    + rewrite (bind_run _ _ _ _ _ Hrun).
      unfold alert_generated_response, bind, local, ret.
      cbn [threat_alert anomaly_alert score_data risk_level anomalies_list
           alert_timestamp].
      eexists _, _. split; [reflexivity|]. split; [exact Hb|]. right.
      exists sd, now, naa, nta, n, m. split; [reflexivity|]. tauto.
  - unfold bind, ret, alert_generated_response, bind, local, unbound, raise.
    cbn [threat_alert].
    eexists _, _. split; [reflexivity|]. split; [reflexivity|]. left. eauto.
Qed.

(** ** Everything after the activity has been stored *)

Lemma loaded_analyse_cases (env : Env) (a : UserActivity) (w : World) :
  let h := generate_fingerprint env a (user_id a) in
  exists r w',
    Loaded.analyse env a w = (r, w')
    /\ user_baselines w' = user_baselines (snd (classify env a w))
    /\ ((exists e, r = inl e)
        \/ (r = inr suppressed_response
            /\ threat_alerts (session w') = threat_alerts (session w)
            /\ incidents (session w') = incidents (session w))
        \/ (r = inr already_escalated_response
            /\ threat_alerts (session w') = threat_alerts (session w)
            /\ incidents (session w') = incidents (session w))
        \/ (exists ml expl sd now naa nta n m fps',
              r = inr (alert_body nta naa sd
                         (risk_band ml (ScoreData.its_score sd))
                         (anomalies_of expl a) now ml expl)
              /\ settled w'
              /\ fresh_dashboard_alert (user_id a) ml sd nta
              /\ (exists fp, first_where (has_hash h) fps' = Some fp)
              /\ alert_published (user_id a) h ml sd
                   (clock env n + ALERT_SUPPRESSION_HOURS * usec_per_hour) nta
                   (incident_to_refresh ml sd (clock env m - 2 * usec_per_hour)
                      (user_id a) (incidents (session w)))
                   (with_anomaly_fingerprints fps' (session w)) (session w')
              /\ (clock_reads w <= n < m)%nat /\ (m < clock_reads w')%nat)).
Proof.
  intros h. unfold Loaded.analyse.
  destruct (classify_run env a w) as ([[is_anomaly ml] expl] & w1 & Hrun1 & Hc1 & Hs1).
  pose proof (classify_clock env a (clock_reads w) w (Nat.le_refl _)) as Hk1.
  rewrite Hrun1 in Hk1. cbn [snd] in Hk1.
  rewrite (bind_run _ _ _ _ _ Hrun1). fold h. rewrite Hrun1. cbn [snd].
  destruct (fingerprint_bookkeeping_run env a h w1)
    as (early & w2 & fps' & Hrun2 & Hb2 & Hs2 & Hfp & Hearly).
  pose proof (fingerprint_bookkeeping_clock env a h (clock_reads w1) w1
                (Nat.le_refl _)) as Hk2.
  rewrite Hrun2 in Hk2. cbn [snd] in Hk2.
  rewrite (bind_run _ _ _ _ _ Hrun2).
  destruct Hearly as [[-> Hc2]|[[-> Hc2]|[-> Hc2]]].
  - destruct (loaded_respond_cases env a is_anomaly ml expl h w2)
      as (r & w' & Hrun3 & Hb3 & Hcases).
    rewrite Hrun3. eexists _, _. split; [reflexivity|].
    split; [congruence|].
    destruct Hcases
      as [He|(sd & now & naa & nta & n & m & -> & _ & Hset & Hnta & Hcr & Hn)].
    + left. exact He.
    + right; right; right.
      exists ml, expl, sd, now, naa, nta, n, m, fps'.
      split; [reflexivity|]. split; [exact Hset|]. split; [exact Hnta|].
      split; [exact Hfp|]. split; [|lia]. rewrite Hs2, Hs1 in Hcr. exact Hcr.
  - cbn [ret]. eexists _, _. split; [reflexivity|]. split; [exact Hb2|].
    right; left. rewrite Hs2, Hs1. auto.
  - cbn [ret]. eexists _, _. split; [reflexivity|]. split; [exact Hb2|].
    right; right; left. rewrite Hs2, Hs1. auto.
Qed.

(** ** The endpoint in terms of [analyse] *)

Lemma loaded_ingest_activity_unknown (env : Env) (a : UserActivity) (w : World) :
  first_where (fun u => String.eqb (User.user_id u) (user_id a))
              (users (committed w)) = None ->
  Loaded.ingest_activity env a w
  = (HttpError 500
       (exn_str (HTTPException 404 ("User " +:+ user_id a +:+ " not found"))),
     open_session w).
Proof.
  intros Hu.
  assert (Loaded.ingest_body env a (open_session w)
          = (inl (HTTPException 404 ("User " +:+ user_id a +:+ " not found")),
             open_session w)) as Hbody.
  { unfold Loaded.ingest_body, bind, get_db. cbn [session open_session].
    rewrite Hu. reflexivity. }
  unfold Loaded.ingest_activity, Loaded.ingest_handler, try_except.
  rewrite Hbody. unfold bind, rollback, raise. reflexivity.
Qed.

Lemma loaded_ingest_activity_known (env : Env) (a : UserActivity) (w : World) :
  known_user a (committed w) ->
  Loaded.ingest_activity env a w
  = match Loaded.analyse env a (after_store a w) with
    | (inr body, w') => (Ok200 body, open_session w')
    | (inl e, w') => (HttpError 500 (exn_str e), open_session w')
    end.
Proof.
  intros [u Hu]. unfold Loaded.ingest_activity, Loaded.ingest_handler, try_except.
  assert (Loaded.ingest_body env a (open_session w)
          = Loaded.analyse env a (after_store a w)) as ->.
  { unfold Loaded.ingest_body, bind at 1, get_db.
    cbn [session open_session]. rewrite Hu.
    unfold store_activity, bind, modify_db, commit. reflexivity. }
  destruct (Loaded.analyse env a (after_store a w)) as [[e|body] w'];
    [|reflexivity].
  unfold bind, rollback, raise. reflexivity.
Qed.

(** ** The incidents table under the endpoint *)

Lemma loaded_ingest_handler_keeps_incident_ids (env : Env) (a : UserActivity)
    (ids : list Z) :
  keeps (fun w => map Incident.incident_id (incidents (session w)) = ids
                  /\ map Incident.incident_id (incidents (committed w)) = ids)
        (Loaded.ingest_handler env a).
Proof.
  loaded_procedures.
  repeat first
    [ keeps_step
    | keeps_field
    | lazymatch goal with
      | |- keeps _ (modify_baselines _) => intros ? ?; assumption
      | |- keeps _ (modify_db _) =>
          let H1 := fresh in let H2 := fresh in
          intros ? [H1 H2]; split; cbn;
          [first [assumption
                 |rewrite update_first_map_key; [assumption|];
                  let x := fresh in let Hx := fresh in
                  intros x Hx; apply Z.eqb_eq in Hx; rewrite Hx;
                  repeat match goal with
                         | |- context [if ?b then _ else _] => destruct b
                         end; reflexivity]
          |assumption]
      end ].
Qed.

(** X11. Posting activities never adds or removes an incident: after
    any sequence of posts to the ingest endpoint the incidents table
    holds the incidents it held before, id by id, whatever the posts
    were answered with. *)
Theorem ingest_never_creates_incident (env : Env) (posts : list UserActivity)
    (w : World) :
  map Incident.incident_id (incidents (committed (after_posts env posts w)))
  = map Incident.incident_id (incidents (committed w)).
Proof.
  unfold after_posts. revert w.
  induction posts as [|a posts IH]; intros w; cbn [fold_left]; [reflexivity|].
  rewrite IH. unfold Loaded.ingest_activity.
  pose proof (loaded_ingest_handler_keeps_incident_ids env a
                (map Incident.incident_id (incidents (committed w)))
                (open_session w) (conj eq_refl eq_refl)) as [_ Hk].
  destruct (Loaded.ingest_handler env a (open_session w)) as [[[]|body] w'];
    exact Hk.
Qed.

(** X12. What the ingest endpoint does with a new alert, as the loaded
    module runs it. The risk level reported and stored is the band of
    (ml_score, its_score). The new dashboard alert is marked
    [escalated_to_incident] only if it qualifies for promotion and the
    user already has an open or in-progress incident no older than two
    hours at a clock reading of the call; in every other case, a
    critical alert included, it stays [open] and the incidents table is
    left exactly as it was. *)
Theorem promotion_needs_existing_incident (env : Env) (a : UserActivity)
    (w w1 : World) (body : list (string * Json)) :
  Loaded.ingest_activity env a w = (Ok200 body, w1) ->
  field "status" body = Some (JStr "alert_generated") ->
  exists ml its band payload ta m,
    field "its_score" body = Some (JNum its)
    /\ field "alert" body = Some (JObj payload)
    /\ field "ml_score" payload = Some (JNum ml)
    /\ field "risk_level" payload = Some (JStr band)
    /\ in_band ml its band
    /\ threat_alerts (committed w1) = threat_alerts (committed w) ++ [ta]
    /\ ThreatAlertDB.risk_level ta = band
    /\ ThreatAlertDB.user_id ta = user_id a
    /\ (clock_reads w < m < clock_reads w1)%nat
    /\ let refreshable :=
         promoted band ml its
         /\ exists i, In i (incidents (committed w))
                      /\ clock env m - 2 * usec_per_hour <= Incident.timestamp i
                      /\ active_incident_of (user_id a) i in
       (refreshable ->
        ThreatAlertDB.status ta = "escalated_to_incident"%string)
       /\ (~ refreshable ->
           ThreatAlertDB.status ta = "open"%string
           /\ incidents (committed w1) = incidents (committed w)).
Proof.
  intros Hrun Hstatus.
  destruct (known_or_not a (committed w)) as [Hu|Hu].
  2:{ rewrite (loaded_ingest_activity_unknown env a w Hu) in Hrun.
      discriminate Hrun. }
  rewrite (loaded_ingest_activity_known env a w Hu) in Hrun.
  destruct (loaded_analyse_cases env a (after_store a w))
    as (r & w' & Hr & _ & Hcases).
  rewrite Hr in Hrun.
  destruct Hcases
    as [[e ->]|[[-> _]|[[-> _]|(ml & expl & sd & now & naa & nta & n & m & fps'
                                & -> & Hset & Hnta & Hfp & Hcr & Hn & Hm)]]].
  - discriminate Hrun.
  - injection Hrun as <- _. discriminate Hstatus.
  - injection Hrun as <- _. discriminate Hstatus.
  - injection Hrun as <- <-. clear Hstatus.
    unfold settled in Hset. cbn [open_session committed clock_reads].
    destruct Hnta as (Hrisk & Hopen & _ & Huid).
    destruct Hcr as (_ & _ & _ & Hta & _ & _ & Hinc).
    cbn [session after_store threat_alerts incidents with_anomaly_fingerprints
         stored_db with_activity_logs clock_reads] in Hta, Hinc, Hn.
    unfold incident_to_refresh in Hta, Hinc. cbv zeta in Hta, Hinc.
    set (its := ScoreData.its_score sd) in *.
    set (band := risk_band ml its) in *.
    set (cutoff := clock env m - 2 * usec_per_hour) in *.
    pose proof (should_escalate_iff band ml its) as Hiff.
    pose proof (existing_incident_none cutoff (user_id a)
                  (incidents (committed w))) as Hnone.
    pose proof (existing_incident_some cutoff (user_id a)
                  (incidents (committed w))) as Hsome.
    exists ml, its, band. eexists.
    exists (match (if should_escalate band ml its
                   then existing_incident_at cutoff (user_id a)
                          (incidents (committed w))
                   else None) with
            | Some _ => ThreatAlertDB.set_status "escalated_to_incident" nta
            | None => nta
            end), m.
    split; [reflexivity|]. split; [reflexivity|]. split; [reflexivity|].
    split; [reflexivity|]. split; [apply risk_band_in_band|].
    rewrite <- Hset.
    split; [exact Hta|].
    destruct (should_escalate band ml its) eqn:E.
    + destruct (existing_incident_at cutoff (user_id a) (incidents (committed w)))
        as [e|].
      * split; [exact Hrisk|]. split; [exact Huid|]. split; [lia|].
        split; [reflexivity|]. intros Hno. exfalso. apply Hno.
        split; [apply Hiff; reflexivity|].
        destruct (Hsome e eq_refl) as (Hin & Ht & Hact). eauto.
      * split; [exact Hrisk|]. split; [exact Huid|]. split; [lia|].
        split.
        -- intros (_ & i & Hin & Ht & Hact). exfalso.
           apply (proj1 Hnone eq_refl i Hin). auto.
        -- intros _. split; [exact Hopen|exact Hinc].
    + split; [exact Hrisk|]. split; [exact Huid|]. split; [lia|].
      split.
      * intros (Hp & _). apply Hiff in Hp. discriminate Hp.
      * intros _. split; [exact Hopen|exact Hinc].
Qed.

Lemma promotion_needs_existing_incident_witness :
  let env := Fixture.env_of Fixture.ten_am (Fixture.flat_detector (9 # 10))
                            (Fixture.loaded (1 # 10)) in
  let r := Loaded.ingest_activity env Fixture.big_email Fixture.fresh in
  exists ta,
    threat_alerts (committed (snd r)) = [ta]
    /\ ThreatAlertDB.risk_level ta = "critical"%string
    /\ ThreatAlertDB.status ta = "open"%string
    /\ incidents (committed (snd r)) = [].
Proof.
  intros env r.
  assert (exists body payload,
            fst r = Ok200 body
            /\ field "status" body = Some (JStr "alert_generated")
            /\ field "alert" body = Some (JObj payload)
            /\ field "risk_level" payload = Some (JStr "critical"))
    as (body & payload & Hf & Hst & Hal & Hrl)
    by (vm_compute; eexists _, _; repeat split; reflexivity).
  assert (Loaded.ingest_activity env Fixture.big_email Fixture.fresh
          = (Ok200 body, snd r)) as Hrun.
  { rewrite <- Hf. subst r. apply surjective_pairing. }
  destruct (promotion_needs_existing_incident env Fixture.big_email
              Fixture.fresh (snd r) body Hrun Hst)
    as (ml & its & band & payload' & ta & m & _ & Hal' & _ & Hrl' & _ & Hta
        & Hrisk & _ & _ & _ & Hno).
  rewrite Hal in Hal'. injection Hal' as <-.
  rewrite Hrl in Hrl'. injection Hrl' as <-.
  destruct Hno as (Hs & Hinc).
  { intros (_ & i & Hin & _). exact Hin. }
  exists ta. split; [exact Hta|]. split; [exact Hrisk|]. split; [exact Hs|].
  exact Hinc.
Defined.

(** ** Suppression is keyed on the fingerprint *)

(** Everything after the store, when the fingerprint record carries a
    deadline that no clock read of this call reaches. *)
Lemma loaded_analyse_suppressed (env : Env) (a : UserActivity) (w : World)
    (fp : AnomalyFingerprint.t) (d : Z) :
  let h := generate_fingerprint env a (user_id a) in
  first_where (has_hash h) (anomaly_fingerprints (session w)) = Some fp ->
  AnomalyFingerprint.suppressed_until fp = Some d ->
  (forall m, (clock_reads w <= m
              < clock_reads (snd (Loaded.analyse env a w)))%nat ->
             clock env m < d) ->
  exists now w',
    Loaded.analyse env a w = (inr suppressed_response, w')
    /\ session w'
       = with_anomaly_fingerprints
           (update_first (has_hash h) (AnomalyFingerprint.touch now)
              (anomaly_fingerprints (session w)))
           (session w)
    /\ committed w' = session w'
    /\ user_baselines w'
       = _update_user_baseline (clock env (S (clock_reads w))) (user_id a) a
           (user_baselines w).
Proof.
  intros h Hfp Hd Hwin.
  destruct (classify_run env a w) as (v & wc & Hrun1 & Hc1 & Hs1).
  pose proof (classify_clock env a (clock_reads w) w (Nat.le_refl _)) as Hk1.
  pose proof (classify_baselines env a w) as Hb1.
  rewrite Hrun1 in Hk1, Hb1. cbn [snd] in Hk1, Hb1.
  unfold Loaded.analyse in *. rewrite (bind_run _ _ _ _ _ Hrun1) in *.
  fold h in Hwin |- *.
  rewrite <- Hs1 in Hfp.
  destruct (fingerprint_bookkeeping_found env a h wc fp d Hfp Hd)
    as (w2 & Hk2 & Hb2 & Hs2 & [(Hlt & Hrun2 & Hc2)|(Hge & [Hrun2|Hrun2])]).
  - rewrite (bind_run _ _ _ _ _ Hrun2). cbn [ret].
    exists (clock env (clock_reads wc)), w2.
    split; [reflexivity|]. rewrite Hs2, Hs1, Hb2.
    split; [reflexivity|]. split; [rewrite Hc2, Hs2, Hs1; reflexivity|exact Hb1].
  - exfalso. rewrite (bind_run _ _ _ _ _ Hrun2) in Hwin. cbn [ret snd] in Hwin.
    specialize (Hwin (S (clock_reads wc))). lia.
  - exfalso. rewrite (bind_run _ _ _ _ _ Hrun2) in Hwin.
    pose proof (loaded_respond_clock env a v h (S (S (clock_reads wc))) w2) as Hk3.
    cbv beta in Hk3. rewrite Hk2 in Hk3. specialize (Hk3 (Nat.le_refl _)).
    specialize (Hwin (S (clock_reads wc))). lia.
Qed.

Lemma loaded_ingest_activity_clock (env : Env) (a : UserActivity) (w : World) :
  known_user a (committed w) ->
  clock_reads (snd (Loaded.ingest_activity env a w))
  = clock_reads (snd (Loaded.analyse env a (after_store a w))).
Proof.
  intros Hu. rewrite (loaded_ingest_activity_known env a w Hu).
  destruct (Loaded.analyse env a (after_store a w)) as [[e|body] w'];
    reflexivity.
Qed.

(** X13. Suppression is keyed on the fingerprint, not on the event.
    Once a post has been answered with [alert_generated], any later
    activity of the same user with the same fingerprint - whatever its
    timestamp or the fields the fingerprint leaves out - is answered
    [suppressed] as long as every clock read of that call is before the
    deadline. The call stores the activity and touches the fingerprint
    record; it creates no alert of either kind and refreshes no ITS. *)
Theorem same_fingerprint_is_suppressed (env : Env) (a a' : UserActivity)
    (w w1 : World) (body1 : list (string * Json)) :
  let h := generate_fingerprint env a (user_id a) in
  let r2 := Loaded.ingest_activity env a' w1 in
  Loaded.ingest_activity env a w = (Ok200 body1, w1) ->
  field "status" body1 = Some (JStr "alert_generated") ->
  user_id a' = user_id a ->
  generate_fingerprint env a' (user_id a') = h ->
  exists x n,
    let deadline := clock env n + ALERT_SUPPRESSION_HOURS * usec_per_hour in
    (clock_reads w <= n < clock_reads w1)%nat
    /\ anomaly_alerts (committed w1) = anomaly_alerts (committed w) ++ [x]
    /\ AnomalyAlert.anomaly_fingerprint x = h
    /\ AnomalyAlert.suppressed_until x = Some deadline
    /\ ((forall m, (clock_reads w1 <= m < clock_reads (snd r2))%nat ->
                   clock env m < deadline) ->
        exists now,
          fst r2 = Ok200 suppressed_response
          /\ committed (snd r2)
             = with_anomaly_fingerprints
                 (update_first (has_hash h) (AnomalyFingerprint.touch now)
                    (anomaly_fingerprints (committed w1)))
                 (stored_db a' (committed w1))).
Proof.
  intros h r2 Hrun Hstatus Huid Hsame. subst r2.
  destruct (known_or_not a (committed w)) as [Hu|Hu].
  2:{ rewrite (loaded_ingest_activity_unknown env a w Hu) in Hrun.
      discriminate Hrun. }
  rewrite (loaded_ingest_activity_known env a w Hu) in Hrun.
  destruct (loaded_analyse_cases env a (after_store a w))
    as (r & w' & Hr & _ & Hcases).
  rewrite Hr in Hrun. fold h in Hcases.
  destruct Hcases
    as [[e ->]|[[-> _]|[[-> _]|(ml & expl & sd & now & naa & nta & n & m & fps'
                                & -> & Hset & Hnta & Hfp & Hcr & Hn & Hm)]]].
  - discriminate Hrun.
  - injection Hrun as <- _. discriminate Hstatus.
  - injection Hrun as <- _. discriminate Hstatus.
  - injection Hrun as _ <-. clear Hstatus.
    unfold settled in Hset.
    destruct Hfp as (fp0 & Hfp0).
    destruct Hcr as (_ & _ & (x & Haa & Hxh & Hxd) & _ & (g & Hfps & Hg)
                     & (t & Husers) & _).
    cbn [session after_store anomaly_alerts anomaly_fingerprints users
         with_anomaly_fingerprints stored_db with_activity_logs] in Haa, Hfps, Husers.
    cbn [clock_reads after_store] in Hn.
    cbn [open_session committed clock_reads]. rewrite <- Hset.
    assert (first_where (has_hash h) (anomaly_fingerprints (session w'))
            = Some (g fp0)) as Hfp1.
    { rewrite Hfps, first_where_update_first, Hfp0; [reflexivity|].
      intros y Hy. unfold has_hash in *. rewrite (proj1 (Hg y)). exact Hy. }
    exists x, n. cbv zeta.
    split; [lia|]. split; [exact Haa|]. split; [exact Hxh|].
    split; [exact Hxd|].
    intros Hwin.
    assert (known_user a' (committed (open_session w'))) as Hu1.
    { destruct Hu as [u Hu]. exists (User.set_score (ScoreData.its_score sd)
                                       (ScoreData.risk_level sd) t u).
      cbn [open_session committed]. rewrite <- Hset, Husers, Huid.
      rewrite first_where_update_first, Hu; [reflexivity|].
      intros y Hy. exact Hy. }
    rewrite (loaded_ingest_activity_clock env a' (open_session w') Hu1) in Hwin.
    rewrite (loaded_ingest_activity_known env a' (open_session w') Hu1).
    destruct (loaded_analyse_suppressed env a' (after_store a' (open_session w'))
                (g fp0) (clock env n + ALERT_SUPPRESSION_HOURS * usec_per_hour))
      as (now2 & w2 & Hrun2 & Hs2 & Hc2 & Hb2).
    { rewrite Hsame.
      cbn [session after_store anomaly_fingerprints stored_db with_activity_logs
           open_session committed]. rewrite <- Hset. exact Hfp1. }
    { apply Hg. }
    { exact Hwin. }
    rewrite Hrun2. cbn [fst snd open_session committed user_baselines].
    cbn [session after_store open_session committed user_baselines clock_reads]
      in Hs2, Hb2.
    rewrite <- Hset in Hs2. rewrite Hsame in Hs2.
    exists now2. split; [reflexivity|].
    rewrite Hc2, Hs2. reflexivity.
Qed.

Lemma same_fingerprint_is_suppressed_witness :
  let env := Fixture.env_of Fixture.ten_am (Fixture.flat_detector (2 # 10))
                            (Fixture.loaded (1 # 10)) in
  let r1 := Loaded.ingest_activity env Fixture.big_email Fixture.fresh in
  let r2 := Loaded.ingest_activity env Sample.bigger_email (snd r1) in
  (exists body1, fst r1 = Ok200 body1
                 /\ field "status" body1 = Some (JStr "alert_generated"))
  /\ fst r2 = Ok200 suppressed_response
  /\ anomaly_alerts (committed (snd r2)) = anomaly_alerts (committed (snd r1))
  /\ threat_alerts (committed (snd r2)) = threat_alerts (committed (snd r1))
  /\ users (committed (snd r2)) = users (committed (snd r1))
  /\ length (activity_logs (committed (snd r2))) = 2%nat.
Proof.
  intros env r1 r2.
  assert (exists body1, fst r1 = Ok200 body1
                        /\ field "status" body1 = Some (JStr "alert_generated"))
    as (body1 & Hf & Hst)
    by (vm_compute; eexists; split; reflexivity).
  assert (Loaded.ingest_activity env Fixture.big_email Fixture.fresh
          = (Ok200 body1, snd r1)) as Hrun.
  { rewrite <- Hf. subst r1. apply surjective_pairing. }
  assert (clock_reads (snd r2) <= 20)%nat as Hreads
    by (vm_compute; lia).
  assert (length (activity_logs (committed (snd r1))) = 1%nat) as Hlen
    by (vm_compute; reflexivity).
  destruct (same_fingerprint_is_suppressed env Fixture.big_email
              Sample.bigger_email Fixture.fresh (snd r1) body1 Hrun Hst)
    as (x & n & Hn & _ & _ & _ & Hsecond).
  - reflexivity.
  - vm_compute. reflexivity.
  - destruct Hsecond as (now & Hfst & Hdb).
    { intros m Hm. fold r2 in Hm.
      change (ALERT_SUPPRESSION_HOURS * usec_per_hour) with 86400000000.
      subst env. cbn [clock Fixture.env_of]. unfold Fixture.clock_from. lia. }
    split; [exists body1; split; [exact Hf|exact Hst]|].
    split; [exact Hfst|]. fold r2 in Hdb. rewrite Hdb.
    cbn [anomaly_alerts threat_alerts users activity_logs
         with_anomaly_fingerprints stored_db with_activity_logs].
    rewrite length_app, Hlen. auto.
Defined.

(* ================================================================= *)
(** * The manual escalation endpoint *)

Lemma next_id_pos {A} (key : A -> Z) (l : list A) : 0 < next_id key l.
Proof.
  unfold next_id. induction l as [|x l IH]; cbn [fold_right]; lia.
Qed.

Lemma first_where_fresh_last {A} (key : A -> Z) (l : list A) (y : A) :
  key y = next_id key l ->
  first_where (fun x => key x =? key y) (l ++ [y]) = Some y.
Proof.
  intros Hy. apply first_where_app_none; [|apply Z.eqb_refl].
  unfold first_where.
  destruct (find (fun x => key x =? key y) l) as [x|] eqn:E; [|reflexivity].
  apply find_some in E. destruct E as [Hin Hx]. apply Z.eqb_eq in Hx.
  pose proof (next_id_fresh key l x Hin). lia.
Qed.

(** X14. [POST /api/anomaly-alerts/{id}/escalate-to-threat] can be
    repeated safely. After a call that answered [escalated] with threat
    [t], the threat is stored, at most one threat was added, and a
    second call for the same alert answers with the same threat - as
    [already_escalated] with its id, or as [escalated] again when [t]
    was an older threat of the same fingerprint - and writes nothing. *)
Theorem manual_escalation_is_idempotent (env : Env) (alert_id : Z)
    (w w1 : World) (t : Threat.t) :
  escalate_alert_to_threat env alert_id w = (inr (escalated_to t), w1) ->
  exists r2 w2,
    escalate_alert_to_threat env alert_id w1 = (inr r2, w2)
    /\ (r2 = escalated_to t
        \/ r2 = already_escalated_to (Some (Threat.threat_id t)))
    /\ committed w2 = committed w1
    /\ In t (threats (committed w1))
    /\ (length (threats (committed w1)) <= S (length (threats (committed w))))%nat.
Proof.
  intros Hrun. unfold escalate_alert_to_threat in Hrun.
  destruct (escalate_alert_to_threat_body env alert_id (open_session w))
    as [r w'] eqn:Hbody.
  injection Hrun as -> <-.
  pose proof Hbody as Hfirst.
  unfold escalate_alert_to_threat_body, bind at 1, get_db in Hbody.
  cbn [session open_session] in Hbody.
  destruct (first_where (fun x => AnomalyAlert.alert_id x =? alert_id)
              (anomaly_alerts (committed w))) as [alert|] eqn:Hal;
    [|discriminate Hbody].
  destruct (first_where_true _ _ _ Hal) as [_ Hid]. apply Z.eqb_eq in Hid.
  destruct (truthy_id (AnomalyAlert.escalated_to_threat_id alert)) eqn:Htr;
    [discriminate Hbody|].
  cbv zeta in Hbody. unfold bind at 1 in Hbody.
  destruct (escalate_to_threat_cases env alert (escalation_activity alert)
              (AnomalyAlert.ml_anomaly_score alert)
              ("ML Score: " +:+ fmt env ".2%" (AnomalyAlert.ml_anomaly_score alert))
              (open_session w))
    as (r & w'' & Hesc & Hcases).
  rewrite Hesc in Hbody.
  destruct Hcases as [(t0 & Hfind & -> & ->)
                     |[(_ & -> & _)
                      |(Hfind & t' & -> & Hfp & Htid & _ & _ & Hsess & Hcomm)]].
  - (* an older threat of the same fingerprint *)
    cbn [ret] in Hbody. injection Hbody as <- <-.
    exists (escalated_to t0), (open_session (open_session w)).
    unfold escalate_alert_to_threat.
    change (open_session (open_session (open_session w))) with (open_session w).
    rewrite Hfirst.
    split; [reflexivity|]. split; [left; reflexivity|].
    split; [reflexivity|].
    destruct (first_where_true _ _ _ Hfind) as [Hin _].
    cbn [session open_session committed] in Hin |- *.
    split; [exact Hin|]. lia.
  - discriminate Hbody.
  - (* a new threat, linked to the alert *)
    cbn [ret] in Hbody. injection Hbody as <- <-.
    cbn [session open_session committed] in Hsess, Hcomm, Hfind, Htid.
    set (d := threat_effect alert t' (committed w)) in *.
    assert (first_where (fun x => AnomalyAlert.alert_id x =? alert_id)
              (anomaly_alerts d)
            = Some (AnomalyAlert.link_threat (Threat.threat_id t') alert))
      as Hal2.
    { subst d. unfold threat_effect.
      cbn [anomaly_alerts with_anomaly_fingerprints with_anomaly_alerts].
      rewrite Hid, first_where_update_first, Hal; [reflexivity|].
      intros y Hy. exact Hy. }
    assert (first_where (fun x => Threat.threat_id x =? Threat.threat_id t')
              (threats d) = Some t') as Hth.
    { subst d. unfold threat_effect.
      cbn [threats with_anomaly_fingerprints with_anomaly_alerts with_threats].
      apply first_where_fresh_last. exact Htid. }
    pose proof (next_id_pos Threat.threat_id (threats (committed w))) as Hpos.
    exists (already_escalated_to (Some (Threat.threat_id t'))),
           (open_session (open_session w'')).
    unfold escalate_alert_to_threat, escalate_alert_to_threat_body, bind at 1, get_db.
    cbn [session open_session committed]. rewrite Hcomm, Hsess, Hal2.
    cbn [AnomalyAlert.escalated_to_threat_id AnomalyAlert.link_threat truthy_id].
    assert ((Threat.threat_id t' =? 0) = false) as -> by (apply Z.eqb_neq; lia).
    cbn [negb default from_option id]. cbv zeta.
    change (from_option id 0 (Some (Threat.threat_id t')))
      with (Threat.threat_id t').
    rewrite Hth. cbn [ret option_map].
    split; [reflexivity|]. split; [right; reflexivity|].
    cbn [session open_session committed].
    split; [reflexivity|].
    subst d. unfold threat_effect.
    cbn [threats with_anomaly_fingerprints with_anomaly_alerts with_threats].
    split; [apply in_or_app; right; left; reflexivity|].
    rewrite length_app. cbn [length]. lia.
Qed.

Lemma manual_escalation_is_idempotent_witness :
  let env := Fixture.env_of Fixture.ten_am (Fixture.flat_detector 0)
                            (Fixture.loaded (1 # 10)) in
  let r1 := escalate_alert_to_threat env 1 Sample.with_alert in
  exists t r2,
    fst r1 = inr (escalated_to t)
    /\ fst (escalate_alert_to_threat env 1 (snd r1)) = inr r2
    /\ (r2 = escalated_to t
        \/ r2 = already_escalated_to (Some (Threat.threat_id t)))
    /\ threats (committed (snd r1)) = [t].
Proof.
  intros env r1.
  assert (exists t, fst r1 = inr (escalated_to t)
                    /\ threats (committed (snd r1)) = [t])
    as (t & Hf & Hth)
    by (vm_compute; eexists; split; reflexivity).
  assert (escalate_alert_to_threat env 1 Sample.with_alert
          = (inr (escalated_to t), snd r1)) as Hrun.
  { rewrite <- Hf. subst r1. apply surjective_pairing. }
  destruct (manual_escalation_is_idempotent env 1 Sample.with_alert (snd r1) t Hrun)
    as (r2 & w2 & Hrun2 & Hr2 & _).
  exists t, r2. split; [exact Hf|]. rewrite Hrun2.
  split; [reflexivity|]. split; [exact Hr2|exact Hth].
Defined.

(* ================================================================= *)
(** * The agent's round: nothing is lost while the queue has room *)

Section AgentRound.
Context {Event Result : Type}.
Variable created : Result -> bool.
Variable net : nat -> Event -> Outcome Result.

Local Abbreviation AG := (ActivityAggregator Event).










Lemma created_never (es : list Event) (step : AG -> Event -> AG) (ag : AG) :
  (forall ag e,
     anomalies_detected (stats (step ag e)) = anomalies_detected (stats ag)
     /\ alerts_sent (stats (step ag e)) = alerts_sent (stats ag)) ->
  anomalies_detected (stats (fold_left step es ag)) = anomalies_detected (stats ag)
  /\ alerts_sent (stats (fold_left step es ag)) = alerts_sent (stats ag).
Proof.
  intros Hstep. revert ag. induction es as [|e es IH]; intros ag; cbn [fold_left];
    [auto|].
  destruct (IH (step ag e)) as [-> ->]. apply Hstep.
Qed.

(** When no delivered result passes the agent's test, a round leaves
    the two alert counters alone. *)
Lemma round_counts_no_alert (ag : AG) :
  (forall n e r, net n e = Delivered r -> created r = false) ->
  let ag' := _send_activities_batch created net ag in
  anomalies_detected (stats ag') = anomalies_detected (stats ag)
  /\ alerts_sent (stats ag') = alerts_sent (stats ag).
Proof.
  intros Hnet ag'. subst ag'.
  assert (forall ag e,
            anomalies_detected (stats (retry_one created net ag e))
            = anomalies_detected (stats ag)
            /\ alerts_sent (stats (retry_one created net ag e))
               = alerts_sent (stats ag)) as Hretry.
  { intros ag0 e. unfold retry_one, _send_activity.
    destruct (net (length (posts ag0)) e) eqn:E;
      cbn [stats set_stats set_connection set_local_queue];
      try (destruct (Nat.ltb _ _); cbn; auto).
    unfold count_alert. rewrite (Hnet _ _ _ E). cbn. auto. }
  assert (forall ag e,
            anomalies_detected (stats (send_one created net ag e))
            = anomalies_detected (stats ag)
            /\ alerts_sent (stats (send_one created net ag e))
               = alerts_sent (stats ag)) as Hsend.
  { intros ag0 e. unfold send_one, _send_activity.
    destruct (net (length (posts ag0)) e) eqn:E;
      cbn [stats set_stats set_connection set_local_queue local_queue];
      try (destruct (Nat.ltb _ _); cbn; auto).
    unfold count_alert. rewrite (Hnet _ _ _ E). cbn. auto. }
  assert (anomalies_detected (stats (retry_phase created net ag))
          = anomalies_detected (stats ag)
          /\ alerts_sent (stats (retry_phase created net ag))
             = alerts_sent (stats ag)) as [H1 H2].
  { unfold retry_phase. destruct (local_queue ag) as [|e es]; [auto|].
    apply (created_never (e :: es) _ (set_local_queue [] ag) Hretry). }
  unfold _send_activities_batch.
  destruct (alert_queue (retry_phase created net ag)) as [|e es]; [auto|].
  match goal with
  | |- context [fold_left _ _ ?ag0] =>
      destruct (created_never (e :: es) _ ag0 Hsend) as [-> ->]
  end.
  cbn [stats]. auto.
Qed.
End AgentRound.


(* ================================================================= *)
(** * The agent's alert counters and the backend's answers *)

(** Every 200 body of the endpoint is one of three literals. *)
Lemma loaded_ingest_bodies (env : Env) (a : UserActivity) (w w1 : World)
    (body : list (string * Json)) :
  Loaded.ingest_activity env a w = (Ok200 body, w1) ->
  body = suppressed_response
  \/ body = already_escalated_response
  \/ exists ta aa sd risk anomalies ts ml expl,
       body = alert_body ta aa sd risk anomalies ts ml expl.
Proof.
  intros Hrun. destruct (known_or_not a (committed w)) as [Hu|Hu].
  - rewrite (loaded_ingest_activity_known env a w Hu) in Hrun.
    destruct (loaded_analyse_cases env a (after_store a w))
      as (r & w' & Hr & _ & Hcases).
    rewrite Hr in Hrun.
    destruct Hcases
      as [[e ->]|[[-> _]|[[-> _]|(ml & expl & sd & now & naa & nta & n & m
                                  & fps' & -> & _)]]].
    + discriminate Hrun.
    + injection Hrun as <- _. auto.
    + injection Hrun as <- _. auto.
    + injection Hrun as <- _. right; right. eauto 10.
  - rewrite (loaded_ingest_activity_unknown env a w Hu) in Hrun.
    discriminate Hrun.
Qed.

Lemma ingest_answer_not_created (body : list (string * Json)) :
  ingest_can_answer body -> status_is_created body = false.
Proof.
  intros (env & a & w & w1 & Hrun).
  destruct (loaded_ingest_bodies env a w w1 body Hrun)
    as [->|[->|(ta & aa & sd & risk & an & ts & ml & expl & ->)]];
    reflexivity.
Qed.

(** X16. The agent counts an alert only for a result whose status is
    [anomaly_alert_created], and the ingest endpoint never answers with
    that status: whatever is queued and however the POSTs end, as long
    as every delivered result is a body the endpoint can answer with, a
    round leaves [anomalies_detected] and [alerts_sent] as they were. *)
Theorem agent_never_counts_an_alert
    (net : nat -> UserActivity -> Outcome (list (string * Json)))
    (ag : ActivityAggregator UserActivity) :
  (forall n e r, net n e = Delivered r -> ingest_can_answer r) ->
  let ag' := _send_activities_batch status_is_created net ag in
  anomalies_detected (stats ag') = anomalies_detected (stats ag)
  /\ alerts_sent (stats ag') = alerts_sent (stats ag).
Proof.
  intros Hnet. apply round_counts_no_alert.
  intros n e r Hr. apply ingest_answer_not_created. exact (Hnet n e r Hr).
Qed.

Lemma agent_never_counts_an_alert_witness :
  let env := Fixture.env_of Fixture.ten_am (Fixture.flat_detector (9 # 10))
                            (Fixture.loaded (1 # 10)) in
  let r := Loaded.ingest_activity env Fixture.big_email Fixture.fresh in
  exists body,
    fst r = Ok200 body
    /\ field "status" body = Some (JStr "alert_generated")
    /\ let ag' := _send_activities_batch status_is_created
                    (fun _ _ => Delivered body) Sample.idle_agent in
       anomalies_detected (stats ag') = 0 /\ alerts_sent (stats ag') = 0.
Proof.
  intros env r.
  assert (exists body, fst r = Ok200 body
                       /\ field "status" body = Some (JStr "alert_generated"))
    as (body & Hf & Hst)
    by (vm_compute; eexists; split; reflexivity).
  exists body. split; [exact Hf|]. split; [exact Hst|].
  apply (agent_never_counts_an_alert (fun _ _ => Delivered body)
           Sample.idle_agent).
  intros n e r0 [= <-].
  exists env, Fixture.big_email, Fixture.fresh, (snd r).
  rewrite <- Hf. subst r. apply surjective_pairing.
Defined.

(* ================================================================= *)
(** * What every post leaves behind *)

Lemma known_user_ids (a : UserActivity) (d : DB) :
  known_user a d <-> In (user_id a) (map User.user_id (users d)).
Proof.
  unfold known_user, first_where. split.
  - intros [u Hu]. apply find_some in Hu. destruct Hu as [Hin Hp].
    apply String.eqb_eq in Hp. rewrite <- Hp. apply in_map. exact Hin.
  - intros Hin. apply in_map_iff in Hin. destruct Hin as (u & Hid & Hin).
    destruct (find (fun u0 => String.eqb (User.user_id u0) (user_id a)) (users d))
      as [u'|] eqn:E; [eauto|].
    exfalso. pose proof (find_none _ _ E u Hin) as Hf. cbv beta in Hf.
    rewrite Hid, String.eqb_refl in Hf. discriminate Hf.
Qed.

Lemma loaded_analyse_keeps_logs_and_users (env : Env) (a : UserActivity)
    (logs : list ActivityLog.t) (ids : list string) :
  keeps (fun w => activity_logs (session w) = logs
                  /\ activity_logs (committed w) = logs
                  /\ map User.user_id (users (session w)) = ids
                  /\ map User.user_id (users (committed w)) = ids)
        (Loaded.analyse env a).
Proof.
  loaded_procedures.
  repeat first
    [ keeps_step
    | keeps_field
    | lazymatch goal with
      | |- keeps _ (modify_baselines _) => intros ? ?; assumption
      | |- keeps _ (modify_db _) =>
          let H1 := fresh in let H2 := fresh in
          let H3 := fresh in let H4 := fresh in
          intros ? (H1 & H2 & H3 & H4); cbn;
          repeat split;
          first [assumption
                |rewrite update_first_map_key; [assumption|];
                 intros; reflexivity]
      end ].
Qed.

(** X17. A post for a known user is stored and learned from whatever
    the endpoint answers, a 500 included: the activity log has grown by
    exactly the posted activity, the detector's baseline of the user has
    been updated once, and the users table holds the same users, so the
    same holds for the next post. *)
Theorem every_post_is_stored_and_learned (env : Env) (a : UserActivity)
    (w : World) :
  known_user a (committed w) ->
  let w1 := snd (Loaded.ingest_activity env a w) in
  activity_logs (committed w1)
  = activity_logs (committed w) ++ [activity_log_of (committed w) a]
  /\ user_baselines w1
     = _update_user_baseline (clock env (S (clock_reads w))) (user_id a) a
         (user_baselines w)
  /\ map User.user_id (users (committed w1))
     = map User.user_id (users (committed w))
  /\ (forall a', known_user a' (committed w) -> known_user a' (committed w1)).
Proof.
  intros Hu w1. subst w1.
  rewrite (loaded_ingest_activity_known env a w Hu).
  pose proof (loaded_analyse_keeps_logs_and_users env a
                (activity_logs (committed w) ++ [activity_log_of (committed w) a])
                (map User.user_id (users (committed w)))
                (after_store a w)
                (conj eq_refl (conj eq_refl (conj eq_refl eq_refl))))
    as (_ & Hlogs & _ & Hids).
  destruct (loaded_analyse_cases env a (after_store a w))
    as (r & w' & Hr & Hb & _).
  rewrite classify_baselines in Hb. cbn [after_store user_baselines clock_reads] in Hb.
  rewrite Hr in Hlogs, Hids |- *. cbn [snd] in Hlogs, Hids.
  assert (committed (open_session w') = committed w') as Hopen by reflexivity.
  assert (user_baselines (open_session w') = user_baselines w') as Hopenb
    by reflexivity.
  destruct r as [e|body]; cbn [snd]; rewrite Hopen, Hopenb;
    (split; [exact Hlogs|]); (split; [exact Hb|]); (split; [exact Hids|]);
    intros a' Ha'; apply known_user_ids; rewrite Hids;
    apply known_user_ids; exact Ha'.
Qed.

Lemma every_post_is_stored_and_learned_witness :
  let env := Fixture.env_of Fixture.ten_am (Fixture.flat_detector 0)
                            (Fixture.loaded (1 # 10)) in
  let r := Loaded.ingest_activity env Fixture.big_email Fixture.fresh in
  match fst r with HttpError code _ => code = 500 | Ok200 _ => False end
  /\ length (activity_logs (committed (snd r))) = 1%nat
  /\ known_user Fixture.big_email (committed (snd r)).
Proof.
  intros env r.
  assert (known_user Fixture.big_email (committed Fixture.fresh)) as Hu
    by (apply known_user_ids; vm_compute; auto).
  destruct (every_post_is_stored_and_learned env Fixture.big_email
              Fixture.fresh Hu) as (Hlogs & _ & _ & Hknown).
  fold r in Hlogs, Hknown.
  split; [vm_compute; reflexivity|].
  split; [rewrite Hlogs; reflexivity|].
  apply Hknown. exact Hu.
Defined.

(* ================================================================= *)
(** * An escalated fingerprint raises no further alert *)

Lemma first_where_update_first_other {A} (p q : A -> bool) (f : A -> A)
    (l : list A) (x : A) :
  (forall y, p (f y) = p y) ->
  first_where p l = Some x ->
  first_where p (update_first q f l) = Some x
  \/ first_where p (update_first q f l) = Some (f x).
Proof.
  intros Hf. unfold first_where.
  induction l as [|y l IH]; cbn; [discriminate|].
  destruct (q y) eqn:Eq; cbn.
  - rewrite Hf. destruct (p y); [intros [= ->]; auto|auto].
  - destruct (p y); [auto|exact IH].
Qed.

Lemma muted_in_update (h : string) (q : AnomalyFingerprint.t -> bool)
    (f : AnomalyFingerprint.t -> AnomalyFingerprint.t)
    (fps : list AnomalyFingerprint.t) :
  (forall y, AnomalyFingerprint.fingerprint_hash (f y)
             = AnomalyFingerprint.fingerprint_hash y) ->
  (forall y, AnomalyFingerprint.escalated y = true ->
             AnomalyFingerprint.escalated (f y) = true) ->
  muted_in h fps -> muted_in h (update_first q f fps).
Proof.
  intros Hh He (fp & Hfp & Hesc). unfold muted_in.
  destruct (first_where_update_first_other (has_hash h) q f fps fp) as [H|H].
  - intros y. unfold has_hash. rewrite Hh. reflexivity.
  - exact Hfp.
  - eauto.
  - eauto.
Qed.

Lemma muted_in_app (h : string) (fps fps' : list AnomalyFingerprint.t) :
  muted_in h fps -> muted_in h (fps ++ fps').
Proof.
  intros (fp & Hfp & Hesc). exists fp.
  split; [apply first_where_app_some; exact Hfp|exact Hesc].
Qed.

Lemma loaded_ingest_handler_keeps_muted (env : Env) (a : UserActivity)
    (h : string) :
  keeps (fun w => muted h (session w) /\ muted h (committed w))
        (Loaded.ingest_handler env a).
Proof.
  loaded_procedures. unfold muted.
  repeat first
    [ keeps_step
    | keeps_field
    | lazymatch goal with
      | |- keeps _ (modify_baselines _) => intros ? ?; assumption
      | |- keeps _ (modify_db _) =>
          let H1 := fresh in let H2 := fresh in
          intros ? [H1 H2]; split; cbn;
          [first [assumption
                 |apply muted_in_app; assumption
                 |apply muted_in_update;
                  [intros; reflexivity|intros ? ?; cbn; auto|assumption]]
          |assumption]
      end ].
Qed.

Lemma loaded_ingest_keeps_muted (env : Env) (a : UserActivity) (h : string)
    (w : World) :
  muted h (committed w) ->
  muted h (committed (snd (Loaded.ingest_activity env a w))).
Proof.
  intros Hm. unfold Loaded.ingest_activity.
  pose proof (loaded_ingest_handler_keeps_muted env a h (open_session w)
                (conj Hm Hm)) as [_ Hk].
  destruct (Loaded.ingest_handler env a (open_session w)) as [[[]|body] w'];
    exact Hk.
Qed.

(** The fingerprint checks on a record that is flagged as escalated
    always return early. *)
Lemma fingerprint_bookkeeping_muted (env : Env) (a : UserActivity) (h : string)
    (w : World) :
  muted h (session w) ->
  exists now resp w',
    fingerprint_bookkeeping env a h w = (inr (Some resp), w')
    /\ (resp = suppressed_response \/ resp = already_escalated_response)
    /\ session w'
       = with_anomaly_fingerprints
           (update_first (has_hash h) (AnomalyFingerprint.touch now)
              (anomaly_fingerprints (session w)))
           (session w)
    /\ committed w' = session w'.
Proof.
  intros (fp & Hfp & Hesc).
  destruct (fingerprint_bookkeeping env a h w) as [r w'] eqn:Hrun.
  unfold fingerprint_bookkeeping, bind at 1, get_db in Hrun. rewrite Hfp in Hrun.
  unfold bind, datetime_now, modify_db, commit in Hrun.
  cbn [session committed user_baselines clock_reads] in Hrun. rewrite Hesc in Hrun.
  exists (clock env (clock_reads w)).
  destruct (AnomalyFingerprint.suppressed_until fp) as [d|].
  - cbn [ret clock_reads] in Hrun.
    destruct (_ <? d); cbn [ret session committed user_baselines clock_reads] in Hrun;
      injection Hrun as <- <-; eexists _, _; (split; [reflexivity|]);
      cbn [session committed]; auto.
  - cbn [ret session committed user_baselines clock_reads] in Hrun.
    injection Hrun as <- <-. eexists _, _. split; [reflexivity|].
    cbn [session committed]. auto.
Qed.

(** X18. Once the record of a fingerprint is flagged as escalated, no
    post raises an alert for that fingerprint again: the flag survives
    every sequence of posts, and an activity of a known user with that
    fingerprint is then answered [suppressed] or [already_escalated];
    all such a call changes is the activity log and the last-seen and
    count of the record. *)
Theorem escalated_fingerprint_is_muted (env : Env) (h : string)
    (posts : list UserActivity) (a : UserActivity) (w : World) :
  muted h (committed w) ->
  let w' := after_posts env posts w in
  muted h (committed w')
  /\ (generate_fingerprint env a (user_id a) = h ->
      known_user a (committed w') ->
      exists now,
        (fst (Loaded.ingest_activity env a w') = Ok200 suppressed_response
         \/ fst (Loaded.ingest_activity env a w')
            = Ok200 already_escalated_response)
        /\ committed (snd (Loaded.ingest_activity env a w'))
           = with_anomaly_fingerprints
               (update_first (has_hash h) (AnomalyFingerprint.touch now)
                  (anomaly_fingerprints (committed w')))
               (stored_db a (committed w'))).
Proof.
  intros Hm w'.
  assert (muted h (committed w')) as Hm'.
  { subst w'. unfold after_posts. revert w Hm.
    induction posts as [|p posts IH]; intros w Hm; cbn [fold_left];
      [exact Hm|].
    apply IH, loaded_ingest_keeps_muted, Hm. }
  split; [exact Hm'|]. intros Hfp Hu.
  rewrite (loaded_ingest_activity_known env a w' Hu).
  unfold Loaded.analyse.
  destruct (classify_run env a (after_store a w'))
    as (v & wc & Hrun1 & Hc1 & Hs1).
  rewrite (bind_run _ _ _ _ _ Hrun1), Hfp.
  destruct (fingerprint_bookkeeping_muted env a h wc)
    as (now & resp & w2 & Hrun2 & Hresp & Hs2 & Hc2).
  { rewrite Hs1. exact Hm'. }
  rewrite (bind_run _ _ _ _ _ Hrun2). cbn [ret fst snd open_session committed].
  exists now. split.
  - destruct Hresp as [->| ->]; auto.
  - rewrite Hc2, Hs2, Hs1. reflexivity.
Qed.

Lemma escalated_fingerprint_is_muted_witness :
  let env := Sample.slow_env in
  let h := generate_fingerprint env Fixture.big_email "U002" in
  let w1 := snd (Loaded.ingest_activity env Fixture.big_email Fixture.fresh) in
  let w2 := after_posts env [Sample.bigger_email] w1 in
  let r := Loaded.ingest_activity env Fixture.big_email w2 in
  muted h (committed w1)
  /\ (fst r = Ok200 suppressed_response
      \/ fst r = Ok200 already_escalated_response)
  /\ anomaly_alerts (committed (snd r)) = anomaly_alerts (committed w1)
  /\ length (activity_logs (committed (snd r))) = 3%nat.
Proof.
  intros env h w1 w2 r.
  assert (muted h (committed w1)) as Hm.
  { assert (match first_where (has_hash h) (anomaly_fingerprints (committed w1)) with
            | Some fp => AnomalyFingerprint.escalated fp = true
            | None => False
            end) as Hc by (vm_compute; reflexivity).
    unfold muted, muted_in.
    destruct (first_where (has_hash h) (anomaly_fingerprints (committed w1)))
      as [fp|]; [exists fp; auto|destruct Hc]. }
  split; [exact Hm|].
  destruct (escalated_fingerprint_is_muted env h [Sample.bigger_email]
              Fixture.big_email w1 Hm) as [_ Hpost].
  destruct Hpost as (now & Hresp & Hdb).
  - reflexivity.
  - apply known_user_ids. vm_compute. auto.
  - fold w2 in Hresp, Hdb. fold r in Hresp, Hdb.
    split; [exact Hresp|]. rewrite Hdb.
    cbn [anomaly_alerts activity_logs with_anomaly_fingerprints stored_db
         with_activity_logs].
    split; [vm_compute; reflexivity|].
    rewrite length_app. cbn [length].
    assert (length (activity_logs (committed w2)) = 2%nat) as ->
      by (vm_compute; reflexivity).
    reflexivity.
Defined.

(* ================================================================= *)
(** * The risk band and the promotion rule *)

(** X19. On the band the endpoint computes, the four-clause promotion
    rule of the new-alert branch is the test [ml_score >= 0.70 or
    its_score >= 50]: the clauses on a critical band and on
    [its_score >= 65] add nothing. The band itself never drops when
    either score rises. *)
Theorem promotion_rule_collapses (ml its : Q) :
  (should_escalate (risk_band ml its) ml its = true
   <-> (7 # 10 <= ml \/ 50 <= its)%Q)
  /\ (forall ml' its', (ml <= ml')%Q -> (its <= its')%Q ->
        (band_rank (risk_band ml its) <= band_rank (risk_band ml' its'))%nat).
Proof.
  split.
  - rewrite should_escalate_iff.
    destruct (risk_band_in_band ml its)
      as [(Hb & H)|[(Hb & H1 & H2)|[(Hb & H1 & H2)|(Hb & H1)]]];
      unfold promoted; rewrite Hb; split.
    + intros _. destruct H; [left|right]; lra.
    + intros _. left. reflexivity.
    + intros [H|[[_ H]|[[_ H]|H]]]; try discriminate; lra.
    + intros [H|H]; [right; right; left|right; left]; auto.
    + intros [H|[[H _]|[[H _]|H]]]; try discriminate; lra.
    + intros [H|H]; lra.
    + intros [H|[[H _]|[[H _]|H]]]; try discriminate; lra.
    + intros [H|H]; lra.
  - intros ml' its' Hml Hits.
    destruct (risk_band_in_band ml its)
      as [(-> & H)|[(-> & H1 & H2)|[(-> & H1 & H2)|(-> & H1)]]];
      destruct (risk_band_in_band ml' its')
        as [(-> & H')|[(-> & H1' & H2')|[(-> & H1' & H2')|(-> & H1')]]];
      cbn; try lia; exfalso; lra.
Qed.

(* ================================================================= *)
(** * One alert and one threat per fingerprint *)

Lemma NoDup_map_snoc {A} (key : A -> string) (l : list A) (x : A) :
  List.NoDup (map key l) ->
  first_where (fun y => String.eqb (key y) (key x)) l = None ->
  List.NoDup (map key (l ++ [x])).
Proof.
  intros Hnd Hnone. rewrite map_app. cbn [map].
  apply NoDup_ListNoDup, NoDup_app.
  split; [apply NoDup_ListNoDup; exact Hnd|].
  split; [|apply NoDup_singleton].
  intros k Hk Hk'. apply list_elem_of_In in Hk.
  apply list_elem_of_singleton in Hk'. subst k.
  apply in_map_iff in Hk. destruct Hk as (y & Hy & Hin).
  pose proof (first_where_none _ _ _ Hnone Hin) as Hf. cbv beta in Hf.
  rewrite Hy, String.eqb_refl in Hf. discriminate Hf.
Qed.

(** The steps that write no new alert and no new threat. *)
Ltac dedup_steps :=
  repeat first
    [ keeps_step
    | lazymatch goal with
      | |- keeps _ commit =>
          let H := fresh in
          intros ? H; unfold deduplicated in *; cbn in *; tauto
      | |- keeps _ rollback =>
          let H := fresh in
          intros ? H; unfold deduplicated in *; cbn in *; tauto
      end
    | keeps_field
    | lazymatch goal with
      | |- keeps _ (modify_baselines _) => intros ? ?; assumption
      | |- keeps _ (modify_db _) =>
          let H1 := fresh in let H2 := fresh in
          let H3 := fresh in let H4 := fresh in
          intros ? [[H1 H2] [H3 H4]];
          unfold deduplicated, one_alert_per_fingerprint,
            one_threat_per_fingerprint in *;
          cbn; repeat split;
          first [assumption
                |rewrite update_first_map_key; [assumption|];
                 intros; reflexivity]
      end ].

Lemma escalate_to_threat_keeps_deduplicated (env : Env)
    (alert : AnomalyAlert.t) (a : UserActivity) (ml : Q) (expl : string) :
  keeps deduplicated (_escalate_to_threat env alert a ml expl).
Proof.
  intros w [[Ha Ha'] [Ht Ht']].
  destruct (escalate_to_threat_cases env alert a ml expl w)
    as (r & w' & Hrun & Hcases).
  rewrite Hrun. cbn [snd].
  destruct Hcases as [(t0 & _ & _ & ->)
                     |[(_ & _ & Hc & Hs & _)
                      |(Hfind & t & _ & Hfp & _ & _ & _ & Hsess & Hcomm)]].
  - repeat split; assumption.
  - unfold deduplicated. rewrite Hc, Hs. repeat split; assumption.
  - unfold deduplicated. rewrite Hcomm, Hsess.
    unfold one_alert_per_fingerprint, one_threat_per_fingerprint, threat_effect.
    cbn [anomaly_alerts threats with_anomaly_fingerprints with_anomaly_alerts
         with_threats].
    assert (List.NoDup (map Threat.threat_fingerprint (threats (session w) ++ [t])))
      as Hnew.
    { apply NoDup_map_snoc; [exact Ht|]. rewrite Hfp. exact Hfind. }
    rewrite update_first_map_key by (intros; reflexivity).
    repeat split; assumption.
Qed.

Ltac dedup_procedures :=
  unfold Loaded.ingest_handler, Loaded.ingest_body, store_activity,
    Loaded.analyse, classify, recent_context, Loaded.respond,
    fingerprint_bookkeeping, refresh_existing_alert,
    Loaded.publish_alert, Loaded.escalate_new_alert,
    alert_generated_response,
    Loaded._auto_escalate_to_incident, Loaded.call_with_two,
    calculate_its_score, score_rows, detect_anomaly, observe,
    _extract_ml_features, _calculate_rapid_activity_score.

Lemma publish_alert_keeps_deduplicated (env : Env) (a : UserActivity)
    (h : string) (ml : Q) (sd : ScoreData.t) (risk : string)
    (anomalies : list string) (expl : string) (now : Z)
    (naa : AnomalyAlert.t) :
  keeps deduplicated
        (Loaded.publish_alert env a h ml sd risk anomalies expl now naa).
Proof.
  dedup_procedures.
  repeat first
    [ lazymatch goal with
      | |- keeps _ (_escalate_to_threat _ _ _ _ _) =>
          apply escalate_to_threat_keeps_deduplicated
      end
    | progress dedup_steps ].
Qed.

Lemma create_alert_keeps_deduplicated (env : Env) (a : UserActivity)
    (h : string) (ml : Q) (sd : ScoreData.t) (risk : string)
    (anomalies : list string) (expl : string) (now : Z) (w : World) :
  deduplicated w ->
  session w = committed w ->
  first_where (fun x => String.eqb (AnomalyAlert.anomaly_fingerprint x) h)
              (anomaly_alerts (session w)) = None ->
  deduplicated
    (snd (Loaded.create_alert env a h ml sd risk anomalies expl now w)).
Proof.
  intros [[Ha Ha'] [Ht Ht']] Hset Hnone.
  unfold Loaded.create_alert.
  unfold bind, datetime_now, get_db, modify_db, commit.
  cbn [session committed user_baselines clock_reads ret].
  apply publish_alert_keeps_deduplicated.
  unfold deduplicated, one_alert_per_fingerprint, one_threat_per_fingerprint.
  cbn [session committed anomaly_alerts threats with_anomaly_alerts].
  assert (List.NoDup
            (map AnomalyAlert.anomaly_fingerprint
               (anomaly_alerts (session w)
                ++ [{| AnomalyAlert.alert_id :=
                         next_id AnomalyAlert.alert_id (anomaly_alerts (session w));
                       AnomalyAlert.user_id := user_id a;
                       AnomalyAlert.timestamp := now;
                       AnomalyAlert.anomaly_type := activity_type a;
                       AnomalyAlert.anomaly_fingerprint := h;
                       AnomalyAlert.ml_anomaly_score := ml;
                       AnomalyAlert.confidence := ml;
                       AnomalyAlert.activity_details := details a;
                       AnomalyAlert.status := "new";
                       AnomalyAlert.escalated_to_threat_id := None;
                       AnomalyAlert.suppressed_until :=
                         Some (clock env (clock_reads w)
                               + ALERT_SUPPRESSION_HOURS * usec_per_hour) |}])))
    as Hnew by (apply NoDup_map_snoc; [exact Ha|exact Hnone]).
  repeat split; assumption.
Qed.

Lemma alert_branch_keeps_deduplicated (env : Env) (a : UserActivity)
    (h : string) (ml : Q) (expl : string) (w : World) :
  deduplicated w -> session w = committed w ->
  deduplicated (snd (Loaded.alert_branch env a h ml expl w)).
Proof.
  intros Hd Hset. unfold Loaded.alert_branch, bind at 1, get_db.
  destruct (first_where _ (anomaly_alerts (session w))) as [ea|] eqn:Hex.
  - match goal with
    | |- deduplicated (snd (?c w)) =>
        assert (keeps deduplicated c) as Hk
          by (dedup_procedures; dedup_steps);
        exact (Hk w Hd)
    end.
  - unfold bind at 1.
    pose proof (calculate_its_score_same_data env (user_id a) w) as (Hc & Hs & Hb).
    destruct (calculate_its_score env (user_id a) w) as [[e|sd] w1];
      cbn [snd] in Hc, Hs, Hb.
    + cbn [snd]. unfold deduplicated. rewrite Hc, Hs. exact Hd.
    + unfold bind at 1, datetime_now.
      apply create_alert_keeps_deduplicated;
        cbn [session committed]; rewrite ?Hc, ?Hs.
      * exact Hd.
      * exact Hset.
      * exact Hex.
Qed.

Lemma bind_leads {A B} (I : World -> Prop) (c : M A) (k : A -> M B) (w : World) :
  I (snd (c w)) -> (forall x, keeps I (k x)) -> I (snd (bind c k w)).
Proof.
  intros Hc Hk. unfold bind.
  destruct (c w) as [[e|x] w']; cbn [snd] in *; [exact Hc|].
  apply Hk. exact Hc.
Qed.

Lemma respond_keeps_deduplicated (env : Env) (a : UserActivity)
    (v : bool * Q * string) (h : string) :
  keeps deduplicated (Loaded.respond env a v h).
Proof.
  intros w [[Ha _] [Ht _]]. destruct v as [[is_anomaly ml] expl].
  unfold Loaded.respond, bind at 1, commit.
  apply bind_leads.
  - destruct (is_anomaly && Qle_bool (3 # 10) ml).
    + apply alert_branch_keeps_deduplicated; [|reflexivity].
      unfold deduplicated. cbn [session committed]. auto.
    + cbn [ret snd]. unfold deduplicated. cbn [session committed]. auto.
  - intros l. unfold alert_generated_response. dedup_steps.
Qed.

Lemma loaded_ingest_handler_keeps_deduplicated (env : Env) (a : UserActivity) :
  keeps deduplicated (Loaded.ingest_handler env a).
Proof.
  unfold Loaded.ingest_handler, Loaded.ingest_body, store_activity,
    Loaded.analyse, classify, recent_context, fingerprint_bookkeeping,
    detect_anomaly, observe, _extract_ml_features,
    _calculate_rapid_activity_score.
  repeat first
    [ lazymatch goal with
      | |- keeps _ (Loaded.respond _ _ _ _) => apply respond_keeps_deduplicated
      end
    | progress dedup_steps ].
Qed.

(** X20. Deduplication holds as an invariant of the ingest endpoint: if
    the committed database holds at most one anomaly alert and at most
    one threat per fingerprint, so it does after any sequence of posts,
    whatever they were answered with. *)
Theorem fingerprints_stay_unique (env : Env) (posts : list UserActivity)
    (w : World) :
  one_alert_per_fingerprint (committed w) ->
  one_threat_per_fingerprint (committed w) ->
  one_alert_per_fingerprint (committed (after_posts env posts w))
  /\ one_threat_per_fingerprint (committed (after_posts env posts w)).
Proof.
  unfold after_posts. revert w.
  induction posts as [|a posts IH]; intros w Ha Ht; cbn [fold_left]; [auto|].
  assert (deduplicated (open_session w)) as Hd
    by (unfold deduplicated; cbn [open_session session committed]; auto).
  pose proof (loaded_ingest_handler_keeps_deduplicated env a (open_session w) Hd)
    as [[_ Ha1] [_ Ht1]].
  apply IH; unfold Loaded.ingest_activity;
    destruct (Loaded.ingest_handler env a (open_session w)) as [[[]|body] w'];
    assumption.
Qed.

Lemma fingerprints_stay_unique_witness :
  let env := Fixture.env_of Fixture.ten_am (Fixture.flat_detector (9 # 10))
                            (Fixture.loaded (1 # 10)) in
  let w := after_posts env
             [Fixture.big_email; Sample.bigger_email; Fixture.late_logon;
              Fixture.big_email] Fixture.fresh in
  one_alert_per_fingerprint (committed w)
  /\ one_threat_per_fingerprint (committed w)
  /\ length (activity_logs (committed w)) = 4%nat
  /\ length (anomaly_alerts (committed w)) = 2%nat.
Proof.
  intros env w.
  destruct (fingerprints_stay_unique env
              [Fixture.big_email; Sample.bigger_email; Fixture.late_logon;
               Fixture.big_email] Fixture.fresh) as [Ha Ht].
  - apply List.NoDup_nil.
  - apply List.NoDup_nil.
  - split; [exact Ha|]. split; [exact Ht|].
    split; vm_compute; reflexivity.
Defined.

(* ================================================================= *)
(** * The detector never learns a typical hour *)

(** The endpoint leaves the baselines alone or updates the user's once. *)
Lemma loaded_ingest_baselines (env : Env) (a : UserActivity) (w : World) :
  (~ known_user a (committed w)
   /\ user_baselines (snd (Loaded.ingest_activity env a w)) = user_baselines w)
  \/ (known_user a (committed w)
      /\ user_baselines (snd (Loaded.ingest_activity env a w))
         = _update_user_baseline (clock env (S (clock_reads w))) (user_id a) a
             (user_baselines w)).
Proof.
  destruct (known_or_not a (committed w)) as [Hu|Hu].
  - right. split; [exact Hu|].
    rewrite (loaded_ingest_activity_known env a w Hu).
    destruct (loaded_analyse_cases env a (after_store a w))
      as (r & w' & Hr & Hb & _).
    rewrite classify_baselines in Hb.
    cbn [after_store user_baselines clock_reads] in Hb.
    rewrite Hr. destruct r; exact Hb.
  - left. split.
    + intros [u Hk]. congruence.
    + rewrite (loaded_ingest_activity_unknown env a w Hu). reflexivity.
Qed.

Lemma served_untrained (env : Env) (w : World) :
  served env w -> untrained (user_baselines w).
Proof.
  induction 1 as [w H|w a uid recent _ IH|w a _ IH].
  - rewrite H. apply untrained_empty.
  - apply (detect_anomaly_keeps untrained update_keeps_untrained). exact IH.
  - destruct (loaded_ingest_baselines env a w) as [[_ ->]|[_ ->]];
      [exact IH|apply update_keeps_untrained; exact IH].
Qed.

(** X4. In every state the detector can reach, no user has a typical
    hour: the hour histogram is keyed by the hour of the day, so it
    never holds more than 24 entries and the update of line 285
    ([len(hour_frequency) > 100]) never runs. The "sometimes works at
    this hour" answer 0.3 of the off-hours score is therefore never
    given: for a user with a baseline, an off-hours hour scores exactly
    1 - (count at this hour / peak count). *)
Theorem typical_hours_never_learned (env : Env) (w : World) (uid : string)
    (b : Baseline) :
  served env w ->
  user_baselines w !! uid = Some b ->
  typical_hours b = ∅
  /\ (0 < length (hour_frequency b) <= 24)%nat
  /\ forall h, is_off_hours h = true ->
       _calculate_off_hours_score (user_baselines w) uid h
       == 1 - inject_Z (freq_at h (hour_frequency b))
              / inject_Z (max_value (hour_frequency b)).
Proof.
  intros Hreach Hub.
  destruct (served_untrained env w Hreach uid b Hub) as (Hth & Hne & Hh).
  split; [exact Hth|]. split.
  { split; [destruct (hour_frequency b); [congruence|cbn; lia]|].
    apply hourly_length. exact Hh. }
  intros h Hoff. unfold _calculate_off_hours_score. rewrite Hoff, Hub.
  cbn [negb]. rewrite Hth.
  rewrite bool_decide_eq_false_2 by set_solver.
  destruct (max_value_is_peak (hour_frequency b) Hne) as [[k Hk] _].
  assert (0 < max_value (hour_frequency b)) as Hpos.
  { destruct Hh as [_ Hall]. rewrite List.Forall_forall in Hall.
    specialize (Hall _ Hk). cbn [snd] in Hall. lia. }
  destruct (hour_frequency b) as [|kv hf] eqn:Hhf; [congruence|].
  cbv zeta. unfold freq_at.
  destruct (0 <? max_value (kv :: hf)) eqn:E; [|apply Z.ltb_ge in E; lia].
  apply py_min_le. apply deviation_within_one; [|exact Hpos].
  apply hourly_count. exact Hh.
Qed.

Lemma typical_hours_never_learned_witness :
  let env := Fixture.env_of Fixture.eleven_pm (Fixture.flat_detector (2 # 10))
                            (Fixture.loaded (1 # 10)) in
  let w := snd (Loaded.ingest_activity env Fixture.big_email Fixture.fresh) in
  exists b,
    user_baselines w !! "U002"%string = Some b
    /\ typical_hours b = ∅
    /\ _calculate_off_hours_score (user_baselines w) "U002" 23
       == 1 - inject_Z (freq_at 23 (hour_frequency b))
              / inject_Z (max_value (hour_frequency b)).
Proof.
  intros env w.
  assert (exists b, user_baselines w !! "U002"%string = Some b) as [b Hb]
    by (vm_compute; eexists; reflexivity).
  destruct (typical_hours_never_learned env w "U002"%string b) as (Hth & _ & Hs).
  - apply served_post. apply served_start. reflexivity.
  - exact Hb.
  - exists b. split; [exact Hb|]. split; [exact Hth|]. apply Hs. reflexivity.
Defined.
